(** * pbalign: file utilities and pipeline runner

    A shallow embedding of [pbalign/utils/fileutil.py] and of
    [pbalign/pbalignrunner.py], with the properties of the path, format,
    manifest, reference and pipeline code that the specification states.

    Python byte strings are [string]; the functions of [str], [os.path],
    [os] and [shutil] that the two modules call are modelled next to them,
    over an explicit process environment and an explicit file system. *)

From Stdlib Require Import ZArith Lia Ascii String.
From stdpp Require Import base option list strings gmap sorting.

Local Open Scope Z_scope.

(** ** Python [str] *)

Module Str.

Definition len (s : string) : Z := Z.of_nat (String.length s).

(** [not s] for a string: the empty string is falsy. *)
Definition is_empty (s : string) : bool :=
  match s with EmptyString => true | _ => false end.

Fixpoint take (n : nat) (s : string) : string :=
  match n, s with
  | S n', String c t => String c (take n' t)
  | _, _ => EmptyString
  end.

Fixpoint drop (n : nat) (s : string) : string :=
  match n, s with
  | S n', String _ t => drop n' t
  | _, _ => s
  end.

(** [s[:i]] and [s[i:]] for an index [i >= 0]. *)
Definition upto (s : string) (i : Z) : string := take (Z.to_nat i) s.
Definition from (s : string) (i : Z) : string := drop (Z.to_nat i) s.

(** [s.startswith(p)]. *)
Fixpoint startswith (p s : string) : bool :=
  match p, s with
  | EmptyString, _ => true
  | String a p', String b s' => if Ascii.eqb a b then startswith p' s' else false
  | String _ _, EmptyString => false
  end.

(** [s.endswith(c)] for a one-character suffix. *)
Fixpoint endswith_char (c : ascii) (s : string) : bool :=
  match s with
  | EmptyString => false
  | String a EmptyString => Ascii.eqb a c
  | String _ t => endswith_char c t
  end.

(** The remainder of [s] after the prefix [p], when [p] is a prefix. *)
Fixpoint strip_prefix (p s : string) : option string :=
  match p, s with
  | EmptyString, _ => Some s
  | String a p', String b s' => if Ascii.eqb a b then strip_prefix p' s' else None
  | String _ _, EmptyString => None
  end.

(** [s.find(c, i)] for a one-character needle: the least index [>= i]
    holding [c], [-1] when there is none. [go] scans the string from
    index [k]. *)
Fixpoint find_char_go (c : ascii) (i k : Z) (s : string) : Z :=
  match s with
  | EmptyString => -1
  | String a t =>
      if (i <=? k) && Ascii.eqb a c then k else find_char_go c i (k + 1) t
  end.
Definition find_char (c : ascii) (i : Z) (s : string) : Z := find_char_go c i 0 s.

(** [s.rfind(c)] for a one-character needle: the greatest index holding
    [c], [-1] when there is none. *)
Fixpoint rfind_char_go (c : ascii) (k : Z) (s : string) : Z :=
  match s with
  | EmptyString => -1
  | String a t =>
      let r := rfind_char_go c (k + 1) t in
      if 0 <=? r then r else if Ascii.eqb a c then k else -1
  end.
Definition rfind_char (c : ascii) (s : string) : Z := rfind_char_go c 0 s.

(** [s.find(p) != -1]: [p] occurs somewhere in [s]. *)
Fixpoint contains (p s : string) : bool :=
  startswith p s ||
  match s with
  | EmptyString => false
  | String _ t => contains p t
  end.

(** [s.lower()] on a byte string: only [A-Z] change. *)
Definition lower_char (c : ascii) : ascii :=
  let n := N_of_ascii c in
  if ((65 <=? n) && (n <=? 90))%N then ascii_of_N (n + 32) else c.

Fixpoint lower (s : string) : string :=
  match s with
  | EmptyString => EmptyString
  | String c t => String (lower_char c) (lower t)
  end.

(** [s.replace(old, new)] for a non-empty [old]: occurrences are found
    from the left and do not overlap. The fuel bounds the number of
    scanning steps; [replace] gives it the length of the string. *)
Fixpoint replace_fuel (fuel : nat) (old new s : string) : string :=
  match fuel with
  | O => s
  | S fuel' =>
      match s with
      | EmptyString => EmptyString
      | String c t =>
          match strip_prefix old s with
          | Some rest => new +:+ replace_fuel fuel' old new rest
          | None => String c (replace_fuel fuel' old new t)
          end
      end
  end.
Definition replace (old new s : string) : string :=
  replace_fuel (String.length s) old new s.

(** The characters that [str.strip()] and [str.rstrip()] remove. *)
Definition is_whitespace (c : ascii) : bool :=
  match c with
  | "009" | "010" | "011" | "012" | "013" | " " => true
  | _ => false
  end%char.

Fixpoint lstrip_by (f : ascii -> bool) (s : string) : string :=
  match s with
  | EmptyString => EmptyString
  | String c t => if f c then lstrip_by f t else s
  end.

Fixpoint rstrip_by (f : ascii -> bool) (s : string) : string :=
  match s with
  | EmptyString => EmptyString
  | String c t =>
      match rstrip_by f t with
      | EmptyString => if f c then EmptyString else String c EmptyString
      | r => String c r
      end
  end.

(** [s.strip()]. *)
Definition strip (s : string) : string :=
  rstrip_by is_whitespace (lstrip_by is_whitespace s).

(** [s.rstrip(c)] for one character. *)
Definition rstrip_char (c : ascii) (s : string) : string :=
  rstrip_by (Ascii.eqb c) s.

(** [s == c * len(s)]: every character of [s] is [c]. *)
Fixpoint all_char (c : ascii) (s : string) : bool :=
  match s with
  | EmptyString => true
  | String a t => Ascii.eqb a c && all_char c t
  end.

(** [s.split(c)] for a one-character separator: never the empty list. *)
Fixpoint split (c : ascii) (s : string) : list string :=
  match s with
  | EmptyString => [EmptyString]
  | String a t =>
      if Ascii.eqb a c then EmptyString :: split c t
      else match split c t with
           | w :: ws => String a w :: ws
           | [] => [String a EmptyString]
           end
  end.

(** [c.join(l)]. *)
Fixpoint join (c : string) (l : list string) : string :=
  match l with
  | [] => EmptyString
  | [w] => w
  | w :: ws => w +:+ c +:+ join c ws
  end.

(** [f.readlines()] on the contents of a file: the lines with their
    terminating newline, the last one possibly without. *)
Fixpoint readlines (s : string) : list string :=
  match s with
  | EmptyString => []
  | String c t =>
      if Ascii.eqb c "010"%char then String c EmptyString :: readlines t
      else match readlines t with
           | w :: ws => String c w :: ws
           | [] => [String c EmptyString]
           end
  end.

End Str.

(** ** The process environment and [os.path] (posixpath) *)

(** What the path functions read from the process: the working directory,
    the home directory of the current user ([$HOME], or the password
    database when it is unset) and the home directories of named users. *)
Record Env := {
  getcwd : string;
  userhome : string;
  getpwnam : string -> option string
}.

Module Posix.

Definition sep : ascii := "/"%char.

Definition isabs (s : string) : bool := Str.startswith "/" s.

(** [join(a, b)]. *)
Definition join (a b : string) : string :=
  if Str.startswith "/" b then b
  else if Str.is_empty a || Str.endswith_char sep a then a +:+ b
  else a +:+ "/" +:+ b.

(** [join] applied to all the elements of a non-empty list. *)
Definition join_list (l : list string) : string :=
  match l with
  | [] => EmptyString
  | w :: ws => fold_left join ws w
  end.

(** [split(p)]: the head loses its trailing slashes unless it is made
    of slashes only. *)
Definition split (p : string) : string * string :=
  let i := Str.rfind_char sep p + 1 in
  let head := Str.upto p i in
  let tail := Str.from p i in
  let head :=
    if negb (Str.is_empty head) && negb (Str.all_char sep head)
    then Str.rstrip_char sep head else head in
  (head, tail).

Definition dirname (p : string) : string := fst (split p).
Definition basename (p : string) : string :=
  Str.from p (Str.rfind_char sep p + 1).

(** [splitext(p)]: the extension starts at the last dot of the last
    component, unless only dots precede it there. [splitext_scan] is the
    loop that skips the dots at the start of the file name; it never runs
    out of the fuel [splitext] gives it. *)
Fixpoint splitext_scan (fuel : nat) (p : string) (filenameIndex dotIndex : Z)
  : option (string * string) :=
  match fuel with
  | O => None
  | S fuel' =>
      if filenameIndex <? dotIndex then
        if negb (String.eqb (Str.take 1 (Str.from p filenameIndex)) ".")
        then Some (Str.upto p dotIndex, Str.from p dotIndex)
        else splitext_scan fuel' p (filenameIndex + 1) dotIndex
      else None
  end.

Definition splitext (p : string) : string * string :=
  let sepIndex := Str.rfind_char sep p in
  let dotIndex := Str.rfind_char "."%char p in
  if sepIndex <? dotIndex then
    match splitext_scan (S (String.length p)) p (sepIndex + 1) dotIndex with
    | Some r => r
    | None => (p, EmptyString)
    end
  else (p, EmptyString).

(** One round of the loop of [normpath] over the components. *)
Definition normpath_step (initial_slashes : nat) (new_comps : list string)
    (comp : string) : list string :=
  if String.eqb comp "" || String.eqb comp "." then new_comps
  else if negb (String.eqb comp "..")
          || (Nat.eqb initial_slashes 0 && bool_decide (new_comps = []))
          || match last new_comps with
             | Some l => String.eqb l ".."
             | None => false
             end
  then new_comps ++ [comp]
  else removelast new_comps.

Fixpoint slashes (n : nat) : string :=
  match n with O => EmptyString | S n' => String sep (slashes n') end.

Definition normpath (path : string) : string :=
  if Str.is_empty path then "."
  else
    let initial_slashes :=
      if Str.startswith "/" path then
        if Str.startswith "//" path && negb (Str.startswith "///" path)
        then 2%nat else 1%nat
      else 0%nat in
    let comps := Str.split sep path in
    let new_comps := fold_left (normpath_step initial_slashes) comps [] in
    let path := slashes initial_slashes +:+ Str.join "/" new_comps in
    if Str.is_empty path then "." else path.

Section WithEnv.
Context (env : Env).

Definition abspath (path : string) : string :=
  normpath (if isabs path then path else join (getcwd env) path).

Definition expanduser (path : string) : string :=
  if negb (Str.startswith "~" path) then path
  else
    let i := Str.find_char sep 1 path in
    let i := if i <? 0 then Str.len path else i in
    let home :=
      if i =? 1 then Some (userhome env)
      else getpwnam env (Str.upto (Str.from path 1) (i - 1)) in
    match home with
    | None => path
    | Some h =>
        let r := Str.rstrip_char sep h +:+ Str.from path i in
        if Str.is_empty r then "/" else r
    end.

(** The components of [abspath(p)], without the empty ones. *)
Definition abs_components (p : string) : list string :=
  filter (fun x => negb (Str.is_empty x)) (Str.split sep (abspath p)).

Fixpoint commonprefix_len (a b : list string) : nat :=
  match a, b with
  | x :: a', y :: b' => if String.eqb x y then S (commonprefix_len a' b') else O
  | _, _ => O
  end.

(** [relpath(path)] with the default [start], the working directory;
    it raises [ValueError] on an empty path, here [None]. *)
Definition relpath (path : string) : option string :=
  if Str.is_empty path then None
  else
    let start_list := abs_components "." in
    let path_list := abs_components path in
    let i := commonprefix_len start_list path_list in
    let rel_list :=
      repeat ".." (length start_list - i) ++ drop i path_list in
    Some (match rel_list with [] => "." | _ => join_list rel_list end).

End WithEnv.

End Posix.

(** ** Exceptions and results *)

Inductive exn : Type :=
| IOError (msg : string)
| OSError (msg : string)
| ValueError (msg : string)
| RuntimeError (msg : string)
| AttributeError (msg : string)
| ParseError (msg : string)        (* xml.etree.ElementTree.ParseError *)
| ShutilError (msg : string)       (* shutil.Error *)
| Exception_ (msg : string)        (* a bare Exception *)
| ServiceError (msg : string).     (* raised by a collaborator *)

(** [str(e)]. *)
Definition exn_str (e : exn) : string :=
  match e with
  | IOError m | OSError m | ValueError m | RuntimeError m | AttributeError m
  | ParseError m | ShutilError m | Exception_ m | ServiceError m => m
  end.

Inductive result (A : Type) : Type :=
| Ok (a : A)
| Raise (e : exn).
Arguments Ok {A} a.
Arguments Raise {A} e.

Definition rbind {A B} (r : result A) (k : A -> result B) : result B :=
  match r with
  | Ok a => k a
  | Raise e => Raise e
  end.

Declare Scope result_scope.
Delimit Scope result_scope with result.
Notation "x <- r ;; k" := (rbind r (fun x => k))
  (at level 100, r at next level, right associativity) : result_scope.

Definition is_ok {A} (r : result A) : bool :=
  match r with Ok _ => true | Raise _ => false end.

(** ** The file system *)

(** A file system maps absolute, normalised paths to nodes. Files and
    directories carry the one permission bit the code depends on. *)
Inductive node : Type :=
| File (writable : bool) (content : string)
| Dir (writable : bool)
| Symlink (target : string).

Abbreviation FS := (gmap string node).

Module OS.
Section WithEnv.
Context (env : Env).

(** The key of a path: the operating system resolves a relative path
    against the working directory. *)
Definition key (p : string) : string := Posix.abspath env p.

(** Resolution follows symbolic links, at most 40 of them. *)
Fixpoint follow (fuel : nat) (fs : FS) (k : string) : option string :=
  match fuel with
  | O => None
  | S fuel' =>
      match fs !! k with
      | Some (Symlink t) =>
          follow fuel' fs (Posix.normpath (Posix.join (Posix.dirname k) t))
      | _ => Some k
      end
  end.

Definition realkey (fs : FS) (p : string) : option string :=
  if Str.is_empty p then None else follow 40 fs (key p).

(** [os.stat]: the node a path resolves to, never a symbolic link. *)
Definition stat (fs : FS) (p : string) : option node :=
  k ← realkey fs p; fs !! k.

(** [os.path.exists]: false for a dangling symbolic link. *)
Definition exists_ (fs : FS) (p : string) : bool :=
  match stat fs p with Some _ => true | None => false end.

Definition isdir (fs : FS) (p : string) : bool :=
  match stat fs p with Some (Dir _) => true | _ => false end.

(** [open(p, 'r').read()]. *)
Definition read_file (fs : FS) (p : string) : result string :=
  match stat fs p with
  | Some (File _ c) => Ok c
  | Some _ => Raise (IOError ("Is a directory: " +:+ p))
  | None => Raise (IOError ("No such file or directory: " +:+ p))
  end.

(** Opening [p] for writing, in the directory entry [k] that [p]
    resolves to: an existing file must be writable; a missing one is
    created, empty, when its directory exists and is writable.
    [keep] says whether an existing file keeps its content (mode
    ['a']) or loses it (mode ['w']). *)
Definition open_write (keep : bool) (fs : FS) (p : string) : result (string * FS) :=
  match realkey fs p with
  | None => Raise (IOError ("No such file or directory: " +:+ p))
  | Some k =>
      match fs !! k with
      | Some (File true c) =>
          Ok (k, if keep then fs else <[k := File true ""]> fs)
      | Some (File false _) => Raise (IOError ("Permission denied: " +:+ p))
      | Some _ => Raise (IOError ("Is a directory: " +:+ p))
      | None =>
          match stat fs (Posix.dirname k) with
          | Some (Dir true) => Ok (k, <[k := File true ""]> fs)
          | Some (Dir false) => Raise (IOError ("Permission denied: " +:+ p))
          | _ => Raise (IOError ("No such file or directory: " +:+ p))
          end
      end
  end.

(** [with open(p, 'a'): pass]. *)
Definition open_append (fs : FS) (p : string) : result FS :=
  (r <- open_write true fs p ;; Ok (snd r))%result.

(** [os.readlink]. *)
Definition readlink (fs : FS) (p : string) : result string :=
  if Str.is_empty p then Raise (OSError "No such file or directory")
  else match fs !! key p with
       | Some (Symlink t) => Ok t
       | Some _ => Raise (OSError ("Invalid argument: " +:+ p))
       | None => Raise (OSError ("No such file or directory: " +:+ p))
       end.

(** [os.path.samefile], as [shutil._samefile] uses it: both paths
    resolve to the same existing node. *)
Definition samefile (fs : FS) (a b : string) : bool :=
  match realkey fs a, realkey fs b with
  | Some ka, Some kb =>
      String.eqb ka kb && bool_decide (is_Some (fs !! ka))
  | _, _ => false
  end.

(** The entries below directory entry [k]. *)
Definition below (k k' : string) : bool :=
  Str.startswith (k +:+ "/") k'.

Definition has_entries (fs : FS) (k : string) : bool :=
  map_fold (fun k' _ b => b || below k k') false fs.

(** What is below [ks] goes below [kd]. *)
Definition carry_entries (ks kd : string) (fs : FS) : FS :=
  map_fold (fun k' nd acc =>
              match Str.strip_prefix (ks +:+ "/") k' with
              | Some rest => <[kd +:+ "/" +:+ rest := nd]> (delete k' acc)
              | None => acc
              end) fs fs.

(** [os.rename(src, dst)]: the entry itself moves, a symbolic link is
    not followed; both directories must exist and be writable. *)
Definition rename (fs : FS) (src dst : string) : result FS :=
  if Str.is_empty src || Str.is_empty dst then
    Raise (OSError "No such file or directory")
  else
    let ks := key src in
    let kd := key dst in
    match fs !! ks with
    | None => Raise (OSError ("No such file or directory: " +:+ src))
    | Some nd =>
        match stat fs (Posix.dirname ks), stat fs (Posix.dirname kd) with
        | Some (Dir ws), Some (Dir wd) =>
            if negb (ws && wd) then Raise (OSError "Permission denied")
            else if String.eqb ks kd then Ok fs
            else if below ks kd then Raise (OSError "Invalid argument")
            else
              let moved := <[kd := nd]> (delete ks (carry_entries ks kd fs)) in
              match nd, fs !! kd with
              | Dir _, Some (Dir _) =>
                  if has_entries fs kd then Raise (OSError "Directory not empty")
                  else Ok moved
              | Dir _, Some _ => Raise (OSError "Not a directory")
              | _, Some (Dir _) => Raise (OSError "Is a directory")
              | _, _ => Ok moved
              end
        | _, _ => Raise (OSError "No such file or directory")
        end
    end.

(** [os.unlink]. *)
Definition unlink (fs : FS) (p : string) : result FS :=
  if Str.is_empty p then Raise (OSError "No such file or directory")
  else
    let k := key p in
    match fs !! k with
    | None => Raise (OSError ("No such file or directory: " +:+ p))
    | Some (Dir _) => Raise (OSError ("Is a directory: " +:+ p))
    | Some _ =>
        match stat fs (Posix.dirname k) with
        | Some (Dir true) => Ok (delete k fs)
        | _ => Raise (OSError ("Permission denied: " +:+ p))
        end
    end.

End WithEnv.
End OS.

(** ** [shutil.move] *)

Module Shutil.
Section WithEnv.
Context (env : Env).

(** [shutil.copy2(src, dst)] for a [dst] that is not a directory: the
    content of the file [src] resolves to is written to [dst]. *)
Definition copy2 (fs : FS) (src dst : string) : result FS :=
  if OS.samefile env fs src dst then
    Raise (ShutilError ("`" +:+ src +:+ "` and `" +:+ dst +:+ "` are the same file"))
  else
    (content <- OS.read_file env fs src ;;
     r <- OS.open_write env false fs dst ;;
     Ok (<[fst r := File true content]> (snd r)))%result.

(** [shutil._destinsrc]. *)
Definition destinsrc (src dst : string) : bool :=
  let src := Posix.abspath env src in
  let dst := Posix.abspath env dst in
  let src := if Str.endswith_char Posix.sep src then src else src +:+ "/" in
  let dst := if Str.endswith_char Posix.sep dst then dst else dst +:+ "/" in
  Str.startswith src dst.

(** [shutil.move(src, dst)]. The call returns the file system it
    leaves behind also when it raises: the copy that replaces a failed
    rename may have been made when removing the source fails. The
    copy of a whole directory, which on one device is stopped by what
    stopped the rename, is not carried out in this model. *)
Definition move (fs : FS) (src dst : string) : result unit * FS :=
  let finish (real_dst : string) : result unit * FS :=
    match OS.rename env fs src real_dst with
    | Ok fs' => (Ok tt, fs')
    | Raise (OSError m) =>
        if OS.isdir env fs src then
          if destinsrc src dst then
            (Raise (ShutilError ("Cannot move a directory '" +:+ src
                                 +:+ "' into itself '" +:+ dst +:+ "'.")), fs)
          else (Raise (OSError m), fs)
        else
          match copy2 fs src real_dst with
          | Raise e => (Raise e, fs)
          | Ok fs1 =>
              match OS.unlink env fs1 src with
              | Raise e => (Raise e, fs1)
              | Ok fs2 => (Ok tt, fs2)
              end
          end
    | Raise e => (Raise e, fs)
    end in
  if OS.isdir env fs dst then
    if OS.samefile env fs src dst then
      match OS.rename env fs src dst with
      | Ok fs' => (Ok tt, fs')
      | Raise e => (Raise e, fs)
      end
    else
      let real_dst :=
        Posix.join dst (Posix.basename (Str.rstrip_char Posix.sep src)) in
      if OS.exists_ env fs real_dst then
        (Raise (ShutilError ("Destination path '" +:+ real_dst
                             +:+ "' already exists")), fs)
      else finish real_dst
  else finish dst.

End WithEnv.
End Shutil.

(** ** XML trees ([xml.etree.ElementTree]) *)

#[warnings="-register-all"]
Inductive Element : Type :=
| Elem (tag : string) (attrib : list (string * string))
       (text : option string) (children : list Element).

Module ET.
Definition tag (e : Element) : string := let 'Elem t _ _ _ := e in t.
Definition text (e : Element) : option string := let 'Elem _ _ x _ := e in x.
Definition getchildren (e : Element) : list Element := let 'Elem _ _ _ c := e in c.

(** [e.get(name)]. *)
Definition get (e : Element) (name : string) : option string :=
  let 'Elem _ a _ _ := e in
  snd <$> List.find (fun kv => String.eqb (fst kv) name) a.

(** [e.find(t)] for a plain tag: the first child with that tag. *)
Definition find (e : Element) (t : string) : option Element :=
  List.find (fun c => String.eqb (tag c) t) (getchildren e).

(** [e.findall("t1/t2")]: the [t2] children of the [t1] children. *)
Definition findall2 (e : Element) (t1 t2 : string) : list Element :=
  c ← List.filter (fun c => String.eqb (tag c) t1) (getchildren e);
  List.filter (fun d => String.eqb (tag d) t2) (getchildren c).
End ET.

(** ** pbalign/utils/fileutil.py *)

Inductive FileFormat : Type :=
| FASTA | PLS | PLX | BAS | BAX | FOFN | SAM | CMP | RGN | SA | XML
| UNKNOWN | CCS | BAM.

Global Instance FileFormat_eq_dec : EqDecision FileFormat.
Proof. solve_decision. Defined.

(** The values of the members of [FILE_FORMATS]. *)
Definition format_name (f : FileFormat) : string :=
  match f with
  | FASTA => "FASTA" | PLS => "PLS_H5" | PLX => "PLX_H5" | BAS => "BAS_H5"
  | BAX => "BAX_H5" | FOFN => "FOFN" | SAM => "SAM" | CMP => "CMP_H5"
  | RGN => "RGN_H5" | SA => "SA" | XML => "XML" | UNKNOWN => "UNKNOWN"
  | CCS => "CCS_H5" | BAM => "BAM"
  end.

Definition VALID_INPUT_FORMATS : list FileFormat :=
  [FASTA; PLS; PLX; BAS; BAX; FOFN; CCS; BAM; XML].

Definition VALID_REGIONTABLE_FORMATS : list FileFormat := [RGN; FOFN].

Definition VALID_OUTPUT_FORMATS : list FileFormat := [CMP; SAM; BAM; XML].

(** [x in l] for a list of strings. *)
Definition str_in (x : string) (l : list string) : bool :=
  existsb (String.eqb x) l.

Definition isValidInputFormat (ff : FileFormat) : bool :=
  bool_decide (ff ∈ VALID_INPUT_FORMATS).

Definition isValidOutputFormat (ff : FileFormat) : bool :=
  bool_decide (ff ∈ VALID_OUTPUT_FORMATS).

Definition isValidRegionTableFormat (ff : FileFormat) : bool :=
  bool_decide (ff ∈ VALID_REGIONTABLE_FORMATS).

Definition getFileFormat (filename : string) : FileFormat :=
  let '(base, ext) := Posix.splitext filename in
  let ext := Str.lower ext in
  if str_in ext [".fa"; ".fasta"; ".fsta"; ".fna"] then FASTA
  else if str_in ext [".sam"] then SAM
  else if str_in ext [".bam"] then BAM
  else if str_in ext [".sa"] then SA
  else if str_in ext [".fofn"] then FOFN
  else if str_in ext [".xml"] then XML
  else if str_in ext [".h5"] then
    let ext := Str.lower (snd (Posix.splitext base)) in
    if str_in ext [".pls"] then PLS
    else if str_in ext [".plx"] then PLX
    else if str_in ext [".bas"] then BAX
    else if str_in ext [".bax"] then BAX
    else if str_in ext [".cmp"] then CMP
    else if str_in ext [".rgn"] then RGN
    else if str_in ext [".ccs"] then CCS
    else UNKNOWN
  else UNKNOWN.

(** The bundle that [checkReferencePath] returns. *)
Record ReferenceBundle := {
  rb_refpath : string;
  rb_fastaFile : string;
  rb_sawriterFile : option string;
  rb_isWithinRepository : bool;
  rb_adapterGffFile : option string
}.

(** The fields of a [ReferenceInfo] object. *)
Record ReferenceInfo := {
  ri_dirname : string;
  refFastaFile : option string;
  refSawriterFile : option string;
  ri_desc : option string;
  adapterGffFile : option string;
  ri_fileName : string
}.

Section FileUtil.
Context (env : Env).

(** The XML parser, from the contents of a file to its root element,
    [None] when the document is malformed ([ET.ParseError]); and
    [ReferenceSet(path).toFofn()] of pbcore. *)
Context (ET_parse : string -> option Element).
Context (ReferenceSet_toFofn : FS -> string -> result (list string)).

Local Open Scope result_scope.

Definition real_ppath (fn : string) : string :=
  Str.replace "\ " " " (Posix.abspath env (Posix.expanduser env fn)).

Definition real_upath (fn : string) : string :=
  Str.replace " " "\ " (real_ppath fn).

(** The two calls that refresh a stale directory cache read the file
    system and discard what they find. *)
Definition isExist (fs : FS) (ff : string) : bool :=
  if Str.is_empty ff then false else OS.exists_ env fs ff.

Definition getFilesFromFOFN (fs : FS) (fofnname : string) : result (list string) :=
  content <- OS.read_file env fs (real_ppath fofnname) ;;
  let lines := merge_sort String.le (Str.readlines content) in
  Ok ((fun l => real_upath (Str.strip l)) <$> lines).

Definition getFileFormatsFromFOFN (fs : FS) (fofnname : string)
  : result (list FileFormat) :=
  files <- getFilesFromFOFN fs fofnname ;;
  Ok (getFileFormat <$> files).

(** The loop of [checkInputFile] over the entries of a manifest. *)
Fixpoint check_entries (fs : FS) (fileList : list string) : result (list string) :=
  match fileList with
  | [] => Ok []
  | f :: rest =>
      if negb (isExist fs f)
      then Raise (IOError ("A file in the fofn " +:+ f +:+ " does not exist."))
      else r <- check_entries fs rest ;; Ok (f :: r)
  end.

Definition checkInputFile (fs : FS) (filename : string)
    (validFormats : list FileFormat) : result string :=
  let filename := real_ppath filename in
  if negb (bool_decide (getFileFormat filename ∈ validFormats)) then
    Raise (IOError ("The input file format can only be "
                    +:+ Str.join "," (format_name <$> validFormats) +:+ "."))
  else if negb (isExist fs filename) then
    Raise (IOError ("Input file " +:+ filename +:+ " does not exist."))
  else
    _ <- (if bool_decide (getFileFormat filename = FOFN) then
            fileList <- getFilesFromFOFN fs filename ;;
            if Nat.eqb (length fileList) 0 then
              Raise (ValueError ("FOFN file " +:+ filename +:+ " is empty."))
            else check_entries fs fileList
          else Ok []) ;;
    Ok (real_upath filename).

Definition getRealFileFormat (fs : FS) (filename : string) : result FileFormat :=
  if bool_decide (getFileFormat filename = FOFN) then
    fileList <- getFilesFromFOFN fs filename ;;
    match fileList with
    | [] => Raise (Exception_ "AssertionError")
    | f :: _ => Ok (getFileFormat f)
    end
  else Ok (getFileFormat filename).

Definition checkRegionTableFile (fs : FS) (filename : option string)
  : result (option string) :=
  match filename with
  | None => Ok None
  | Some f => r <- checkInputFile fs f VALID_REGIONTABLE_FORMATS ;; Ok (Some r)
  end.

(** [checkOutputFile] opens the path for appending, which creates the
    file: the call returns the file system it leaves behind. *)
Definition checkOutputFile (fs : FS) (filename : string) : result (string * FS) :=
  let filename := real_ppath filename in
  if negb (isValidOutputFormat (getFileFormat filename)) then
    Raise (ValueError "The output file format can only be CMP.H5, SAM, BAM or XML.")
  else
    match OS.open_append env fs filename with
    | Raise (IOError m) =>
        Raise (IOError ("Could not access output file " +:+ filename +:+ "." +:+ m))
    | Raise e => Raise e
    | Ok fs' => Ok (real_upath filename, fs')
    end.

(** [real_upath(op.join(self.dirname, op.relpath(text)))]: [relpath]
    raises on [None] and on the empty string. *)
Definition descriptor_path (dirname : string) (text : option string)
  : result string :=
  match text ≫= Posix.relpath env with
  | None => Raise (ValueError "no path specified")
  | Some r => Ok (real_upath (Posix.join dirname r))
  end.

(** The loop of [_parse] over the children of the [reference] element;
    the accumulator holds [self.desc] and [self.refSawriterFile]. *)
Fixpoint parse_reference_children (dirname : string) (nodes : list Element)
    (acc : option string * option string)
  : result (option string * option string) :=
  match nodes with
  | [] => Ok acc
  | node :: rest =>
      let desc :=
        if String.eqb (ET.tag node) "description" then ET.text node
        else fst acc in
      if String.eqb (ET.tag node) "index_file" then
        match ET.get node "type" with
        | None => Raise (AttributeError "'NoneType' object has no attribute 'lower'")
        | Some ty =>
            if String.eqb (Str.lower ty) "sawriter" then
              sa <- descriptor_path dirname (ET.text node) ;;
              parse_reference_children dirname rest (desc, Some sa)
            else parse_reference_children dirname rest (desc, snd acc)
        end
      else parse_reference_children dirname rest (desc, snd acc)
  end.

(** The loop of [_parse] over the annotations: it stops at the first
    one of type [adapter]. *)
Fixpoint parse_annotations (dirname : string) (annotations : list Element)
  : result (option string) :=
  match annotations with
  | [] => Ok None
  | annotation :: rest =>
      if bool_decide (ET.get annotation "type" = Some "adapter") then
        match ET.find annotation "file" with
        | None => Raise (AttributeError "'NoneType' object has no attribute 'text'")
        | Some f =>
            match ET.text f with
            | None =>
                Raise (AttributeError "'NoneType' object has no attribute 'startswith'")
            | Some t => Ok (Some (real_upath (Posix.join dirname t)))
            end
        end
      else parse_annotations dirname rest
  end.

(** The body of the [try] block of [ReferenceInfo._parse]. *)
Definition parse_body (fs : FS) (dirname fileName self_fileName : string)
  : result ReferenceInfo :=
  content <- OS.read_file env fs fileName ;;
  match ET_parse content with
  | None => Raise (ParseError "syntax error")
  | Some root =>
      match ET.find root "reference" with
      | None => Raise (AttributeError "'NoneType' object has no attribute 'find'")
      | Some ref =>
          match ET.find ref "file" with
          | None => Raise (AttributeError "'NoneType' object has no attribute 'get'")
          | Some refFile =>
              match ET.get refFile "format" with
              | None =>
                  Raise (AttributeError "'NoneType' object has no attribute 'lower'")
              | Some refFormat =>
                  fasta <-
                    (if Str.contains "text/fasta" (Str.lower refFormat)
                     then descriptor_path dirname (ET.text refFile)
                     else Raise (IOError ("Could not find the reference fasta "
                                          +:+ "file in reference.info.xml."))) ;;
                  acc <- parse_reference_children dirname (ET.getchildren ref)
                           (None, None) ;;
                  gff <- parse_annotations dirname
                           (ET.findall2 root "annotations" "annotation") ;;
                  Ok {| ri_dirname := dirname;
                        refFastaFile := Some fasta;
                        refSawriterFile := snd acc;
                        ri_desc := fst acc;
                        adapterGffFile := gff;
                        ri_fileName := self_fileName |}
              end
          end
      end
  end.

(** [ReferenceInfo._parse], with its two handlers. *)
Definition _parse (fs : FS) (dirname self_fileName : string)
  : result ReferenceInfo :=
  let fileName := real_ppath self_fileName in
  if isExist fs fileName then
    match parse_body fs dirname fileName self_fileName with
    | Raise (IOError m) => Raise (IOError m)
    | Raise (ParseError _) => Raise (ParseError ("Failed to parse " +:+ fileName))
    | r => r
    end
  else Raise (IOError (fileName +:+ " is not a valid reference info file.")).

(** [ReferenceInfo(fileName)]. *)
Definition ReferenceInfo_init (fs : FS) (fileName : string) : result ReferenceInfo :=
  let fileName := real_ppath fileName in
  if negb (bool_decide (getFileFormat fileName = XML)) then
    Raise (ValueError "The reference info file is not in XML format.")
  else _parse fs (Posix.dirname fileName) (real_upath fileName).

(** The first part of [checkReferencePath]: the direct FASTA file, when
    the argument names one, and the place of the descriptor. *)
Definition locate_reference (fs : FS) (refpath : string)
  : result (option string * string) :=
  if bool_decide (getFileFormat refpath = FASTA) then
    Ok (Some refpath,
        Posix.join (fst (Posix.split (Posix.dirname refpath))) "reference.info.xml")
  else if bool_decide (getFileFormat refpath = XML) then
    fastaFiles <- ReferenceSet_toFofn fs refpath ;;
    match fastaFiles with
    | [f] =>
        Ok (Some (if Str.startswith "file:" f then Str.from f 5 else f),
            Posix.join (fst (Posix.split (Posix.dirname refpath)))
                       "reference.info.xml")
    | _ => Raise (Exception_ (refpath +:+ " must contain exactly one reference"))
    end
  else Ok (None, Posix.join refpath "reference.info.xml").

(** The [try] statement of [checkReferencePath]: the values of
    [fastaFile], [sawriterFile], [isWithinRepository] and
    [adapterGffFile] after it. *)
Definition consult_descriptor (fs : FS) (refpath : string)
    (fastaFile : option string) (refinfoxml : string)
  : result (option string * option string * bool * option string) :=
  match ReferenceInfo_init fs refinfoxml with
  | Ok refinfoobj =>
      Ok (refFastaFile refinfoobj, refSawriterFile refinfoobj, true,
          adapterGffFile refinfoobj)
  | Raise e =>
      match fastaFile with
      | None =>
          Raise (IOError ("Could not find reference fasta file, please "
                          +:+ "check " +:+ refpath +:+ "." +:+ "
" +:+ exn_str e))
      | Some _ => Ok (fastaFile, None, false, None)
      end
  end.

(** The last part of [checkReferencePath]: the check of the FASTA file
    and the fate of the index file. *)
Definition finish_reference (fs : FS) (refpath : string)
    (v : option string * option string * bool * option string)
  : result ReferenceBundle :=
  let '(fastaFile, sawriterFile, isWithinRepository, adapterGffFile) := v in
  match fastaFile with
  | None => Raise (AttributeError "'NoneType' object has no attribute 'rfind'")
  | Some fastaFile =>
      if negb (bool_decide (getFileFormat fastaFile = FASTA)) then
        Raise (IOError ("The reference file specified is not in FASTA format. "
                        +:+ "Please check " +:+ refpath +:+ "."))
      else
        let sawriterFile :=
          match sawriterFile with
          | Some sa =>
              if negb (bool_decide (getFileFormat sa = SA)) || negb (isExist fs sa)
              then None else Some sa
          | None => None
          end in
        let sawriterFile := real_upath <$> sawriterFile in
        Ok {| rb_refpath := real_upath refpath;
              rb_fastaFile := real_upath fastaFile;
              rb_sawriterFile := sawriterFile;
              rb_isWithinRepository := isWithinRepository;
              rb_adapterGffFile := adapterGffFile |}
  end.

Definition checkReferencePath (fs : FS) (inRefpath : string)
  : result ReferenceBundle :=
  let refpath := real_ppath inRefpath in
  if negb (isExist fs refpath) then
    Raise (IOError ("The input path " +:+ refpath +:+ " does not exist."))
  else
    loc <- locate_reference fs refpath ;;
    v <- consult_descriptor fs refpath (fst loc) (snd loc) ;;
    finish_reference fs refpath v.

End FileUtil.

(** ** pbalign/pbalignrunner.py *)

(** The parsed options the runner reads. [keepTmpFiles] is [None] when
    the options object has no such attribute. *)
Record Args := {
  algorithm : string;
  useccs : option string;
  readType : option string;
  forQuiver : bool;
  filterAdapterOnly : bool;
  keepTmpFiles : option bool;
  nproc : Z
}.

Definition set_readType (a : Args) (v : option string) : Args :=
  {| algorithm := algorithm a; useccs := useccs a; readType := v;
     forQuiver := forQuiver a; filterAdapterOnly := filterAdapterOnly a;
     keepTmpFiles := keepTmpFiles a; nproc := nproc a |}.

(** The fields of [PBAlignFiles] the runner reads and writes. *)
Record PBAlignFiles := {
  inputFileFormat : option FileFormat;
  outputFileName : string;
  targetFileName : string;
  alignerSamOut : string;
  filteredSam : string;
  adapterGffFileName : option string
}.

Definition set_filteredSam (f : PBAlignFiles) (v : string) : PBAlignFiles :=
  {| inputFileFormat := inputFileFormat f; outputFileName := outputFileName f;
     targetFileName := targetFileName f; alignerSamOut := alignerSamOut f;
     filteredSam := v; adapterGffFileName := adapterGffFileName f |}.

Inductive DatasetType : Type := AlignmentSet | ConsensusAlignmentSet.

(** The calls the runner makes to its collaborators, in the order it
    makes them: the trace against which the pipeline is specified. *)
Inductive Call : Type :=
| CallServiceNew (name : string)
| CallCheckAvailability
| CallAlignRun
| CallRegisterNewTmpFile (suffix : string)
| CallFilterRun
| CallBamPostRun
| CallDatasetWrite (t : DatasetType) (outBam refFile outFile : string)
| CallCleanUp (realDelete : bool).

Global Instance DatasetType_eq_dec : EqDecision DatasetType.
Proof. solve_decision. Defined.
Global Instance Call_eq_dec : EqDecision Call.
Proof. solve_decision. Defined.

Section Runner.
Context (env : Env).

(** [X] is the private state of the collaborators: the registry of the
    temporary file manager, the aligner's own data. The objects the
    runner shares with them, the options and the file names, are in the
    world with the file system, so that a collaborator may change them. *)
Context {X : Type}.

Record World := {
  w_fs : FS;
  w_args : Args;
  w_fileNames : PBAlignFiles;
  w_ext : X
}.

Definition action (A : Type) : Type := World -> result A * World.

(** The collaborators of the runner: the aligner services, the filter
    service, the BAM post-processing service, the temporary file
    manager and the dataset writer of pbcore; and the list of algorithm
    names of [pbalign.options]. *)
Record Services := {
  ALGORITHM_CANDIDATES : list string;
  service_new : string -> action unit;
  service_checkAvailability : string -> action unit;
  service_run : string -> action unit;
  service_scoreSign : string -> World -> Z;
  filter_run : string -> string -> string -> string -> Z -> option string
               -> action unit;
  bampost_run : Z -> action unit;
  tmp_RegisterNewTmpFile : string -> action string;
  tmp_CleanUp : bool -> action unit;
  dataset_write : DatasetType -> string -> string -> string -> action unit
}.

Context (sv : Services).

(** The runner object: the world, its own fields and the trace. *)
Record Runner := {
  world : World;
  _output_dataset_type : DatasetType;
  _alnService : option string;
  calls : list Call
}.

Definition M (A : Type) : Type := Runner -> result A * Runner.

Definition ret {A} (a : A) : M A := fun r => (Ok a, r).
Definition raise {A} (e : exn) : M A := fun r => (Raise e, r).
Definition bind {A B} (m : M A) (k : A -> M B) : M B :=
  fun r => match m r with
           | (Ok a, r') => k a r'
           | (Raise e, r') => (Raise e, r')
           end.

(** A call to a collaborator: it is recorded, then made. *)
Definition call {A} (c : Call) (f : action A) : M A :=
  fun r =>
    let '(res, w) := f (world r) in
    (res, {| world := w; _output_dataset_type := _output_dataset_type r;
             _alnService := _alnService r; calls := calls r ++ [c] |}).

Definition get_world : M World := fun r => (Ok (world r), r).

Definition put_world (w : World) : M unit :=
  fun r => (Ok tt, {| world := w; _output_dataset_type := _output_dataset_type r;
                      _alnService := _alnService r; calls := calls r |}).

Definition put_dataset_type (t : DatasetType) : M unit :=
  fun r => (Ok tt, {| world := world r; _output_dataset_type := t;
                      _alnService := _alnService r; calls := calls r |}).

Definition put_alnService (s : string) : M unit :=
  fun r => (Ok tt, {| world := world r;
                      _output_dataset_type := _output_dataset_type r;
                      _alnService := Some s; calls := calls r |}).

Definition with_fs (w : World) (fs : FS) : World :=
  {| w_fs := fs; w_args := w_args w; w_fileNames := w_fileNames w;
     w_ext := w_ext w |}.

Definition with_args (w : World) (a : Args) : World :=
  {| w_fs := w_fs w; w_args := a; w_fileNames := w_fileNames w;
     w_ext := w_ext w |}.

Definition with_fileNames (w : World) (f : PBAlignFiles) : World :=
  {| w_fs := w_fs w; w_args := w_args w; w_fileNames := f;
     w_ext := w_ext w |}.

Notation "x <- m ;;; k" := (bind m (fun x => k))
  (at level 100, m at next level, right associativity).
Notation "m ;;; k" := (bind m (fun _ => k))
  (at level 100, right associativity).

Definition _createAlignService (name : string) : M string :=
  if negb (str_in name (ALGORITHM_CANDIDATES sv)) then
    raise (ValueError ("ERROR: unrecognized algorithm " +:+ name))
  else
    (if String.eqb name "blasr" then call (CallServiceNew "blasr") (service_new sv "blasr")
     else if String.eqb name "bowtie" then call (CallServiceNew "bowtie") (service_new sv "bowtie")
     else if String.eqb name "gmap" then call (CallServiceNew "gmap") (service_new sv "gmap")
     else raise (ValueError ("Service for " +:+ name +:+ " is not implemented."))) ;;;
    call CallCheckAvailability (service_checkAvailability sv name) ;;;
    ret name.

(** [_makeSane(args, fileNames)]: the options object is changed in
    place, also when the check then fails. *)
Definition _makeSane (args : Args) (fileNames : PBAlignFiles) : result unit * Args :=
  let args :=
    if bool_decide (useccs args = Some "useccsdenovo")
    then set_readType args (Some "CCS") else args in
  let args :=
    if bool_decide (inputFileFormat fileNames = Some CCS)
    then set_readType args (Some "CCS") else args in
  let outFormat := getFileFormat (outputFileName fileNames) in
  if bool_decide (outFormat = CMP) then
    (Raise (IOError "pbalign no longer supports CMP.H5 Output in 3.0."), args)
  else if bool_decide (outFormat = BAM) || bool_decide (outFormat = XML) then
    if negb (String.eqb (algorithm args) "blasr") then
      (Raise (ValueError "Must choose blasr in order to output a bam file."), args)
    else if filterAdapterOnly args then
      (Raise (ValueError "-filterAdapter does not work when out format is BAM."), args)
    else (Ok tt, args)
  else (Ok tt, args).

(** [_output]: the file system operations of the SAM branch act on the
    file system of the world. *)
Definition _output (inSam refFile outFile : string) (readType : option string)
  : M (string * Z * string) :=
  let outFormat := getFileFormat outFile in
  (if bool_decide (outFormat = SAM) then
     w <- get_world ;;;
     match OS.readlink env (w_fs w) (real_ppath env inSam) with
     | Raise e => raise e
     | Ok target =>
         match Shutil.move env (w_fs w) target (real_ppath env outFile) with
         | (Ok _, fs') => put_world (with_fs w fs')
         | (Raise (ShutilError m), fs') =>
             put_world (with_fs w fs') ;;;
             raise (RuntimeError ("Exited with error: " +:+ m))
         | (Raise e, fs') => put_world (with_fs w fs') ;;; raise e
         end
     end
   else if bool_decide (outFormat = CMP) then
     raise (IOError "pbalign no longer supports CMP.H5 Output in 3.0.")
   else if bool_decide (outFormat = XML) then
     let outBam := Str.upto outFile (Str.len outFile - 3) +:+ "bam" in
     (if bool_decide (readType = Some "CCS")
      then put_dataset_type ConsensusAlignmentSet else ret tt) ;;;
     t <- (fun r => (Ok (_output_dataset_type r), r)) ;;;
     call (CallDatasetWrite t (real_ppath env outBam) refFile outFile)
          (dataset_write sv t (real_ppath env outBam) refFile outFile)
   else ret tt) ;;;
  ret ("", 0, "").

Definition _cleanUp (realDelete : bool) : M unit :=
  call (CallCleanUp realDelete) (tmp_CleanUp sv realDelete).

(** Everything [run] does before it cleans up. *)
Definition run_stages : M unit :=
  w <- get_world ;;;
  name <- _createAlignService (algorithm (w_args w)) ;;;
  put_alnService name ;;;
  (* Make sane. *)
  w <- get_world ;;;
  (let '(res, args) := _makeSane (w_args w) (w_fileNames w) in
   put_world (with_args w args) ;;;
   match res with Ok _ => ret tt | Raise e => raise e end) ;;;
  (* Run align service. *)
  call CallAlignRun (service_run sv name) ;;;
  (* Create a temporary filtered SAM/BAM file as output for FilterService. *)
  w <- get_world ;;;
  let outFormat := getFileFormat (outputFileName (w_fileNames w)) in
  let suffix := if bool_decide (outFormat ∈ [BAM; XML]) then ".bam" else ".sam" in
  tmp <- call (CallRegisterNewTmpFile suffix) (tmp_RegisterNewTmpFile sv suffix) ;;;
  w <- get_world ;;;
  put_world (with_fileNames w (set_filteredSam (w_fileNames w) tmp)) ;;;
  (* Call filter service on SAM or BAM file. *)
  w <- get_world ;;;
  call CallFilterRun
       (filter_run sv (alignerSamOut (w_fileNames w)) (targetFileName (w_fileNames w))
                   (filteredSam (w_fileNames w)) (algorithm (w_args w))
                   (service_scoreSign sv name w)
                   (adapterGffFileName (w_fileNames w))) ;;;
  (* Sort bam before output *)
  (if bool_decide (outFormat ∈ [BAM; XML]) then
     w <- get_world ;;;
     call CallBamPostRun (bampost_run sv (nproc (w_args w)))
   else ret tt) ;;;
  (* Output all hits in SAM, BAM. *)
  w <- get_world ;;;
  _output (filteredSam (w_fileNames w)) (targetFileName (w_fileNames w))
          (outputFileName (w_fileNames w)) (readType (w_args w)) ;;;
  ret tt.

Definition run : M Z :=
  run_stages ;;;
  w <- get_world ;;;
  _cleanUp (if bool_decide (keepTmpFiles (w_args w) = Some true)
            then false else true) ;;;
  ret 0.

End Runner.

(** ** Vocabulary of the statements *)

(** The extension of a path as [getFileFormat] compares it, and the
    extension of what precedes it. *)
Definition ext1 (p : string) : string := Str.lower (snd (Posix.splitext p)).
Definition ext2 (p : string) : string :=
  Str.lower (snd (Posix.splitext (fst (Posix.splitext p)))).

Definition plain_extensions : list string :=
  [".fa"; ".fasta"; ".fsta"; ".fna"; ".sam"; ".bam"; ".sa"; ".fofn"; ".xml"].
Definition h5_extensions : list string :=
  [".pls"; ".plx"; ".bas"; ".bax"; ".cmp"; ".rgn"; ".ccs"].

(** ** Concrete inputs *)

(** A process in [/home/u/work] whose user has home [/home/u], with no
    other user in the password database. *)
Definition env0 : Env :=
  {| getcwd := "/home/u/work"; userhome := "/home/u"; getpwnam := fun _ => None |}.

Definition args0 (algo : string) : Args :=
  {| algorithm := algo; useccs := None; readType := None; forQuiver := false;
     filterAdapterOnly := false; keepTmpFiles := None; nproc := 1 |}.

Definition files0 (out : string) : PBAlignFiles :=
  {| inputFileFormat := Some FASTA; outputFileName := out;
     targetFileName := "/home/u/work/ref.fasta"; alignerSamOut := "/tmp/aln.sam";
     filteredSam := ""; adapterGffFileName := None |}.

(** A small file system: the working directory, a manifest with its two
    files, and a temporary directory in which the link [filtered.sam]
    names the file the filter wrote. *)
Definition fs0 : FS :=
  list_to_map [
    ("/", Dir true); ("/home", Dir true); ("/home/u", Dir true);
    ("/home/u/work", Dir true);
    ("/home/u/work/in.fofn", File true "b.fasta
a.fasta
");
    ("/home/u/work/a.fasta", File true ">a");
    ("/home/u/work/b.fasta", File true ">b");
    ("/home/u/work/blank.fofn", File true "
");
    ("/home/u/work/mixed.fofn", File true "/z.fasta
a.fasta
");
    ("/tmp", Dir true);
    ("/tmp/filtered.sam", Symlink "/tmp/pbalign_x/f.sam");
    ("/tmp/pbalign_x", Dir true);
    ("/tmp/pbalign_x/f.sam", File true "@HD")
  ].

(** Collaborators that always succeed and touch nothing; the temporary
    file manager hands out one name. *)
Definition sv0 : @Services unit :=
  {| ALGORITHM_CANDIDATES := ["blasr"; "bowtie"; "gmap"];
     service_new := fun _ w => (Ok tt, w);
     service_checkAvailability := fun _ w => (Ok tt, w);
     service_run := fun _ w => (Ok tt, w);
     service_scoreSign := fun _ _ => (-1);
     filter_run := fun _ _ _ _ _ _ w => (Ok tt, w);
     bampost_run := fun _ w => (Ok tt, w);
     tmp_RegisterNewTmpFile := fun _ w => (Ok "/tmp/filtered.sam", w);
     tmp_CleanUp := fun _ w => (Ok tt, w);
     dataset_write := fun _ _ _ _ w => (Ok tt, w) |}.

Definition runner0 (algo out : string) : @Runner unit :=
  {| world := {| w_fs := fs0; w_args := args0 algo; w_fileNames := files0 out;
                 w_ext := tt |};
     _output_dataset_type := AlignmentSet;
     _alnService := None;
     calls := [] |}.

Definition is_cleanup (c : Call) : bool :=
  match c with CallCleanUp _ => true | _ => false end.

(** A computation that extends the trace, and with no call to [CleanUp]. *)
Definition quiet {X A : Type} (m : @M X A) : Prop :=
  forall r, exists d,
    calls (snd (m r)) = calls r ++ d /\ forallb (fun c => negb (is_cleanup c)) d = true.

(** A reference repository [/repo] whose descriptor names the FASTA file
    and a suffix array that is not there; [ET_parse0] reads the one
    descriptor and finds every other document malformed. *)
Definition descriptor0 : Element :=
  Elem "reference_info" [] None [
    Elem "reference" [] None [
      Elem "description" [] (Some "lambda") [];
      Elem "file" [("format", "text/fasta")] (Some "./sequence/ref.fasta") [];
      Elem "index_file" [("type", "sawriter")] (Some "./sequence/ref.fasta.sa") []
    ]
  ].

Definition ET_parse0 (content : string) : option Element :=
  if String.eqb content "<reference_info/>" then Some descriptor0 else None.

Definition ReferenceSet0 (fs : FS) (path : string) : result (list string) :=
  Raise (IOError "not a dataset").

Definition fs_repo : FS :=
  list_to_map [
    ("/", Dir true); ("/repo", Dir true);
    ("/repo/reference.info.xml", File true "<reference_info/>");
    ("/repo/sequence", Dir true);
    ("/repo/sequence/ref.fasta", File true ">ref");
    ("/data", Dir true);
    ("/data/bare.fasta", File true ">bare");
    ("/data/reads.txt", File true "x");
    ("/data/set.xml", File true "<ReferenceSet/>")
  ].



(** The message of the error for a reference file that is not FASTA. *)
Definition not_fasta_message (refpath : string) : string :=
  "The reference file specified is not in FASTA format. "
  +:+ "Please check " +:+ refpath +:+ ".".

(** What [ReferenceInfo] reads from the descriptor of [/repo]. *)
Definition refinfo0 : ReferenceInfo :=
  {| ri_dirname := "/repo";
     refFastaFile := Some "/repo/sequence/ref.fasta";
     refSawriterFile := Some "/repo/sequence/ref.fasta.sa";
     ri_desc := Some "lambda";
     adapterGffFile := None;
     ri_fileName := "/repo/reference.info.xml" |}.

(** Following the specification: the usable lines of a manifest are its
    lines, stripped, without the blank ones. *)
Definition usable_lines (content : string) : list string :=
  List.filter (fun l => negb (Str.is_empty l)) (Str.strip <$> Str.readlines content).

(** The two replacements of [real_ppath] and [real_upath], by recursion on
    the string: [unescape] is [s.replace(r'\ ', ' ')] and [escape] is
    [s.replace(' ', r'\ ')] (lemmas [replace_unescape], [replace_escape]). *)
Fixpoint unescape (s : string) : string :=
  match s with
  | EmptyString => EmptyString
  | String c t =>
      match t with
      | String d t' =>
          if Ascii.eqb c "\" && Ascii.eqb d " " then String " " (unescape t')
          else String c (unescape t)
      | EmptyString => String c EmptyString
      end
  end.

Fixpoint escape (s : string) : string :=
  match s with
  | EmptyString => EmptyString
  | String c t =>
      if Ascii.eqb c " " then String "\" (String " " (escape t))
      else String c (escape t)
  end.

(** Following the specification: a path has no consecutive escaped
    spaces. *)
Definition no_consecutive_escaped_spaces (p : string) : bool :=
  negb (Str.contains "\ \ " p).

(** [s] starts with an escaped space. *)
Definition escaped_space_ahead (s : string) : bool := Str.startswith "\ " s.



(** [c in s] for a character. *)
Fixpoint has_char (c : ascii) (s : string) : bool :=
  match s with
  | EmptyString => false
  | String a t => Ascii.eqb a c || has_char c t
  end.

(** The shape of a path with the extension [.e]: a directory part [d],
    empty or ending in a separator, then a name [m] that holds no
    separator and not only dots, then the dot and [e]. *)
Definition has_ext (p e : string) : Prop :=
  exists d m,
    p = d +:+ m +:+ String "." e /\
    (d = "" \/ Str.endswith_char Posix.sep d = true) /\
    has_char Posix.sep m = false /\
    Str.all_char "." m = false.

(** A space that no backslash precedes: [escaped] says whether the
    character before the string is a backslash. *)
Fixpoint bare_space_from (escaped : bool) (s : string) : bool :=
  match s with
  | EmptyString => false
  | String c t =>
      (Ascii.eqb c " " && negb escaped) || bare_space_from (Ascii.eqb c "\") t
  end.

Definition has_bare_space (s : string) : bool := bare_space_from false s.

(** The place of a call in the pipeline of [run]. *)
Definition stage (c : Call) : nat :=
  match c with
  | CallServiceNew _ => 0
  | CallCheckAvailability => 1
  | CallAlignRun => 2
  | CallRegisterNewTmpFile _ => 3
  | CallFilterRun => 4
  | CallBamPostRun => 5
  | CallDatasetWrite _ _ _ _ => 6
  | CallCleanUp _ => 7
  end.

(** The four complete pipelines: the BAM post-processing and the dataset
    writer are the two stages that may be left out. *)
Definition pipelines : list (list nat) :=
  [[0; 1; 2; 3; 4; 7]; [0; 1; 2; 3; 4; 5; 7]; [0; 1; 2; 3; 4; 6; 7];
   [0; 1; 2; 3; 4; 5; 6; 7]]%nat.

(** An outcome of a computation: the stages of the calls it made, in
    order, and whether it returned. *)
Definition outcome : Type := list nat * bool.

(** The outcomes of one computation followed by another. *)
Definition seq_outcomes (S1 S2 : list outcome) : list outcome :=
  flat_map (fun o1 : outcome =>
              if snd o1 then (fun o2 : outcome => (fst o1 ++ fst o2, snd o2)) <$> S2
              else [o1]) S1.

Definition behaves {X A : Type} (m : @M X A) (S : list outcome) : Prop :=
  forall r, exists d,
    calls (snd (m r)) = calls r ++ d /\ (stage <$> d, is_ok (fst (m r))) ∈ S.

Fixpoint is_prefix (a b : list nat) : bool :=
  match a, b with
  | [], _ => true
  | x :: a', y :: b' => Nat.eqb x y && is_prefix a' b'
  | _ :: _, [] => false
  end.

(** An outcome within the pipeline: the stages are the start of a
    complete pipeline, and all of it when the computation returned. *)
Definition pipeline_outcome (o : outcome) : bool :=
  existsb (fun full => is_prefix (fst o) full
                       && (negb (snd o) || bool_decide (fst o = full)))
          pipelines.

(** An [index_file] child whose type is, in any letter case, sawriter:
    the children that set [refSawriterFile]. *)
Definition is_sawriter_index (x : Element) : bool :=
  String.eqb (ET.tag x) "index_file" &&
  match ET.get x "type" with
  | Some ty => String.eqb (Str.lower ty) "sawriter"
  | None => false
  end.

(** A host whose password database has a user named [x.fasta], with
    home [/home/xf]; and a dataset reader that finds one resource,
    written with the home shorthand of that user. *)
Definition env_tilde : Env :=
  {| getcwd := "/home/u/work"; userhome := "/home/u";
     getpwnam := fun u => if String.eqb u "x.fasta" then Some "/home/xf" else None |}.

Definition ReferenceSet_tilde (fs : FS) (path : string) : result (list string) :=
  Ok ["~x.fasta"].


(** What a move of [src] to the destination [d] leaves of the file
    system [fs]. Either [src] is the entry of [d] already and nothing
    changes; or the entry of [src], with what is below it, is renamed to
    the entry of [d]; or, where the rename is refused, the content of the
    file [src] is written to the entry [k] that [d] resolves to and the
    entry of [src] is removed. *)
Definition moved (env : Env) (fs fs' : FS) (src d : string) : Prop :=
  exists nd, fs !! OS.key env src = Some nd /\
    ((OS.key env src = OS.key env d /\ fs' = fs) \/
     (OS.key env src <> OS.key env d /\
      fs' = <[OS.key env d := nd]>
              (delete (OS.key env src)
                 (OS.carry_entries (OS.key env src) (OS.key env d) fs))) \/
     (exists k c,
         OS.realkey env fs d = Some k /\ k <> OS.key env src /\
         OS.read_file env fs src = Ok c /\
         fs' = delete (OS.key env src) (<[k := File true c]> fs))).


(** ** Collaborators that keep a log *)

(** An entry of the log: a call, as the collaborator received it, with
    the error it raised, if it raised one. *)
Definition entry : Type := Call * option exn.

Definition error_of {A : Type} (res : result A) : option exn :=
  match res with Ok _ => None | Raise e => Some e end.

(** Every call of a log returned. *)
Definition returned (ents : list entry) : Prop :=
  Forall (fun en : entry => snd en = None) ents.

Section Logged.
Context {X : Type}.

(** The world without the log. *)
Definition unlog (w : @World (X * list entry)) : @World X :=
  {| w_fs := w_fs w; w_args := w_args w; w_fileNames := w_fileNames w;
     w_ext := fst (w_ext w) |}.

(** A collaborator that does what [f] does and then writes to the log
    what it was called for and how it ended. *)
Definition log_action {A : Type} (c : Call) (f : @action X A)
  : @action (X * list entry) A :=
  fun w =>
    let '(res, w1) := f (unlog w) in
    (res, {| w_fs := w_fs w1; w_args := w_args w1; w_fileNames := w_fileNames w1;
             w_ext := (w_ext w1, snd (w_ext w) ++ [(c, error_of res)]) |}).

(** The collaborators [sv], each keeping the log. *)
Definition logged (sv : @Services X) : @Services (X * list entry) :=
  {| ALGORITHM_CANDIDATES := ALGORITHM_CANDIDATES sv;
     service_new := fun n => log_action (CallServiceNew n) (service_new sv n);
     service_checkAvailability :=
       fun n => log_action CallCheckAvailability (service_checkAvailability sv n);
     service_run := fun n => log_action CallAlignRun (service_run sv n);
     service_scoreSign := fun n w => service_scoreSign sv n (unlog w);
     filter_run :=
       fun a b c d s g => log_action CallFilterRun (filter_run sv a b c d s g);
     bampost_run := fun n => log_action CallBamPostRun (bampost_run sv n);
     tmp_RegisterNewTmpFile :=
       fun s => log_action (CallRegisterNewTmpFile s) (tmp_RegisterNewTmpFile sv s);
     tmp_CleanUp := fun b => log_action (CallCleanUp b) (tmp_CleanUp sv b);
     dataset_write :=
       fun t a b c => log_action (CallDatasetWrite t a b c) (dataset_write sv t a b c)
  |}.

Definition log_of (r : @Runner (X * list entry)) : list entry :=
  snd (w_ext (world r)).

(** The runner without the log. *)
Definition unlog_runner (r : @Runner (X * list entry)) : @Runner X :=
  {| world := unlog (world r);
     _output_dataset_type := _output_dataset_type r;
     _alnService := _alnService r;
     calls := calls r |}.

End Logged.

(** ** [run] before it calls [_output] *)

Section RunBeforeOutput.
Context (env : Env) {X : Type} (sv : @Services X).

Local Notation "x <- m ;;; k" := (bind m (fun x => k))
  (at level 100, m at next level, right associativity).
Local Notation "m ;;; k" := (bind m (fun _ => k))
  (at level 100, right associativity).

(** The statements of [run] from its start to the BAM post-processing:
    everything that comes before the call to [_output]. *)
Definition run_before_output : M unit :=
  w <- get_world ;;;
  name <- _createAlignService sv (algorithm (w_args w)) ;;;
  put_alnService name ;;;
  (* Make sane. *)
  w <- get_world ;;;
  (let '(res, args) := _makeSane (w_args w) (w_fileNames w) in
   put_world (with_args w args) ;;;
   match res with Ok _ => ret tt | Raise e => raise e end) ;;;
  (* Run align service. *)
  call CallAlignRun (service_run sv name) ;;;
  (* Create a temporary filtered SAM/BAM file as output for FilterService. *)
  w <- get_world ;;;
  let outFormat := getFileFormat (outputFileName (w_fileNames w)) in
  let suffix := if bool_decide (outFormat ∈ [BAM; XML]) then ".bam" else ".sam" in
  tmp <- call (CallRegisterNewTmpFile suffix) (tmp_RegisterNewTmpFile sv suffix) ;;;
  w <- get_world ;;;
  put_world (with_fileNames w (set_filteredSam (w_fileNames w) tmp)) ;;;
  (* Call filter service on SAM or BAM file. *)
  w <- get_world ;;;
  call CallFilterRun
       (filter_run sv (alignerSamOut (w_fileNames w)) (targetFileName (w_fileNames w))
                   (filteredSam (w_fileNames w)) (algorithm (w_args w))
                   (service_scoreSign sv name w)
                   (adapterGffFileName (w_fileNames w))) ;;;
  (* Sort bam before output *)
  (if bool_decide (outFormat ∈ [BAM; XML]) then
     w <- get_world ;;;
     call CallBamPostRun (bampost_run sv (nproc (w_args w)))
   else ret tt).

(** The call to [_output] as [run] makes it, in the state [r]. *)
Definition run_output (r : Runner) : result (string * Z * string) * Runner :=
  _output env sv (filteredSam (w_fileNames (world r)))
          (targetFileName (w_fileNames (world r)))
          (outputFileName (w_fileNames (world r)))
          (readType (w_args (world r))) r.

End RunBeforeOutput.

(** ** What the run of logging collaborators leaves in the log *)

Section LogRelations.
Context {X : Type}.

(** Two computations, one over the collaborators and one over the
    logging collaborators, that do the same but for the log. *)
Definition sim {A A' : Type} (R : A -> A' -> Prop)
    (m : @M X A) (m' : @M (X * list entry) A') : Prop :=
  forall r',
    match m (unlog_runner r'), m' r' with
    | (Ok a, r1), (Ok a', r1') => R a a' /\ r1 = unlog_runner r1'
    | (Raise e, r1), (Raise e', r1') => e = e' /\ r1 = unlog_runner r1'
    | _, _ => False
    end.

(** The computation [m], started in [r], keeps the log and the trace in
    step: the entries it adds to the log are the calls it adds to the
    trace, each satisfies [P], every call but the last returned, and when
    the last one raised, [m] raises its error. *)
Definition tidy_at {A : Type} (P : Call -> Prop)
    (m : @M (X * list entry) A) (r : @Runner (X * list entry)) : Prop :=
  exists ents,
    log_of (snd (m r)) = log_of r ++ ents /\
    calls (snd (m r)) = calls r ++ (fst <$> ents) /\
    Forall (fun en : entry => P (fst en)) ents /\
    match fst (m r) with
    | Ok _ => returned ents
    | Raise e =>
        returned ents \/
        exists ents0 c, ents = ents0 ++ [(c, Some e)] /\ returned ents0
    end.

End LogRelations.

(** The calls of [_createAlignService], of [_output] and of [run] with
    what the code fixes of their arguments: the service constructed is
    the one named, and the temporary file is registered with one of the
    two suffixes. *)
Definition create_call (name : string) (c : Call) : Prop :=
  match c with
  | CallServiceNew n => n = name
  | CallCheckAvailability => True
  | _ => False
  end.

Definition output_call (c : Call) : Prop :=
  match c with
  | CallDatasetWrite _ _ _ _ => True
  | _ => False
  end.

Definition run_call (name : string) (c : Call) : Prop :=
  match c with
  | CallServiceNew n => n = name
  | CallRegisterNewTmpFile s => s = ".bam" \/ s = ".sam"
  | _ => True
  end.

(** The runner [r] with logging collaborators and an empty log. *)
Definition with_empty_log {X : Type} (r : @Runner X) : @Runner (X * list entry) :=
  {| world := {| w_fs := w_fs (world r); w_args := w_args (world r);
                 w_fileNames := w_fileNames (world r);
                 w_ext := (w_ext (world r), []) |};
     _output_dataset_type := _output_dataset_type r;
     _alnService := _alnService r;
     calls := calls r |}.

(** The collaborators [sv0] with a filter that raises. *)
Definition sv_filter_fails : @Services unit :=
  {| ALGORITHM_CANDIDATES := ALGORITHM_CANDIDATES sv0;
     service_new := service_new sv0;
     service_checkAvailability := service_checkAvailability sv0;
     service_run := service_run sv0;
     service_scoreSign := service_scoreSign sv0;
     filter_run := fun _ _ _ _ _ _ w => (Raise (ServiceError "filter"), w);
     bampost_run := bampost_run sv0;
     tmp_RegisterNewTmpFile := tmp_RegisterNewTmpFile sv0;
     tmp_CleanUp := tmp_CleanUp sv0;
     dataset_write := dataset_write sv0 |}.

(** ** Properties of [getFileFormat] *)

Lemma getFileFormat_unfold (p : string) :
  getFileFormat p =
    let ext := ext1 p in
    if str_in ext [".fa"; ".fasta"; ".fsta"; ".fna"] then FASTA
    else if str_in ext [".sam"] then SAM
    else if str_in ext [".bam"] then BAM
    else if str_in ext [".sa"] then SA
    else if str_in ext [".fofn"] then FOFN
    else if str_in ext [".xml"] then XML
    else if str_in ext [".h5"] then
      let ext := ext2 p in
      if str_in ext [".pls"] then PLS
      else if str_in ext [".plx"] then PLX
      else if str_in ext [".bas"] then BAX
      else if str_in ext [".bax"] then BAX
      else if str_in ext [".cmp"] then CMP
      else if str_in ext [".rgn"] then RGN
      else if str_in ext [".ccs"] then CCS
      else UNKNOWN
    else UNKNOWN.
Proof.
  unfold getFileFormat, ext1, ext2.
  destruct (Posix.splitext p) as [base ext]; reflexivity.
Qed.

Lemma str_in_cons (x y : string) (l : list string) :
  str_in x (y :: l) = String.eqb x y || str_in x l.
Proof. reflexivity. Qed.

Lemma str_in_true (x : string) (l : list string) :
  str_in x l = true <-> x ∈ l.
Proof.
  induction l as [|y l IH]; simpl.
  - split; [discriminate | intros H; inversion H].
  - rewrite orb_true_iff, String.eqb_eq, IH, elem_of_cons. reflexivity.
Qed.

(** ** Properties of [_makeSane] *)

(** C8. [_makeSane] raises whenever the output file is a CMP.H5 file;
    whenever it is a BAM or XML file and the algorithm is not blasr; and
    whenever it is a BAM or XML file and adapter-only filtering is on. *)
Theorem makeSane_rejects (args : Args) (fileNames : PBAlignFiles) :
  let outFormat := getFileFormat (outputFileName fileNames) in
  (outFormat = CMP ->
   exists m a, _makeSane args fileNames = (Raise (IOError m), a)) /\
  (outFormat = BAM \/ outFormat = XML -> algorithm args <> "blasr" ->
   exists m a, _makeSane args fileNames = (Raise (ValueError m), a)) /\
  (outFormat = BAM \/ outFormat = XML -> filterAdapterOnly args = true ->
   exists m a, _makeSane args fileNames = (Raise (ValueError m), a)).
Proof.
  cbv zeta. unfold _makeSane.
  set (a1 := if bool_decide (useccs args = Some "useccsdenovo") then _ else _).
  set (a2 := if bool_decide (inputFileFormat fileNames = Some CCS) then _ else _).
  assert (Halgo : algorithm a2 = algorithm args).
  { subst a2 a1. repeat case_bool_decide; reflexivity. }
  assert (Hfilt : filterAdapterOnly a2 = filterAdapterOnly args).
  { subst a2 a1. repeat case_bool_decide; reflexivity. }
  rewrite Halgo, Hfilt. clearbody a2. clear a1.
  split; [|split].
  - intros ->. rewrite bool_decide_eq_true_2 by reflexivity. eauto.
  - intros Hfmt Hne.
    assert (String.eqb (algorithm args) "blasr" = false) as ->
      by (apply String.eqb_neq, Hne).
    destruct Hfmt as [-> | ->]; simpl; eauto.
  - intros Hfmt ->.
    destruct Hfmt as [-> | ->]; simpl;
      destruct (String.eqb (algorithm args) "blasr"); simpl; eauto.
Qed.

Lemma makeSane_rejects_witness :
  (exists m a, _makeSane (args0 "blasr") (files0 "out.cmp.h5")
               = (Raise (IOError m), a)) /\
  (exists m a, _makeSane (args0 "bowtie") (files0 "out.bam")
               = (Raise (ValueError m), a)) /\
  (exists m a,
      _makeSane (set_readType
                   {| algorithm := "blasr"; useccs := None; readType := None;
                      forQuiver := false; filterAdapterOnly := true;
                      keepTmpFiles := None; nproc := 1 |} None)
                (files0 "out.xml")
      = (Raise (ValueError m), a)).
Proof.
  split; [|split].
  - apply (proj1 (makeSane_rejects (args0 "blasr") (files0 "out.cmp.h5"))).
    reflexivity.
  - apply (proj1 (proj2 (makeSane_rejects (args0 "bowtie") (files0 "out.bam")))).
    + left; reflexivity.
    + discriminate.
  - apply (proj2 (proj2 (makeSane_rejects _ (files0 "out.xml")))).
    + right; reflexivity.
    + reflexivity.
Defined.

Section MakeSaneFatal.
Context (env : Env) {X : Type} (sv : @Services X).

(** An error of [_makeSane] ends [run]: no aligner is run and nothing is
    cleaned up. *)
Lemma makeSane_error_is_fatal (r r1 : Runner) (name : string) (e : exn) :
  _createAlignService sv (algorithm (w_args (world r))) r = (Ok name, r1) ->
  fst (_makeSane (w_args (world r1)) (w_fileNames (world r1))) = Raise e ->
  fst (run env sv r) = Raise e /\ calls (snd (run env sv r)) = calls r1.
Proof.
  intros Hcreate Hsane.
  unfold run, run_stages, bind, get_world, put_alnService, put_world, raise.
  cbn beta iota. rewrite Hcreate. cbn beta iota. cbn [world].
  destruct (_makeSane _ _) as [res args'] eqn:Hm. simpl in Hsane. subst res.
  done.
Qed.

End MakeSaneFatal.

(** ** Properties of [checkOutputFile] *)

Section CheckOutputFile.
Context (env : Env).

(** C10. When the extension of the path is one of the output formats,
    nothing exists yet at the directory entry [k] the path resolves to,
    and the directory of [k] exists and is writable, [checkOutputFile]
    succeeds and leaves a file system that differs from the one it found
    by an empty file at [k], and in nothing else. *)
Theorem checkOutputFile_creates (fs : FS) (filename k : string) :
  isValidOutputFormat (getFileFormat (real_ppath env filename)) = true ->
  OS.realkey env fs (real_ppath env filename) = Some k ->
  fs !! k = None ->
  OS.stat env fs (Posix.dirname k) = Some (Dir true) ->
  exists fs',
    checkOutputFile env fs filename
    = Ok (real_upath env (real_ppath env filename), fs') /\
    fs' = <[k := File true ""]> fs /\
    fs' !! k = Some (File true "") /\
    (forall k', k' <> k -> fs' !! k' = fs !! k').
Proof.
  intros Hfmt Hkey Hnone Hdir.
  exists (<[k := File true ""]> fs).
  split; [|split; [reflexivity|split]].
  - unfold checkOutputFile. rewrite Hfmt. simpl.
    unfold OS.open_append, OS.open_write.
    rewrite Hkey, Hnone, Hdir. reflexivity.
  - apply lookup_insert_eq.
  - intros k' Hne. apply lookup_insert_ne. congruence.
Qed.

End CheckOutputFile.

Lemma checkOutputFile_creates_witness :
  exists fs',
    checkOutputFile env0 fs0 "out.sam" = Ok ("/home/u/work/out.sam", fs') /\
    fs' = <["/home/u/work/out.sam" := File true ""]> fs0 /\
    fs' !! "/home/u/work/out.sam" = Some (File true "") /\
    (forall k', k' <> "/home/u/work/out.sam" -> fs' !! k' = fs0 !! k').
Proof.
  apply (checkOutputFile_creates env0 fs0 "out.sam" "/home/u/work/out.sam");
    vm_compute; reflexivity.
Defined.

(** ** The trace of [run] *)

Section RunTrace.
Context (env : Env) {X : Type} (sv : @Services X).

Lemma quiet_ret {A} (a : A) : quiet (ret (X := X) a).
Proof. intros r. exists []. simpl. by rewrite app_nil_r. Qed.

Lemma quiet_raise {A} (e : exn) : quiet (raise (X := X) (A := A) e).
Proof. intros r. exists []. simpl. by rewrite app_nil_r. Qed.

Lemma quiet_bind {A B} (m : M A) (k : A -> @M X B) :
  quiet m -> (forall a, quiet (k a)) -> quiet (bind m k).
Proof.
  intros Hm Hk r. unfold bind.
  destruct (Hm r) as (d1 & Hd1 & Hq1).
  destruct (m r) as [[a|e] r1]; simpl in *.
  - destruct (Hk a r1) as (d2 & Hd2 & Hq2).
    exists (d1 ++ d2). rewrite Hd2, Hd1, app_assoc. split; [done|].
    rewrite forallb_app, Hq1, Hq2. done.
  - exists d1. done.
Qed.

Lemma quiet_call {A} (c : Call) (f : action A) :
  is_cleanup c = false -> quiet (call (X := X) c f).
Proof.
  intros Hc r. unfold call. destruct (f (world r)) as [res w]. simpl.
  exists [c]. simpl. rewrite Hc. done.
Qed.

Lemma quiet_get_world : quiet (get_world (X := X)).
Proof. intros r. exists []. simpl. by rewrite app_nil_r. Qed.

Lemma quiet_put_world (w : World) : quiet (put_world (X := X) w).
Proof. intros r. exists []. simpl. by rewrite app_nil_r. Qed.

Lemma quiet_put_dataset_type (t : DatasetType) :
  quiet (put_dataset_type (X := X) t).
Proof. intros r. exists []. simpl. by rewrite app_nil_r. Qed.

Lemma quiet_put_alnService (s : string) : quiet (put_alnService (X := X) s).
Proof. intros r. exists []. simpl. by rewrite app_nil_r. Qed.

Lemma quiet_read {A} (f : @Runner X -> A) : quiet (fun r => (Ok (f r), r)).
Proof. intros r. exists []. simpl. by rewrite app_nil_r. Qed.

Ltac quiet_step :=
  first
    [ apply quiet_ret | apply quiet_raise | apply quiet_get_world
    | apply quiet_put_world | apply quiet_put_dataset_type
    | apply quiet_put_alnService
    | apply quiet_call; reflexivity
    | apply (quiet_read _output_dataset_type)
    | apply quiet_bind; [|intros ?] ].

Lemma quiet_createAlignService (name : string) :
  quiet (_createAlignService sv name).
Proof.
  unfold _createAlignService.
  destruct (negb _); [apply quiet_raise|].
  repeat quiet_step.
  repeat (destruct (String.eqb name _); [quiet_step|]). quiet_step.
Qed.

Lemma quiet_output (inSam refFile outFile : string) (readType : option string) :
  quiet (_output env sv inSam refFile outFile readType).
Proof.
  unfold _output.
  apply quiet_bind; [|intros ?; apply quiet_ret].
  repeat case_bool_decide; repeat quiet_step.
  destruct (OS.readlink _ _ _); [|quiet_step].
  destruct (Shutil.move _ _ _ _) as [[?|[]] ?]; repeat quiet_step.
Qed.

Lemma quiet_run_stages : quiet (run_stages env sv).
Proof.
  unfold run_stages.
  repeat first
    [ apply quiet_createAlignService | apply quiet_output | quiet_step
    | match goal with
      | |- quiet (let '(_, _) := ?p in _) => destruct p as [[?|?] ?]
      | |- quiet (if ?b then _ else _) => destruct b
      end ].
Qed.

End RunTrace.

(** C1, as the specification has it, fails: with BAM output and the
    bowtie aligner [_makeSane] raises, and [run] ends without a call to
    [CleanUp]. *)
Lemma run_cleanup_not_on_every_path :
  ~ (forall (X : Type) (sv : @Services X) (r : Runner),
        exists b, CallCleanUp b ∈ calls (snd (run env0 sv r))).
Proof.
  intros H. destruct (H unit sv0 (runner0 "bowtie" "out.bam")) as [b Hb].
  apply list_elem_of_In in Hb. vm_compute in Hb.
  destruct Hb as [Hb|[Hb|[]]]; discriminate Hb.
Qed.

(** ** Properties of [checkReferencePath] *)

Section CheckReferencePath.
Context (env : Env).
Context (ET_parse : string -> option Element).
Context (ReferenceSet_toFofn : FS -> string -> result (list string)).

Local Abbreviation init := (ReferenceInfo_init env ET_parse).
Local Abbreviation check := (checkReferencePath env ET_parse ReferenceSet_toFofn).
Local Abbreviation locate := (locate_reference ReferenceSet_toFofn).

(** The three ways a descriptor fails: the file is not there, the
    document is malformed, the document lacks what the schema asks. *)
Lemma ReferenceInfo_init_missing (fs : FS) (xml : string) :
  isExist env fs (real_ppath env (real_upath env (real_ppath env xml))) = false ->
  exists e, init fs xml = Raise e.
Proof.
  intros H. unfold ReferenceInfo_init, _parse. rewrite H.
  destruct (negb _); eauto.
Qed.

Lemma parse_body_malformed (fs : FS) (dirname fileName self content : string) :
  OS.read_file env fs fileName = Ok content -> ET_parse content = None ->
  exists m, parse_body env ET_parse fs dirname fileName self = Raise (ParseError m).
Proof. intros H1 H2. unfold parse_body. rewrite H1. simpl. rewrite H2. eauto. Qed.

Lemma parse_body_no_reference (fs : FS) (dirname fileName self content : string)
    (root : Element) :
  OS.read_file env fs fileName = Ok content -> ET_parse content = Some root ->
  ET.find root "reference" = None ->
  exists e, parse_body env ET_parse fs dirname fileName self = Raise e.
Proof.
  intros H1 H2 H3. unfold parse_body. rewrite H1. simpl. rewrite H2, H3. eauto.
Qed.

Lemma parse_body_not_fasta (fs : FS) (dirname fileName self content : string)
    (root ref refFile : Element) (fmt : string) :
  OS.read_file env fs fileName = Ok content -> ET_parse content = Some root ->
  ET.find root "reference" = Some ref -> ET.find ref "file" = Some refFile ->
  ET.get refFile "format" = Some fmt ->
  Str.contains "text/fasta" (Str.lower fmt) = false ->
  exists m, parse_body env ET_parse fs dirname fileName self = Raise (IOError m).
Proof.
  intros H1 H2 H3 H4 H5 H6. unfold parse_body.
  rewrite H1. simpl. rewrite H2, H3, H4, H5, H6. simpl. eauto.
Qed.

Lemma parse_raises (fs : FS) (dirname self : string) (e : exn) :
  parse_body env ET_parse fs dirname (real_ppath env self) self = Raise e ->
  exists e', _parse env ET_parse fs dirname self = Raise e'.
Proof.
  intros H. unfold _parse. destruct (isExist _ _ _); [|eauto].
  rewrite H. destruct e; eauto.
Qed.

(** A descriptor that was read names a FASTA file. *)
Lemma ReferenceInfo_init_fasta (fs : FS) (xml : string) (ri : ReferenceInfo) :
  init fs xml = Ok ri -> exists f, refFastaFile ri = Some f.
Proof.
  unfold ReferenceInfo_init, _parse, parse_body.
  destruct (negb _); [discriminate|].
  destruct (isExist _ _ _); [|discriminate].
  destruct (OS.read_file _ _ _) as [c|]; simpl; [|destruct e; discriminate].
  destruct (ET_parse c) as [root|]; [|discriminate].
  destruct (ET.find root _) as [ref|]; [|discriminate].
  destruct (ET.find ref _) as [rf|]; [|discriminate].
  destruct (ET.get rf _) as [fmt|]; [|discriminate].
  destruct (if Str.contains _ _ then _ else _) as [fa|e0]; simpl;
    [|destruct e0; discriminate].
  destruct (parse_reference_children _ _ _ _) as [acc|e0]; simpl;
    [|destruct e0; discriminate].
  destruct (parse_annotations _ _ _) as [g|e0]; simpl;
    [|destruct e0; discriminate].
  intros [= <-]. simpl. eauto.
Qed.

(** C5. When the descriptor cannot be read, whatever the error, the
    resolution goes on outside the repository with the FASTA file found
    before: it returns that file, no index and no annotation, once the
    file has passed the FASTA check, and the error of the descriptor
    plays no part in the result. With no such file the resolution raises
    [IOError]. *)
Theorem checkReferencePath_descriptor_fallback
    (fs : FS) (inRefpath xml : string) (fasta : option string) (e : exn) :
  isExist env fs (real_ppath env inRefpath) = true ->
  locate fs (real_ppath env inRefpath) = Ok (fasta, xml) ->
  init fs xml = Raise e ->
  match fasta with
  | Some f =>
      check fs inRefpath =
        if bool_decide (getFileFormat f = FASTA) then
          Ok {| rb_refpath := real_upath env (real_ppath env inRefpath);
                rb_fastaFile := real_upath env f;
                rb_sawriterFile := None;
                rb_isWithinRepository := false;
                rb_adapterGffFile := None |}
        else Raise (IOError (not_fasta_message (real_ppath env inRefpath)))
  | None => exists m, check fs inRefpath = Raise (IOError m)
  end.
Proof.
  intros Hex Hloc Hinit. unfold checkReferencePath.
  rewrite Hex, Hloc. simpl. unfold consult_descriptor. rewrite Hinit.
  destruct fasta as [f|]; simpl; [|eauto].
  case_bool_decide; reflexivity.
Qed.

(** C6. When the descriptor names an index file that is not classified
    as a suffix array, or that does not exist, the resolution does what
    it does without an index: it returns the bundle of the repository
    with no index file, the FASTA check being the only one that can
    still stop it. *)
Theorem checkReferencePath_discards_index
    (fs : FS) (inRefpath xml sa f : string) (fasta : option string)
    (ri : ReferenceInfo) :
  isExist env fs (real_ppath env inRefpath) = true ->
  locate fs (real_ppath env inRefpath) = Ok (fasta, xml) ->
  init fs xml = Ok ri ->
  refFastaFile ri = Some f ->
  refSawriterFile ri = Some sa ->
  getFileFormat sa <> SA \/ isExist env fs sa = false ->
  check fs inRefpath =
    if bool_decide (getFileFormat f = FASTA) then
      Ok {| rb_refpath := real_upath env (real_ppath env inRefpath);
            rb_fastaFile := real_upath env f;
            rb_sawriterFile := None;
            rb_isWithinRepository := true;
            rb_adapterGffFile := adapterGffFile ri |}
    else Raise (IOError (not_fasta_message (real_ppath env inRefpath))).
Proof.
  intros Hex Hloc Hinit Hf Hsa Hbad. unfold checkReferencePath.
  rewrite Hex, Hloc. simpl. unfold consult_descriptor. rewrite Hinit. simpl.
  rewrite Hf, Hsa. case_bool_decide; simpl; [|reflexivity].
  assert (negb (bool_decide (getFileFormat sa = SA)) || negb (isExist env fs sa)
          = true) as ->; [|reflexivity].
  destruct Hbad as [Hne | ->].
  - rewrite bool_decide_eq_false_2 by exact Hne. reflexivity.
  - apply orb_true_r.
Qed.

End CheckReferencePath.

Section DescriptorFailures.
Context (env : Env).
Context (ET_parse : string -> option Element).

(** The descriptor fails to load when its file is missing, when its
    document is malformed, and when the document has no [reference]
    element or names a file that is not FASTA. *)
Lemma ReferenceInfo_init_fails (fs : FS) (xml : string) :
  let path := real_ppath env (real_upath env (real_ppath env xml)) in
  isExist env fs path = false \/
  (exists content, OS.read_file env fs path = Ok content /\
                   ET_parse content = None) \/
  (exists content root, OS.read_file env fs path = Ok content /\
                        ET_parse content = Some root /\
                        ET.find root "reference" = None) \/
  (exists content root ref refFile fmt,
      OS.read_file env fs path = Ok content /\
      ET_parse content = Some root /\
      ET.find root "reference" = Some ref /\
      ET.find ref "file" = Some refFile /\
      ET.get refFile "format" = Some fmt /\
      Str.contains "text/fasta" (Str.lower fmt) = false) ->
  exists e, ReferenceInfo_init env ET_parse fs xml = Raise e.
Proof.
  cbv zeta. intros H.
  destruct H as [H|H]; [by apply ReferenceInfo_init_missing|].
  unfold ReferenceInfo_init. destruct (negb _); [eauto|].
  apply parse_raises with
    (e := match parse_body env ET_parse fs (Posix.dirname (real_ppath env xml))
                  (real_ppath env (real_upath env (real_ppath env xml)))
                  (real_upath env (real_ppath env xml)) with
          | Raise e => e
          | Ok _ => ValueError ""
          end).
  destruct H as [(c & H1 & H2)|[(c & root & H1 & H2 & H3)|
                 (c & root & ref & rf & fmt & H1 & H2 & H3 & H4 & H5 & H6)]].
  - by destruct (parse_body_malformed env ET_parse fs
                   (Posix.dirname (real_ppath env xml)) _
                   (real_upath env (real_ppath env xml)) c H1 H2) as [m ->].
  - by destruct (parse_body_no_reference env ET_parse fs
                   (Posix.dirname (real_ppath env xml)) _
                   (real_upath env (real_ppath env xml)) c root H1 H2 H3) as [m ->].
  - by destruct (parse_body_not_fasta env ET_parse fs
                   (Posix.dirname (real_ppath env xml)) _
                   (real_upath env (real_ppath env xml)) c root ref rf fmt
                   H1 H2 H3 H4 H5 H6) as [m ->].
Qed.

End DescriptorFailures.

Lemma checkReferencePath_descriptor_fallback_witness :
  checkReferencePath env0 ET_parse0 ReferenceSet0 fs_repo "/data/bare.fasta"
  = Ok {| rb_refpath := "/data/bare.fasta"; rb_fastaFile := "/data/bare.fasta";
          rb_sawriterFile := None; rb_isWithinRepository := false;
          rb_adapterGffFile := None |} /\
  exists m,
    checkReferencePath env0 ET_parse0 ReferenceSet0 fs_repo "/data" = Raise (IOError m).
Proof.
  split.
  - refine (checkReferencePath_descriptor_fallback env0 ET_parse0 ReferenceSet0
              fs_repo "/data/bare.fasta" "/reference.info.xml"
              (Some "/data/bare.fasta")
              (IOError "/reference.info.xml is not a valid reference info file.")
              _ _ _); vm_compute; reflexivity.
  - refine (checkReferencePath_descriptor_fallback env0 ET_parse0 ReferenceSet0
              fs_repo "/data" "/data/reference.info.xml" None
              (IOError "/data/reference.info.xml is not a valid reference info file.")
              _ _ _); vm_compute; reflexivity.
Defined.

Lemma checkReferencePath_discards_index_witness :
  checkReferencePath env0 ET_parse0 ReferenceSet0 fs_repo "/repo"
  = Ok {| rb_refpath := "/repo"; rb_fastaFile := "/repo/sequence/ref.fasta";
          rb_sawriterFile := None; rb_isWithinRepository := true;
          rb_adapterGffFile := None |}.
Proof.
  refine (checkReferencePath_discards_index env0 ET_parse0 ReferenceSet0
            fs_repo "/repo" "/repo/reference.info.xml"
            "/repo/sequence/ref.fasta.sa" "/repo/sequence/ref.fasta" None
            refinfo0 _ _ _ _ _ _); try (vm_compute; reflexivity).
  right. vm_compute. reflexivity.
Defined.

(** ** Properties of [getFilesFromFOFN] and [checkInputFile] *)

Lemma readlines_nil (content : string) :
  Str.readlines content = [] <-> content = "".
Proof.
  destruct content as [|c t]; simpl; [done|].
  split; [|discriminate].
  destruct (Ascii.eqb c _); [discriminate|].
  destruct (Str.readlines t); discriminate.
Qed.

Section Manifest.
Context (env : Env).

Lemma check_entries_raises (fs : FS) (fileList : list string) (e : exn) :
  check_entries env fs fileList = Raise e -> exists m, e = IOError m.
Proof.
  induction fileList as [|f fl IH]; simpl; [discriminate|].
  destruct (negb _); [intros [= <-]; eauto|].
  destruct (check_entries env fs fl); simpl; [discriminate|].
  intros [= <-]. by apply IH.
Qed.

(** C4, as the code has it. [getFilesFromFOFN] sorts the lines of the
    manifest as they are read, before anything is stripped, and returns
    for every line, in that order, [real_upath] of the stripped line: no
    line is dropped. [checkInputFile] raises [ValueError] for a manifest
    exactly when the manifest has no line at all. *)
Theorem getFilesFromFOFN_sorts_raw_lines
    (fs : FS) (fofnname content : string) (validFormats : list FileFormat) :
  OS.read_file env fs (real_ppath env (real_ppath env fofnname)) = Ok content ->
  getFileFormat (real_ppath env fofnname) = FOFN ->
  FOFN ∈ validFormats ->
  isExist env fs (real_ppath env fofnname) = true ->
  exists sorted,
    getFilesFromFOFN env fs (real_ppath env fofnname)
    = Ok ((fun l => real_upath env (Str.strip l)) <$> sorted) /\
    sorted ≡ₚ Str.readlines content /\
    Sorted String.le sorted /\
    length sorted = length (Str.readlines content) /\
    (content = "" ->
     exists m, checkInputFile env fs fofnname validFormats = Raise (ValueError m)) /\
    (content <> "" ->
     forall m, checkInputFile env fs fofnname validFormats <> Raise (ValueError m)).
Proof.
  intros Hread Hfmt Hvalid Hex.
  exists (merge_sort String.le (Str.readlines content)).
  assert (Hget : getFilesFromFOFN env fs (real_ppath env fofnname)
                 = Ok ((fun l => real_upath env (Str.strip l))
                         <$> merge_sort String.le (Str.readlines content))).
  { unfold getFilesFromFOFN. rewrite Hread. reflexivity. }
  split; [exact Hget|].
  split; [apply merge_sort_Permutation|].
  split; [apply (Sorted_merge_sort String.le)|].
  split; [by rewrite merge_sort_Permutation|].
  unfold checkInputFile. rewrite Hfmt.
  rewrite (bool_decide_eq_true_2 _ Hvalid), Hex, Hget. simpl.
  rewrite length_fmap, (Permutation_length (merge_sort_Permutation _ _)).
  split.
  - intros ->. simpl. eauto.
  - intros Hne m.
    destruct (Str.readlines content) as [|l ls] eqn:Hl.
    { apply readlines_nil in Hl. contradiction. }
    simpl.
    destruct (check_entries _ _ _) as [r|e] eqn:Hc; simpl; [discriminate|].
    apply check_entries_raises in Hc as [m' ->]. discriminate.
Qed.

End Manifest.

Lemma getFilesFromFOFN_sorts_raw_lines_witness :
  getFilesFromFOFN env0 fs0 "/home/u/work/in.fofn"
  = Ok ["/home/u/work/a.fasta"; "/home/u/work/b.fasta"] /\
  forall m, checkInputFile env0 fs0 "in.fofn" VALID_INPUT_FORMATS
            <> Raise (ValueError m).
Proof.
  destruct (getFilesFromFOFN_sorts_raw_lines env0 fs0 "in.fofn" "b.fasta
a.fasta
" VALID_INPUT_FORMATS) as (sorted & Hget & _ & _ & _ & _ & Hne).
  - vm_compute. reflexivity.
  - vm_compute. reflexivity.
  - vm_compute. set_solver.
  - vm_compute. reflexivity.
  - split; [vm_compute; reflexivity|].
    apply Hne. discriminate.
Defined.

(** The entries come in the order of the raw lines, which need not be
    the order of the resolved paths: an absolute entry sorts before a
    relative one, whatever the working directory. *)
Example manifest_result_in_raw_order :
  getFilesFromFOFN env0 fs0 "mixed.fofn"
  = Ok ["/z.fasta"; "/home/u/work/a.fasta"] /\
  String.leb "/z.fasta" "/home/u/work/a.fasta" = false.
Proof. split; vm_compute; reflexivity. Qed.

(** C4, as the specification has it, fails: a manifest made of one blank
    line has no usable line, yet its expansion holds one entry, the working
    directory, and [checkInputFile] accepts it. *)
Lemma manifest_blank_line_is_kept :
  ~ (forall (env : Env) (fs : FS) (fofnname content : string),
        OS.read_file env fs (real_ppath env (real_ppath env fofnname)) = Ok content ->
        (getFilesFromFOFN env fs (real_ppath env fofnname)
         = Ok (merge_sort String.le (real_upath env <$> usable_lines content))) /\
        (usable_lines content = [] ->
         is_ok (checkInputFile env fs fofnname VALID_INPUT_FORMATS) = false)).
Proof.
  intros H.
  destruct (H env0 fs0 "blank.fofn" "
") as [_ Hempty]; [vm_compute; reflexivity|].
  specialize (Hempty eq_refl). vm_compute in Hempty. discriminate Hempty.
Qed.

(** ** Strings: replacement, splitting and joining *)

Local Arguments Ascii.eqb : simpl never.

Lemma app_cons (c : ascii) (s t : string) :
  String c s +:+ t = String c (s +:+ t).
Proof. reflexivity. Qed.

Lemma app_empty_l (t : string) : "" +:+ t = t.
Proof. reflexivity. Qed.

Lemma app_empty_r (s : string) : s +:+ "" = s.
Proof. induction s as [|c s IH]; [done|]. by rewrite app_cons, IH. Qed.

Lemma app_assoc_s (a b c : string) : (a +:+ b) +:+ c = a +:+ (b +:+ c).
Proof. induction a as [|x a IH]; [done|]. by rewrite !app_cons, IH. Qed.

Lemma unescape_pair (t : string) :
  unescape (String "\" (String " " t)) = String " " (unescape t).
Proof. reflexivity. Qed.

Lemma unescape_other (c : ascii) (t : string) :
  escaped_space_ahead (String c t) = false ->
  unescape (String c t) = String c (unescape t).
Proof.
  unfold escaped_space_ahead. simpl. destruct t as [|d t]; [done|].
  destruct (Ascii.eqb_spec "\"%char c) as [<-|Hc].
  - destruct (Ascii.eqb_spec " "%char d) as [<-|Hd]; [discriminate|].
    intros _. simpl.
    destruct (Ascii.eqb_spec d " ") as [->|_]; [contradiction|done].
  - intros _. simpl.
    destruct (Ascii.eqb_spec c "\") as [->|_]; [contradiction|done].
Qed.

(** Induction along the scan of [unescape]. *)
Lemma unescape_ind (P : string -> Prop) :
  P "" ->
  (forall t, P t -> P (String "\" (String " " t))) ->
  (forall c t, escaped_space_ahead (String c t) = false -> P t -> P (String c t)) ->
  forall s, P s.
Proof.
  intros H0 H2 H1 s.
  assert (Hboth : P s /\ forall c, P (String c s)); [|apply Hboth].
  induction s as [|d s [IHs IHc]].
  - split; [exact H0|]. intros c. apply H1; [|exact H0].
    unfold escaped_space_ahead. simpl. by destruct (Ascii.eqb "\" c).
  - split; [apply IHc|]. intros c.
    destruct (escaped_space_ahead (String c (String d s))) eqn:He.
    + unfold escaped_space_ahead in He. simpl in He.
      destruct (Ascii.eqb_spec "\"%char c) as [Hc|]; [subst c|discriminate].
      destruct (Ascii.eqb_spec " "%char d) as [Hd|]; [subst d|discriminate].
      apply H2, IHs.
    + apply H1; [exact He|apply IHc].
Qed.

Lemma replace_fuel_unescape (n : nat) (s : string) :
  (String.length s <= n)%nat ->
  Str.replace_fuel n "\ " " " s = unescape s.
Proof.
  revert n. induction s as [|t IH|c t He IH] using unescape_ind; intros n Hn.
  - by destruct n.
  - destruct n as [|n]; simpl in Hn; [lia|].
    rewrite unescape_pair. cbn [Str.replace_fuel Str.strip_prefix].
    rewrite !Ascii.eqb_refl, app_cons, app_empty_l. f_equal.
    apply IH. lia.
  - destruct n as [|n]; simpl in Hn; [lia|].
    rewrite (unescape_other _ _ He). cbn [Str.replace_fuel].
    assert (Str.strip_prefix "\ " (String c t) = None) as ->.
    { unfold escaped_space_ahead in He. simpl in He. simpl.
      destruct (Ascii.eqb "\" c); [|done].
      destruct t as [|d t]; [done|]. by destruct (Ascii.eqb " " d). }
    f_equal. apply IH. lia.
Qed.

Lemma replace_unescape (s : string) : Str.replace "\ " " " s = unescape s.
Proof. apply replace_fuel_unescape. lia. Qed.

Lemma replace_fuel_escape (n : nat) (s : string) :
  (String.length s <= n)%nat ->
  Str.replace_fuel n " " "\ " s = escape s.
Proof.
  revert n. induction s as [|c t IH]; intros n Hn; [by destruct n|].
  destruct n as [|n]; simpl in Hn; [lia|].
  cbn [Str.replace_fuel Str.strip_prefix escape].
  rewrite (Ascii.eqb_sym " " c).
  destruct (Ascii.eqb c " ").
  - rewrite !app_cons, app_empty_l. do 2 f_equal. apply IH. lia.
  - f_equal. apply IH. lia.
Qed.

Lemma replace_escape (s : string) : Str.replace " " "\ " s = escape s.
Proof. apply replace_fuel_escape. lia. Qed.

Lemma escape_head_not_space (t : string) : Str.startswith " " (escape t) = false.
Proof.
  destruct t as [|c t]; [done|]. simpl.
  destruct (Ascii.eqb_spec c " ") as [->|Hc]; simpl; [done|].
  destruct (Ascii.eqb_spec " "%char c) as [<-|]; [contradiction|done].
Qed.

(** Unescaping undoes escaping, on every string. *)
Lemma unescape_escape (s : string) : unescape (escape s) = s.
Proof.
  induction s as [|c s IH]; [done|]. simpl.
  destruct (Ascii.eqb_spec c " ") as [->|Hc].
  - by rewrite unescape_pair, IH.
  - rewrite unescape_other, IH; [done|].
    unfold escaped_space_ahead. simpl.
    destruct (Ascii.eqb "\" c); [|done]. apply escape_head_not_space.
Qed.

Lemma split_nonempty (c : ascii) (s : string) :
  exists w ws, Str.split c s = w :: ws.
Proof.
  induction s as [|a s (w & ws & IH)]; simpl; [eauto|].
  destruct (Ascii.eqb a c); [eauto|]. rewrite IH. eauto.
Qed.

Lemma split_cons_other (c a : ascii) (s w : string) (ws : list string) :
  Ascii.eqb a c = false -> Str.split c s = w :: ws ->
  Str.split c (String a s) = String a w :: ws.
Proof. intros Ha Hs. simpl. by rewrite Ha, Hs. Qed.

Lemma split_cons_sep (c : ascii) (s : string) :
  Str.split c (String c s) = "" :: Str.split c s.
Proof. simpl. by rewrite Ascii.eqb_refl. Qed.

Lemma split_head_space (s w : string) (ws : list string) :
  Str.split Posix.sep s = w :: ws ->
  Str.startswith " " w = true -> Str.startswith " " s = true.
Proof.
  destruct s as [|a s]; simpl; [by intros [= <- <-]|].
  destruct (Ascii.eqb_spec a Posix.sep) as [->|Ha]; [by intros [= <- <-]|].
  destruct (split_nonempty Posix.sep s) as (w0 & ws0 & ->).
  by intros [= <- <-].
Qed.

Lemma string_eqb_cons (a b : ascii) (s t : string) :
  String.eqb (String a s) (String b t) = Ascii.eqb a b && String.eqb s t.
Proof. simpl. by destruct (Ascii.eqb a b). Qed.

(** *** The path functions commute with a replacement that leaves the
    separators and the special components alone *)

Section NormpathCommutes.
Context (f : string -> string).
Hypothesis f_sep : forall t, f (String "/" t) = String "/" (f t).
Hypothesis f_head : forall x, Str.startswith "/" (f x) = Str.startswith "/" x.
Hypothesis f_split :
  forall x, Str.split Posix.sep (f x) = f <$> Str.split Posix.sep x.
Hypothesis f_join : forall l, Str.join "/" (f <$> l) = f (Str.join "/" l).
Hypothesis f_special :
  forall c d, d ∈ [""; "."; ".."] -> String.eqb (f c) d = String.eqb c d.

Lemma f_nil : f "" = "".
Proof. apply String.eqb_eq. rewrite f_special; [done|set_solver]. Qed.

Lemma f_is_empty (x : string) : Str.is_empty (f x) = Str.is_empty x.
Proof.
  assert (He : forall y, Str.is_empty y = String.eqb y "") by (by intros []).
  rewrite !He. apply f_special. set_solver.
Qed.

Lemma f_slashes_app (n : nat) (y : string) :
  f (Posix.slashes n +:+ y) = Posix.slashes n +:+ f y.
Proof.
  induction n as [|n IH]; [done|]. simpl.
  change (String Posix.sep ?s +:+ ?t) with (String "/" (s +:+ t)).
  by rewrite f_sep, IH.
Qed.

Lemma f_startswith_slashes (n : nat) (x : string) :
  Str.startswith (Posix.slashes n) (f x) = Str.startswith (Posix.slashes n) x.
Proof.
  revert x. induction n as [|n IH]; intros x; [done|].
  destruct (Str.startswith "/" x) eqn:Hx.
  - destruct x as [|c x]; [done|]. simpl in Hx.
    destruct (Ascii.eqb_spec "/"%char c) as [<-|]; [|done].
    rewrite f_sep. simpl. apply IH.
  - pose proof (f_head x) as Hfx. rewrite Hx in Hfx.
    assert (Hs : forall y, Str.startswith "/" y = false ->
                           Str.startswith (Posix.slashes (S n)) y = false).
    { intros [|c y]; [done|]. simpl. unfold Posix.sep.
      by destruct (Ascii.eqb "/" c). }
    by rewrite !Hs.
Qed.

Lemma normpath_step_fmap (n : nat) (acc : list string) (c : string) :
  Posix.normpath_step n (f <$> acc) (f c) = f <$> Posix.normpath_step n acc c.
Proof.
  unfold Posix.normpath_step.
  rewrite !f_special by set_solver.
  destruct (String.eqb c "" || String.eqb c "."); [done|].
  assert (bool_decide (f <$> acc = []) = bool_decide (acc = [])) as ->.
  { by destruct acc. }
  assert (match last (f <$> acc) with
          | Some l => String.eqb l ".."
          | None => false
          end
          = match last acc with
            | Some l => String.eqb l ".."
            | None => false
            end) as ->.
  { rewrite fmap_last. destruct (last acc); simpl; [|done].
    apply f_special. set_solver. }
  destruct (_ || _ || _).
  - by rewrite fmap_app.
  - induction acc as [|a [|b acc] IH]; [done..|].
    change (removelast (a :: b :: acc)) with (a :: removelast (b :: acc)).
    rewrite !fmap_cons.
    change (removelast (f a :: f b :: (f <$> acc)))
      with (f a :: removelast (f b :: (f <$> acc))).
    by rewrite <- IH.
Qed.

Lemma normpath_fold_fmap (n : nat) (comps acc : list string) :
  fold_left (Posix.normpath_step n) (f <$> comps) (f <$> acc)
  = f <$> fold_left (Posix.normpath_step n) comps acc.
Proof.
  revert acc. induction comps as [|c comps IH]; intros acc; [done|].
  simpl. by rewrite normpath_step_fmap, IH.
Qed.

Lemma normpath_commutes (x : string) :
  Posix.normpath (f x) = f (Posix.normpath x).
Proof.
  unfold Posix.normpath. rewrite f_is_empty.
  assert (Hdot : f "." = ".").
  { apply String.eqb_eq. rewrite f_special; [done|set_solver]. }
  destruct (Str.is_empty x); [by rewrite Hdot|].
  pose proof (f_startswith_slashes 1 x) as H1.
  pose proof (f_startswith_slashes 2 x) as H2.
  pose proof (f_startswith_slashes 3 x) as H3.
  change (Posix.slashes 1) with "/" in H1.
  change (Posix.slashes 2) with "//" in H2.
  change (Posix.slashes 3) with "///" in H3.
  rewrite H1, H2, H3.
  set (n := if Str.startswith "/" x then _ else _).
  rewrite f_split.
  rewrite (normpath_fold_fmap n _ []), !f_join, <- !f_slashes_app, f_is_empty.
  destruct (Str.is_empty _); [by rewrite Hdot|done].
Qed.

End NormpathCommutes.

(** *** [escape] and [unescape] are such replacements *)

Lemma escape_sep (t : string) : escape (String "/" t) = String "/" (escape t).
Proof. reflexivity. Qed.

Lemma escape_app (a b : string) : escape (a +:+ b) = escape a +:+ escape b.
Proof.
  induction a as [|c a IH]; [done|]. rewrite app_cons. simpl.
  destruct (Ascii.eqb c " "); by rewrite ?app_cons, IH.
Qed.

Lemma escape_head (x : string) :
  Str.startswith "/" (escape x) = Str.startswith "/" x.
Proof.
  destruct x as [|c x]; [done|]. simpl.
  destruct (Ascii.eqb_spec c " ") as [->|]; done.
Qed.

Lemma escape_space (t : string) :
  escape (String " " t) = String "\" (String " " (escape t)).
Proof. reflexivity. Qed.

Lemma escape_other (c : ascii) (t : string) :
  c <> " "%char -> escape (String c t) = String c (escape t).
Proof. intros Hc. simpl. by destruct (Ascii.eqb_spec c " "). Qed.

Lemma escape_split (x : string) :
  Str.split Posix.sep (escape x) = escape <$> Str.split Posix.sep x.
Proof.
  induction x as [|c x IH]; [done|].
  destruct (split_nonempty Posix.sep x) as (w & ws & Hs).
  rewrite Hs in IH.
  destruct (Ascii.eqb_spec c " ") as [->|Hc].
  - rewrite escape_space.
    rewrite (split_cons_other _ _ _ (String " " (escape w)) (escape <$> ws));
      [|done|by apply split_cons_other].
    rewrite (split_cons_other _ _ _ w ws) by done. done.
  - rewrite (escape_other _ _ Hc).
    destruct (Ascii.eqb_spec c Posix.sep) as [->|Hs'].
    + rewrite !split_cons_sep, IH, Hs. done.
    + rewrite (split_cons_other _ _ _ (escape w) (escape <$> ws));
        [|by apply Ascii.eqb_neq|done].
      rewrite (split_cons_other _ _ _ w ws); [|by apply Ascii.eqb_neq|done].
      by rewrite fmap_cons, (escape_other _ _ Hc).
Qed.

Lemma join_cons2 (c w v : string) (l : list string) :
  Str.join c (w :: v :: l) = w +:+ c +:+ Str.join c (v :: l).
Proof. reflexivity. Qed.

Lemma escape_join (l : list string) :
  Str.join "/" (escape <$> l) = escape (Str.join "/" l).
Proof.
  induction l as [|w [|v l] IH]; [done..|].
  rewrite !fmap_cons, !join_cons2, !escape_app.
  rewrite !fmap_cons in IH. by rewrite IH.
Qed.

Lemma escape_special (c d : string) :
  d ∈ [""; "."; ".."] -> String.eqb (escape c) d = String.eqb c d.
Proof.
  intros Hd.
  assert (Hnil : forall s, String.eqb (escape s) "" = String.eqb s "").
  { intros [|a s]; [done|]. simpl. by destruct (Ascii.eqb a " "). }
  assert (Hone : forall s, String.eqb (escape s) "." = String.eqb s ".").
  { intros [|a s]; [done|]. simpl.
    destruct (Ascii.eqb_spec a " ") as [->|]; [done|].
    by rewrite !string_eqb_cons, Hnil. }
  repeat (apply elem_of_cons in Hd as [->|Hd]); [done..| |by inversion Hd].
  destruct c as [|a s]; [done|]. simpl.
  destruct (Ascii.eqb_spec a " ") as [->|]; [done|].
  by rewrite !string_eqb_cons, Hone.
Qed.

Lemma normpath_escape (x : string) :
  Posix.normpath (escape x) = escape (Posix.normpath x).
Proof.
  apply normpath_commutes;
    auto using escape_sep, escape_head, escape_split, escape_join, escape_special.
Qed.

Lemma escaped_space_ahead_cons (c : ascii) (t : string) :
  escaped_space_ahead (String c t) = Ascii.eqb "\" c && Str.startswith " " t.
Proof.
  unfold escaped_space_ahead.
  change (Str.startswith "\ " (String c t))
    with (if Ascii.eqb "\" c then Str.startswith " " t else false).
  by destruct (Ascii.eqb "\" c).
Qed.

Lemma unescape_sep (t : string) : unescape (String "/" t) = String "/" (unescape t).
Proof. by apply unescape_other. Qed.

Lemma unescape_head (x : string) :
  Str.startswith "/" (unescape x) = Str.startswith "/" x.
Proof.
  induction x as [|t _|c t He _] using unescape_ind; [done|done|].
  by rewrite unescape_other.
Qed.

Lemma unescape_split (x : string) :
  Str.split Posix.sep (unescape x) = unescape <$> Str.split Posix.sep x.
Proof.
  induction x as [|t IH|c t He IH] using unescape_ind; [done| |].
  - destruct (split_nonempty Posix.sep t) as (w & ws & Hs).
    rewrite Hs in IH. rewrite unescape_pair.
    rewrite (split_cons_other _ _ _ (unescape w) (unescape <$> ws)) by done.
    rewrite (split_cons_other _ _ _ (String " " w) ws);
      [|done|by apply split_cons_other].
    done.
  - rewrite (unescape_other _ _ He).
    destruct (Ascii.eqb_spec c Posix.sep) as [->|Hs'].
    + by rewrite !split_cons_sep, IH.
    + destruct (split_nonempty Posix.sep t) as (w & ws & Hs).
      rewrite Hs in IH.
      rewrite (split_cons_other _ _ _ (unescape w) (unescape <$> ws));
        [|by apply Ascii.eqb_neq|done].
      rewrite (split_cons_other _ _ _ w ws); [|by apply Ascii.eqb_neq|done].
      rewrite fmap_cons, unescape_other; [done|].
      rewrite escaped_space_ahead_cons in *.
      destruct (Ascii.eqb "\" c); [|done].
      destruct (Str.startswith " " w) eqn:Hw; [|done].
      by rewrite (split_head_space _ _ _ Hs Hw) in He.
Qed.

Lemma unescape_app_sep (a b : string) :
  unescape (a +:+ String "/" b) = unescape a +:+ String "/" (unescape b).
Proof.
  induction a as [|t IH|c t He IH] using unescape_ind.
  - by rewrite !app_empty_l, unescape_sep.
  - by rewrite !app_cons, !unescape_pair, IH.
  - rewrite app_cons, (unescape_other _ _ He), unescape_other, IH; [done|].
    rewrite escaped_space_ahead_cons in *.
    destruct (Ascii.eqb "\" c); [|done].
    destruct t as [|d t]; [done|]. by rewrite app_cons.
Qed.

Lemma unescape_join (l : list string) :
  Str.join "/" (unescape <$> l) = unescape (Str.join "/" l).
Proof.
  induction l as [|w [|v l] IH]; [done..|].
  rewrite !fmap_cons, !join_cons2.
  change ("/" +:+ ?s) with (String "/" s).
  rewrite unescape_app_sep. rewrite !fmap_cons in IH. by rewrite IH.
Qed.

Lemma unescape_special (c d : string) :
  d ∈ [""; "."; ".."] -> String.eqb (unescape c) d = String.eqb c d.
Proof.
  revert d. induction c as [|t IH|a t He IH] using unescape_ind; intros d Hd.
  - done.
  - rewrite unescape_pair.
    repeat (apply elem_of_cons in Hd as [->|Hd]); [done..|by inversion Hd].
  - rewrite (unescape_other _ _ He).
    repeat (apply elem_of_cons in Hd as [->|Hd]); [done| | |by inversion Hd].
    + rewrite !string_eqb_cons, IH; [done|set_solver].
    + rewrite !string_eqb_cons, IH; [done|set_solver].
Qed.

Lemma normpath_unescape (x : string) :
  Posix.normpath (unescape x) = unescape (Posix.normpath x).
Proof.
  apply normpath_commutes;
    auto using unescape_sep, unescape_head, unescape_split, unescape_join,
      unescape_special.
Qed.

Lemma unescape_id (p : string) : Str.contains "\ " p = false -> unescape p = p.
Proof.
  induction p as [|t IH|c t He IH] using unescape_ind; [done|done|].
  intros H. rewrite (unescape_other _ _ He).
  change (Str.contains "\ " (String c t))
    with (Str.startswith "\ " (String c t) || Str.contains "\ " t) in H.
  apply orb_false_iff in H as [_ H]. by rewrite IH.
Qed.

(** ** Properties of [real_ppath] and [real_upath] *)

Section RealPath.
Context (env : Env).

Lemma expanduser_isabs (p : string) :
  Posix.isabs p = true -> Posix.expanduser env p = p.
Proof.
  unfold Posix.isabs, Posix.expanduser. destruct p as [|c p]; [done|].
  simpl. destruct (Ascii.eqb_spec "/"%char c) as [<-|]; done.
Qed.

Lemma abspath_isabs (p : string) :
  Posix.isabs p = true -> Posix.abspath env p = Posix.normpath p.
Proof. unfold Posix.abspath. by intros ->. Qed.

(** On an absolute path the two functions are the two replacements
    around [normpath]. *)
Lemma real_ppath_isabs (p : string) :
  Posix.isabs p = true -> real_ppath env p = unescape (Posix.normpath p).
Proof.
  intros Hp. unfold real_ppath.
  by rewrite replace_unescape, expanduser_isabs, abspath_isabs.
Qed.

Lemma real_upath_isabs (p : string) :
  Posix.isabs p = true ->
  real_upath env p = escape (unescape (Posix.normpath p)).
Proof.
  intros Hp. unfold real_upath. by rewrite replace_escape, real_ppath_isabs.
Qed.

(** C2, as the code has it. On an absolute, normalised path [p] (where
    [abspath] and [expanduser] change nothing), unescaping what
    [real_upath] returns gives [p] with its escaped spaces unescaped, and
    escaping what [real_ppath] returns gives [p] unescaped twice and
    escaped once. So [real_ppath (real_upath p) = p] when [p] holds no
    escaped space, and [real_upath (real_ppath p) = p] when [p] is the
    escaped form of a path that holds no escaped space. *)
Theorem real_path_round_trips (p : string) :
  Posix.isabs p = true ->
  Posix.normpath p = p ->
  real_ppath env (real_upath env p) = unescape p /\
  real_upath env (real_ppath env p) = escape (unescape (unescape p)) /\
  (Str.contains "\ " p = false -> real_ppath env (real_upath env p) = p) /\
  (forall q, p = escape q -> Str.contains "\ " q = false ->
             real_upath env (real_ppath env p) = p).
Proof.
  intros Habs Hnorm.
  assert (Hu : Posix.isabs (unescape p) = true).
  { unfold Posix.isabs in *. by rewrite unescape_head. }
  assert (Heu : Posix.isabs (escape (unescape p)) = true).
  { unfold Posix.isabs in *. by rewrite escape_head. }
  assert (H1 : real_ppath env (real_upath env p) = unescape p).
  { rewrite (real_upath_isabs p Habs), Hnorm, (real_ppath_isabs _ Heu).
    by rewrite normpath_escape, normpath_unescape, Hnorm, unescape_escape. }
  assert (H2 : real_upath env (real_ppath env p) = escape (unescape (unescape p))).
  { rewrite (real_ppath_isabs p Habs), Hnorm, (real_upath_isabs _ Hu).
    by rewrite normpath_unescape, Hnorm. }
  split; [exact H1|]. split; [exact H2|]. split.
  - intros Hp. by rewrite H1, unescape_id.
  - intros q -> Hq. by rewrite H2, unescape_escape, (unescape_id q Hq).
Qed.

End RealPath.

Lemma real_path_round_trips_witness :
  real_ppath env0 (real_upath env0 "/res with space/out.sam")
  = "/res with space/out.sam" /\
  real_upath env0 (real_ppath env0 "/res\ with\ space/out.sam")
  = "/res\ with\ space/out.sam".
Proof.
  split.
  - apply (real_path_round_trips env0 "/res with space/out.sam");
      vm_compute; reflexivity.
  - apply (proj2 (proj2 (proj2
             (real_path_round_trips env0 "/res\ with\ space/out.sam"
                eq_refl eq_refl))) "/res with space/out.sam");
      vm_compute; reflexivity.
Defined.

(** C2, as the specification has it, fails: the path [/a b] holds no
    escaped space at all, and escaping what [real_ppath] returns for it
    gives another path. *)
Lemma real_upath_real_ppath_changes_bare_space :
  ~ (forall (env : Env) (p : string),
        no_consecutive_escaped_spaces p = true ->
        real_upath env (real_ppath env p) = p /\
        real_ppath env (real_upath env p) = p).
Proof.
  intros H. destruct (H env0 "/a b" eq_refl) as [H1 _].
  vm_compute in H1. discriminate H1.
Qed.

(** The other composition fails as well, on a path with one escaped
    space; and both fail on a relative path, which comes back absolute. *)
Example real_ppath_real_upath_unescapes :
  real_ppath env0 (real_upath env0 "/a\ b") = "/a b" /\
  real_upath env0 (real_ppath env0 "out.sam") = "/home/u/work/out.sam".
Proof. split; vm_compute; reflexivity. Qed.

(** ** [os.rename] and [shutil.move] *)

Section Move.
Context (env : Env).

Lemma rename_ok (fs fs' : FS) (src dst : string) :
  OS.rename env fs src dst = Ok fs' ->
  exists nd,
    fs !! OS.key env src = Some nd /\
    fs' !! OS.key env dst = Some nd /\
    (OS.key env src <> OS.key env dst -> fs' !! OS.key env src = None).
Proof.
  unfold OS.rename.
  destruct (_ || _); [discriminate|].
  destruct (fs !! OS.key env src) as [nd|] eqn:Hsrc; [|discriminate].
  destruct (OS.stat env fs (Posix.dirname (OS.key env src))) as [[| ws|]|];
    try discriminate.
  destruct (OS.stat env fs (Posix.dirname (OS.key env dst))) as [[| wd|]|];
    try discriminate.
  destruct (negb _); [discriminate|].
  destruct (String.eqb_spec (OS.key env src) (OS.key env dst)) as [Heq|Hne].
  { intros [= <-]. exists nd. rewrite <- Heq. done. }
  destruct (OS.below _ _); [discriminate|].
  intros H. exists nd. split; [done|].
  assert (Hmoved : fs' = <[OS.key env dst := nd]>
                           (delete (OS.key env src)
                              (OS.carry_entries (OS.key env src) (OS.key env dst) fs))).
  { destruct nd, (fs !! OS.key env dst) as [[]|];
      try destruct (OS.has_entries _ _); by simplify_eq. }
  subst fs'. split; [apply lookup_insert_eq|].
  intros _. rewrite lookup_insert_ne by done. apply lookup_delete_eq.
Qed.








End Move.

(** ** Properties of [_output] *)

Section Output.
Context (env : Env) {X : Type} (sv : @Services X).


End Output.



(** ** Strings: searching and slicing *)

Lemma len_cons (c : ascii) (s : string) : Str.len (String c s) = Str.len s + 1.
Proof. unfold Str.len. simpl. lia. Qed.

Lemma len_nonneg (s : string) : 0 <= Str.len s.
Proof. unfold Str.len. lia. Qed.

Lemma len_app (a b : string) : Str.len (a +:+ b) = Str.len a + Str.len b.
Proof.
  induction a as [|c a IH]; [rewrite app_empty_l; unfold Str.len; simpl; lia|].
  rewrite app_cons, !len_cons, IH. lia.
Qed.

Lemma has_char_app (c : ascii) (a b : string) :
  has_char c (a +:+ b) = has_char c a || has_char c b.
Proof.
  induction a as [|x a IH]; [done|]. rewrite app_cons. simpl.
  by rewrite IH, orb_assoc.
Qed.

Lemma all_char_app (c : ascii) (a b : string) :
  Str.all_char c (a +:+ b) = Str.all_char c a && Str.all_char c b.
Proof.
  induction a as [|x a IH]; [done|]. rewrite app_cons. simpl.
  by rewrite IH, andb_assoc.
Qed.

Lemma rfind_go_range (c : ascii) (k : Z) (s : string) :
  0 <= k -> Str.rfind_char_go c k s = -1 \/ k <= Str.rfind_char_go c k s.
Proof.
  revert k. induction s as [|a s IH]; intros k Hk; [by left|]. simpl.
  destruct (IH (k + 1) ltac:(lia)) as [->| Hr].
  - simpl. destruct (Ascii.eqb a c); [right; lia|by left].
  - destruct (0 <=? _) eqn:H0; [right; lia|]. apply Z.leb_gt in H0. lia.
Qed.

Lemma rfind_go_app (c : ascii) (k : Z) (a b : string) :
  0 <= k ->
  Str.rfind_char_go c k (a +:+ b) =
    if 0 <=? Str.rfind_char_go c (k + Str.len a) b
    then Str.rfind_char_go c (k + Str.len a) b
    else Str.rfind_char_go c k a.
Proof.
  revert k. induction a as [|x a IH]; intros k Hk.
  - rewrite app_empty_l. change (Str.len "") with 0. rewrite Z.add_0_r. simpl.
    destruct (rfind_go_range c k b Hk) as [->| Hr]; [done|].
    destruct (0 <=? _) eqn:H0; [done|]. apply Z.leb_gt in H0. lia.
  - rewrite app_cons, len_cons. simpl. rewrite IH by lia.
    replace (k + 1 + Str.len a) with (k + (Str.len a + 1)) by lia.
    destruct (0 <=? Str.rfind_char_go c (k + (Str.len a + 1)) b) eqn:H0; [|done].
    by rewrite H0.
Qed.

Lemma rfind_go_absent (c : ascii) (k : Z) (s : string) :
  has_char c s = false -> Str.rfind_char_go c k s = -1.
Proof.
  revert k. induction s as [|a s IH]; intros k; [done|]. simpl.
  intros [Ha Hs]%orb_false_iff. by rewrite (IH _ Hs), Ha.
Qed.

Lemma rfind_go_first (c : ascii) (k : Z) (s : string) :
  0 <= k -> has_char c s = false -> Str.rfind_char_go c k (String c s) = k.
Proof.
  intros Hk Hs. simpl. rewrite (rfind_go_absent _ _ _ Hs), Ascii.eqb_refl. done.
Qed.

(** What [rfind] finds is the last occurrence. *)
Lemma rfind_go_spec (c : ascii) (k : Z) (s : string) :
  0 <= k ->
  (Str.rfind_char_go c k s = -1 /\ has_char c s = false) \/
  (exists a b, s = a +:+ String c b /\ has_char c b = false /\
               Str.rfind_char_go c k s = k + Str.len a).
Proof.
  revert k. induction s as [|x s IH]; intros k Hk; [by left|]. simpl.
  destruct (IH (k + 1) ltac:(lia)) as [[-> Hs]|(a & b & -> & Hb & ->)].
  - simpl. destruct (Ascii.eqb_spec x c) as [->|Hx].
    + right. exists "", s. rewrite app_empty_l. change (Str.len "") with 0.
      split; [done|split; [done|lia]].
    + left. by rewrite orb_false_l.
  - right. exists (String x a), b. rewrite app_cons, len_cons.
    destruct (0 <=? _) eqn:H0; [|apply Z.leb_gt in H0; pose proof (len_nonneg a); lia].
    split; [done|split; [done|lia]].
Qed.

Lemma upto_app_len (a b : string) (j : Z) :
  0 <= j -> Str.upto (a +:+ b) (Str.len a + j) = a +:+ Str.upto b j.
Proof.
  intros Hj. unfold Str.upto, Str.len.
  replace (Z.to_nat (Z.of_nat (String.length a) + j))
    with (String.length a + Z.to_nat j)%nat by lia.
  induction a as [|c a IH]; [done|]. rewrite !app_cons. simpl. by rewrite IH.
Qed.

Lemma from_app_len (a b : string) (j : Z) :
  0 <= j -> Str.from (a +:+ b) (Str.len a + j) = Str.from b j.
Proof.
  intros Hj. unfold Str.from, Str.len.
  replace (Z.to_nat (Z.of_nat (String.length a) + j))
    with (String.length a + Z.to_nat j)%nat by lia.
  induction a as [|c a IH]; [done|]. rewrite !app_cons. simpl. by rewrite IH.
Qed.

Lemma upto_all (a : string) : Str.upto a (Str.len a) = a.
Proof.
  unfold Str.upto, Str.len. rewrite Nat2Z.id.
  induction a as [|c a IH]; [done|]. simpl. by rewrite IH.
Qed.

Lemma upto_0 (a : string) : Str.upto a 0 = "".
Proof. by destruct a. Qed.

Lemma from_0 (a : string) : Str.from a 0 = a.
Proof. by destruct a. Qed.

Lemma upto_app_exact (a b : string) : Str.upto (a +:+ b) (Str.len a) = a.
Proof.
  rewrite <- (Z.add_0_r (Str.len a)), upto_app_len by lia.
  by rewrite upto_0, app_empty_r.
Qed.

Lemma from_app_exact (a b : string) : Str.from (a +:+ b) (Str.len a) = b.
Proof.
  rewrite <- (Z.add_0_r (Str.len a)), from_app_len by lia. apply from_0.
Qed.

Lemma app_snoc_cons (d : string) (c : ascii) (s : string) :
  d +:+ String c s = (d +:+ String c "") +:+ s.
Proof. by rewrite app_assoc_s. Qed.

(** The scan of [splitext] over a name [m] that starts at [len d]. *)
Lemma splitext_scan_found (fuel : nat) (d m rest : string) :
  Str.all_char "." m = false ->
  (String.length m < fuel)%nat ->
  Posix.splitext_scan fuel (d +:+ m +:+ rest) (Str.len d) (Str.len d + Str.len m)
  = Some (d +:+ m, rest).
Proof.
  revert fuel d. induction m as [|c m IH]; intros fuel d Hm Hfuel; [done|].
  destruct fuel as [|fuel]; [simpl in Hfuel; lia|].
  cbn [Posix.splitext_scan].
  pose proof (len_nonneg m) as Hlm. rewrite len_cons.
  assert ((Str.len d <? Str.len d + (Str.len m + 1)) = true) as -> by lia.
  rewrite <- (Z.add_0_r (Str.len d)) at 1. rewrite from_app_len by lia.
  rewrite from_0, app_cons.
  change (Str.take 1 (String c ?s)) with (String c "").
  destruct (Ascii.eqb_spec c ".") as [->|Hc].
  - simpl in Hm. change (String.eqb "." ".") with true. cbn [negb].
    rewrite (app_snoc_cons d "." (m +:+ rest)).
    replace (Str.len d + 1) with (Str.len (d +:+ ".")) by (by rewrite len_app).
    replace (Str.len d + (Str.len m + 1)) with (Str.len (d +:+ ".") + Str.len m)
      by (rewrite len_app; change (Str.len ".") with 1; lia).
    rewrite IH; [|done|simpl in Hfuel; lia].
    by rewrite <- app_snoc_cons.
  - assert (String.eqb (String c "") "." = false) as ->.
    { rewrite string_eqb_cons. by destruct (Ascii.eqb_spec c "."). }
    cbn [negb].
    replace (Str.len d + (Str.len m + 1)) with (Str.len (d +:+ String c m))
      by (rewrite len_app, len_cons; lia).
    rewrite <- app_cons, <- app_assoc_s.
    by rewrite upto_app_exact, from_app_exact.
Qed.

Lemma endswith_char_snoc (c : ascii) (d : string) :
  Str.endswith_char c d = true -> exists x, d = x +:+ String c "".
Proof.
  induction d as [|a d IH]; [done|]. simpl.
  destruct d as [|b d].
  - intros ->%Ascii.eqb_eq. by exists "".
  - intros H. destruct (IH H) as [x ->]. by exists (String a x).
Qed.

Lemma endswith_char_app (c : ascii) (x : string) :
  Str.endswith_char c (x +:+ String c "") = true.
Proof.
  induction x as [|a x IH]; [simpl; apply Ascii.eqb_refl|].
  rewrite app_cons. simpl. destruct (x +:+ String c "") eqn:E; [|done].
  by destruct x.
Qed.

(** A path of the shape [has_ext p e] splits at the dot of [e]. *)
Lemma splitext_intro (d m e : string) :
  d = "" \/ Str.endswith_char Posix.sep d = true ->
  has_char Posix.sep m = false ->
  Str.all_char "." m = false ->
  has_char "." e = false ->
  has_char Posix.sep e = false ->
  Posix.splitext (d +:+ m +:+ String "." e) = (d +:+ m, String "." e).
Proof.
  intros Hd Hm Hdots He Hes. unfold Posix.splitext.
  assert (Hsep : Str.rfind_char Posix.sep (d +:+ m +:+ String "." e) = Str.len d - 1).
  { unfold Str.rfind_char. rewrite rfind_go_app by lia.
    rewrite rfind_go_absent.
    2:{ rewrite has_char_app, Hm. simpl. by rewrite Hes. }
    simpl. destruct Hd as [->|Hd]; [done|].
    apply endswith_char_snoc in Hd as [x ->].
    pose proof (len_nonneg x).
    rewrite rfind_go_app by lia. rewrite rfind_go_first by (done || lia).
    rewrite len_app. change (Str.len (String Posix.sep "")) with 1.
    destruct (0 <=? 0 + Str.len x) eqn:E; lia. }
  assert (Hdot : Str.rfind_char "." (d +:+ m +:+ String "." e)
                 = Str.len d + Str.len m).
  { unfold Str.rfind_char. rewrite <- app_assoc_s, rfind_go_app by lia.
    pose proof (len_nonneg d). pose proof (len_nonneg m).
    rewrite rfind_go_first by (rewrite ?len_app; done || lia).
    rewrite len_app.
    destruct (0 <=? _) eqn:E; lia. }
  rewrite Hsep, Hdot.
  assert (Hlen : 0 < Str.len m).
  { destruct m; [done|]. rewrite len_cons. pose proof (len_nonneg m). lia. }
  assert ((Str.len d - 1 <? Str.len d + Str.len m) = true) as -> by lia.
  replace (Str.len d - 1 + 1) with (Str.len d) by lia.
  rewrite splitext_scan_found; [done|done|].
  pose proof (len_app d (m +:+ String "." e)) as H1.
  pose proof (len_app m (String "." e)) as H2.
  unfold Str.len in H1, H2. lia.
Qed.

Lemma from_step (p : string) (i : Z) :
  0 <= i < Str.len p ->
  exists c, Str.from p i = String c (Str.from p (i + 1)).
Proof.
  intros Hi. unfold Str.from, Str.len in *.
  replace (Z.to_nat (i + 1)) with (S (Z.to_nat i)) by lia.
  assert (Hn : (Z.to_nat i < String.length p)%nat) by lia.
  clear Hi. revert p Hn. induction (Z.to_nat i) as [|n IH]; intros p Hn.
  - destruct p as [|c p]; [simpl in Hn; lia|]. by exists c.
  - destruct p as [|c p]; [simpl in Hn; lia|]. simpl in *. apply IH. lia.
Qed.

Lemma upto_cons (c : ascii) (t : string) (n : Z) :
  0 < n -> Str.upto (String c t) n = String c (Str.upto t (n - 1)).
Proof.
  intros Hn. unfold Str.upto.
  replace (Z.to_nat n) with (S (Z.to_nat (n - 1))) by lia. done.
Qed.

(** When the scan of [splitext] finds an extension, it starts at the dot
    index, and the name before it is not made of dots only. *)
Lemma splitext_scan_some (fuel : nat) (p : string) (i j : Z) (r : string * string) :
  0 <= i -> j < Str.len p ->
  Posix.splitext_scan fuel p i j = Some r ->
  r = (Str.upto p j, Str.from p j) /\
  Str.all_char "." (Str.upto (Str.from p i) (j - i)) = false.
Proof.
  revert i. induction fuel as [|fuel IH]; intros i Hi Hj; [done|].
  cbn [Posix.splitext_scan].
  destruct (i <? j) eqn:Hij; [|done]. apply Z.ltb_lt in Hij.
  destruct (from_step p i ltac:(lia)) as [c Hc]. rewrite Hc.
  change (Str.take 1 (String c ?s)) with (String c "").
  rewrite upto_cons by lia. simpl Str.all_char.
  rewrite string_eqb_cons. change (String.eqb "" "") with true.
  rewrite andb_true_r.
  destruct (Ascii.eqb c ".") eqn:Ec; cbn [negb].
  - intros Hs. apply IH in Hs as [-> Hs]; [|lia..]. split; [done|].
    simpl. by replace (j - i - 1) with (j - (i + 1)) by lia.
  - by intros [= <-].
Qed.

Lemma app_eq_app_le (a x b y : string) :
  a +:+ x = b +:+ y -> Str.len b <= Str.len a ->
  exists m, a = b +:+ m /\ y = m +:+ x.
Proof.
  revert a. induction b as [|c b IH]; intros a.
  - rewrite app_empty_l. intros <- _. by exists a.
  - destruct a as [|c' a].
    { rewrite len_cons. change (Str.len "") with 0.
      pose proof (len_nonneg b). lia. }
    rewrite !app_cons, !len_cons. intros [= -> H] Hlen.
    destruct (IH a H ltac:(lia)) as (m & -> & ->). by exists m.
Qed.

(** A path with an extension has the shape [has_ext]. *)
Lemma splitext_elim (p ext : string) :
  snd (Posix.splitext p) = ext -> ext <> "" ->
  exists e, ext = String "." e /\ has_ext p e /\
            has_char "." e = false /\ has_char Posix.sep e = false.
Proof.
  unfold Posix.splitext. intros Hsplit Hext.
  destruct (Str.rfind_char Posix.sep p <? Str.rfind_char "." p) eqn:Hlt;
    [|by subst ext].
  apply Z.ltb_lt in Hlt.
  unfold Str.rfind_char in *.
  destruct (rfind_go_spec "." 0 p ltac:(lia)) as [[Hdot _]|(a & e & Hp & He & Hdot)].
  { destruct (rfind_go_range Posix.sep 0 p ltac:(lia)); lia. }
  rewrite Hdot in *. rewrite Z.add_0_l in *.
  assert (Hlenp : Str.len a < Str.len p).
  { subst p. rewrite len_app, len_cons. pose proof (len_nonneg e). lia. }
  destruct (Posix.splitext_scan _ _ _ _) as [r|] eqn:Hscan; [|by subst ext].
  apply splitext_scan_some in Hscan as [-> Hdots];
    [|destruct (rfind_go_range Posix.sep 0 p ltac:(lia)); lia|done].
  simpl in Hsplit. exists e.
  assert (Hfrom : Str.from p (Str.len a) = String "." e).
  { subst p. apply from_app_exact. }
  split; [congruence|]. split; [|split; [done|]].
  - destruct (rfind_go_spec Posix.sep 0 p ltac:(lia))
      as [[Hsep Hnone]|(a2 & b2 & Hp2 & Hb2 & Hsep)].
    + exists "", a. rewrite app_empty_l. split; [done|]. split; [by left|].
      rewrite Hsep in Hdots. simpl in Hdots. rewrite from_0, Z.sub_0_r in Hdots.
      rewrite Hp in Hnone, Hdots. rewrite has_char_app in Hnone.
      apply orb_false_iff in Hnone as [Hna _].
      rewrite (upto_app_exact a) in Hdots. done.
    + rewrite Hsep, Z.add_0_l in Hlt, Hdots.
      rewrite Hp in Hp2. rewrite (app_snoc_cons a2) in Hp2.
      apply app_eq_app_le in Hp2 as (m & Ha & Hb);
        [|rewrite len_app; change (Str.len (String Posix.sep "")) with 1; lia].
      exists (a2 +:+ String Posix.sep ""), m.
      rewrite Hb, has_char_app in Hb2. apply orb_false_iff in Hb2 as [Hm _].
      split; [by rewrite Hp, Ha, app_assoc_s|].
      split; [right; apply endswith_char_app|]. split; [done|].
      rewrite Hp, Ha, app_assoc_s in Hdots.
      replace (Str.len a2 + 1) with (Str.len (a2 +:+ String Posix.sep "")) in Hdots
        by (by rewrite len_app).
      rewrite from_app_exact in Hdots.
      match type of Hdots with
      | context [Str.upto _ ?n] =>
          replace n with (Str.len m) in Hdots
            by (rewrite ?len_app; change (Str.len (String Posix.sep "")) with 1; lia)
      end.
      by rewrite upto_app_exact in Hdots.
  - destruct (rfind_go_spec Posix.sep 0 p ltac:(lia))
      as [[Hsep Hnone]|(a2 & b2 & Hp2 & Hb2 & Hsep)].
    + rewrite Hp, has_char_app in Hnone.
      by apply orb_false_iff in Hnone as [_ Hnone].
    + rewrite Hsep, Z.add_0_l in Hlt.
      rewrite Hp in Hp2. rewrite (app_snoc_cons a2) in Hp2.
      apply app_eq_app_le in Hp2 as (m & Ha & Hb);
        [|rewrite len_app; change (Str.len (String Posix.sep "")) with 1; lia].
      rewrite Hb, has_char_app in Hb2.
      by apply orb_false_iff in Hb2 as [_ Hb2].
Qed.

(** ** The extension of a path survives [real_upath] *)

Lemma split_app_sep (c : ascii) (x y : string) :
  Str.split c (x +:+ String c y) = Str.split c x ++ Str.split c y.
Proof.
  induction x as [|a x IH].
  - rewrite app_empty_l. apply split_cons_sep.
  - rewrite app_cons. destruct (Ascii.eqb_spec a c) as [->|Ha].
    + by rewrite !split_cons_sep, IH.
    + destruct (split_nonempty c x) as (w & ws & Hs). rewrite Hs in IH.
      rewrite (split_cons_other _ _ _ w (ws ++ Str.split c y));
        [|by apply Ascii.eqb_neq|done].
      by rewrite (split_cons_other _ _ _ w ws); [|by apply Ascii.eqb_neq|].
Qed.

Lemma split_absent (c : ascii) (b : string) :
  has_char c b = false -> Str.split c b = [b].
Proof.
  induction b as [|a b IH]; [done|]. simpl.
  intros [Ha Hb]%orb_false_iff. by rewrite Ha, IH.
Qed.

Lemma join_snoc (l : list string) (b : string) :
  Str.join "/" (l ++ [b]) =
    match l with [] => b | _ => Str.join "/" l +:+ "/" +:+ b end.
Proof.
  induction l as [|w [|v l] IH]; [done..|].
  change ((w :: v :: l) ++ [b]) with (w :: v :: (l ++ [b])).
  rewrite !join_cons2. change (v :: l ++ [b]) with ((v :: l) ++ [b]).
  rewrite IH. by rewrite !app_assoc_s.
Qed.

Lemma not_special (b : string) :
  Str.all_char "." b = false ->
  String.eqb b "" = false /\ String.eqb b "." = false /\ String.eqb b ".." = false.
Proof.
  intros H. repeat split; apply String.eqb_neq; by intros ->.
Qed.

Lemma is_empty_app (a b : string) :
  Str.is_empty (a +:+ b) = Str.is_empty a && Str.is_empty b.
Proof. destruct a; [by rewrite app_empty_l|done]. Qed.

Lemma endswith_slashes (n : nat) :
  Str.endswith_char Posix.sep (Posix.slashes (S n)) = true.
Proof. induction n as [|n IH]; [done|]. by rewrite <- IH. Qed.

Lemma has_ext_normpath (p e : string) :
  has_char Posix.sep e = false ->
  has_ext p e -> has_ext (Posix.normpath p) e.
Proof.
  intros He (d & m & -> & Hd & Hm & Hdots).
  set (b := m +:+ String "." e).
  assert (Hb : Str.all_char "." b = false).
  { unfold b. by rewrite all_char_app, Hdots. }
  assert (Hsb : Str.split Posix.sep b = [b]).
  { apply split_absent. unfold b. rewrite has_char_app, Hm. simpl. by rewrite He. }
  destruct (not_special b Hb) as (Hb0 & Hb1 & Hb2).
  assert (Hbe : Str.is_empty b = false) by (by destruct b).
  unfold Posix.normpath.
  rewrite is_empty_app, Hbe, andb_false_r.
  set (n := if Str.startswith "/" (d +:+ b) then _ else _).
  assert (Hsplit : exists l, Str.split Posix.sep (d +:+ b) = l ++ [b]).
  { destruct Hd as [->|Hd].
    - exists []. by rewrite app_empty_l.
    - apply endswith_char_snoc in Hd as [x ->].
      exists (Str.split Posix.sep x).
      by rewrite <- app_snoc_cons, split_app_sep, Hsb. }
  destruct Hsplit as [l ->].
  rewrite fold_left_app. cbn [fold_left].
  set (acc := fold_left (Posix.normpath_step n) l []).
  assert (Hstep : Posix.normpath_step n acc b = acc ++ [b]).
  { unfold Posix.normpath_step. by rewrite Hb0, Hb1, Hb2. }
  rewrite Hstep, join_snoc.
  destruct acc as [|w acc'].
  - rewrite is_empty_app, Hbe, andb_false_r.
    exists (Posix.slashes n), m. split; [done|]. split; [|done].
    destruct n as [|n]; [by left|right; apply endswith_slashes].
  - set (j := Str.join "/" (w :: acc')).
    rewrite !is_empty_app, Hbe, !andb_false_r.
    exists ((Posix.slashes n +:+ j) +:+ String Posix.sep ""), m.
    split; [|split; [right; apply endswith_char_app|done]].
    unfold b. by rewrite !app_assoc_s.
Qed.

Lemma has_ext_join (a f e : string) :
  has_ext f e -> has_ext (Posix.join a f) e.
Proof.
  intros (d & m & -> & Hd & Hm & Hdots). unfold Posix.join.
  destruct (Str.startswith "/" _); [by exists d, m|].
  destruct (Str.is_empty a || Str.endswith_char Posix.sep a) eqn:Ha.
  - exists (a +:+ d), m. split; [by rewrite app_assoc_s|]. split; [|done].
    destruct Hd as [->|Hd].
    + rewrite app_empty_r. apply orb_true_iff in Ha as [Ha|Ha]; [|by right].
      left. by destruct a.
    + right. apply endswith_char_snoc in Hd as [x ->].
      rewrite <- app_assoc_s. apply endswith_char_app.
  - exists (a +:+ "/" +:+ d), m. split; [by rewrite !app_assoc_s|].
    split; [|done]. right.
    destruct Hd as [->|Hd].
    + rewrite app_empty_r. apply endswith_char_app.
    + apply endswith_char_snoc in Hd as [x ->].
      rewrite <- !app_assoc_s. apply endswith_char_app.
Qed.

Lemma unescape_app_char (c : ascii) (a b : string) :
  c <> " "%char -> c <> "\"%char ->
  unescape (a +:+ String c b) = unescape a +:+ String c (unescape b).
Proof.
  intros Hc1 Hc2.
  assert (Hcb : unescape (String c b) = String c (unescape b)).
  { apply unescape_other. rewrite escaped_space_ahead_cons.
    by destruct (Ascii.eqb_spec "\"%char c). }
  induction a as [|t IH|x t He IH] using unescape_ind.
  - by rewrite !app_empty_l.
  - by rewrite !app_cons, !unescape_pair, IH.
  - rewrite app_cons, (unescape_other _ _ He), unescape_other, IH; [done|].
    rewrite escaped_space_ahead_cons in *.
    destruct (Ascii.eqb "\" x); [|done].
    destruct t as [|d t]; [|by rewrite app_cons].
    rewrite app_empty_l. simpl. by destruct (Ascii.eqb_spec " "%char c).
Qed.

Lemma unescape_nospace (s : string) : has_char " " s = false -> unescape s = s.
Proof.
  induction s as [|t IH|c t He IH] using unescape_ind; [done|done|].
  intros H.
  change (has_char " " (String c t)) with (Ascii.eqb c " " || has_char " " t) in H.
  apply orb_false_iff in H as [_ Ht]. by rewrite (unescape_other _ _ He), IH.
Qed.

Lemma escape_nospace (s : string) : has_char " " s = false -> escape s = s.
Proof.
  induction s as [|c s IH]; [done|]. simpl.
  intros [-> Hs]%orb_false_iff. by rewrite IH.
Qed.

Lemma has_char_sep_unescape (s : string) :
  has_char Posix.sep (unescape s) = has_char Posix.sep s.
Proof.
  induction s as [|t IH|c t He IH] using unescape_ind; [done| |].
  - rewrite unescape_pair. simpl. by rewrite IH.
  - rewrite (unescape_other _ _ He). simpl. by rewrite IH.
Qed.

Lemma has_char_sep_escape (s : string) :
  has_char Posix.sep (escape s) = has_char Posix.sep s.
Proof.
  induction s as [|c s IH]; [done|]. simpl.
  destruct (Ascii.eqb_spec c " ") as [->|]; simpl; by rewrite IH.
Qed.

Lemma all_char_dot_unescape (s : string) :
  Str.all_char "." (unescape s) = Str.all_char "." s.
Proof.
  induction s as [|t IH|c t He IH] using unescape_ind; [done|done|].
  rewrite (unescape_other _ _ He). simpl. by rewrite IH.
Qed.

Lemma all_char_dot_escape (s : string) :
  Str.all_char "." (escape s) = Str.all_char "." s.
Proof.
  induction s as [|c s IH]; [done|]. simpl.
  destruct (Ascii.eqb_spec c " ") as [->|]; simpl; [done|by rewrite IH].
Qed.

Lemma has_ext_unescape (p e : string) :
  has_char " " e = false -> has_ext p e -> has_ext (unescape p) e.
Proof.
  intros He (d & m & -> & Hd & Hm & Hdots).
  assert (Hme : unescape (m +:+ String "." e) = unescape m +:+ String "." e).
  { by rewrite unescape_app_char, (unescape_nospace e He). }
  destruct Hd as [->|Hd].
  - exists "", (unescape m). rewrite !app_empty_l, Hme.
    rewrite has_char_sep_unescape, all_char_dot_unescape. auto.
  - apply endswith_char_snoc in Hd as [x ->].
    exists (unescape x +:+ String Posix.sep ""), (unescape m).
    rewrite <- app_snoc_cons, unescape_app_char, Hme by done.
    rewrite has_char_sep_unescape, all_char_dot_unescape.
    split; [by rewrite <- app_snoc_cons|].
    split; [right; apply endswith_char_app|done].
Qed.

Lemma has_ext_escape (p e : string) :
  has_char " " e = false -> has_ext p e -> has_ext (escape p) e.
Proof.
  intros He (d & m & -> & Hd & Hm & Hdots).
  exists (escape d), (escape m).
  rewrite !escape_app, has_char_sep_escape, all_char_dot_escape.
  split; [|split; [|done]].
  - do 2 f_equal. change (escape (String "." e)) with (String "." (escape e)).
    by rewrite (escape_nospace e He).
  - destruct Hd as [->|Hd]; [by left|right].
    apply endswith_char_snoc in Hd as [x ->].
    rewrite escape_app. apply endswith_char_app.
Qed.

Lemma lower_char_space (a : ascii) :
  Ascii.eqb (Str.lower_char a) " " = Ascii.eqb a " ".
Proof. by destruct a as [[] [] [] [] [] [] [] []]. Qed.

Lemma has_char_space_lower (s : string) :
  has_char " " (Str.lower s) = has_char " " s.
Proof.
  induction s as [|a s IH]; [done|]. simpl. by rewrite lower_char_space, IH.
Qed.

Section RealUpathExtension.
Context (env : Env).

Lemma expanduser_no_tilde (f : string) :
  Str.startswith "~" f = false -> Posix.expanduser env f = f.
Proof. unfold Posix.expanduser. by intros ->. Qed.

Lemma has_ext_real_upath (f e : string) :
  Str.startswith "~" f = false ->
  has_char Posix.sep e = false -> has_char " " e = false ->
  has_ext f e -> has_ext (real_upath env f) e.
Proof.
  intros Hf Hs He Hext. unfold real_upath, real_ppath.
  rewrite replace_escape, replace_unescape, (expanduser_no_tilde f Hf).
  apply has_ext_escape, has_ext_unescape, has_ext_normpath; try done.
  unfold Posix.abspath. destruct (Posix.isabs f); [done|by apply has_ext_join].
Qed.



End RealUpathExtension.

(** ** The FASTA file of [checkReferencePath] *)

Lemma normpath_isabs (z : string) :
  Posix.isabs z = true -> Posix.isabs (Posix.normpath z) = true.
Proof.
  unfold Posix.isabs, Posix.normpath. intros Hz.
  destruct z as [|c z]; [done|]. cbn [Str.is_empty]. rewrite Hz.
  set (n := if _ && _ then 2%nat else 1%nat).
  assert (Hn : exists k, n = S k) by (subst n; destruct (_ && _); eauto).
  destruct Hn as [k ->]. done.
Qed.

Lemma join_isabs (a y : string) :
  Posix.isabs a = true -> Posix.isabs (Posix.join a y) = true.
Proof.
  unfold Posix.isabs, Posix.join. intros Ha.
  destruct (Str.startswith "/" y) eqn:Hy; [done|].
  destruct a as [|c a]; [done|].
  destruct (_ || _); by rewrite ?app_cons.
Qed.


Section FastaFile.
Context (env : Env).
Context (ET_parse : string -> option Element).
Context (ReferenceSet_toFofn : FS -> string -> result (list string)).
Hypothesis cwd_isabs : Posix.isabs (getcwd env) = true.

Lemma abspath_result_isabs (y : string) :
  Posix.isabs (Posix.abspath env y) = true.
Proof.
  unfold Posix.abspath. apply normpath_isabs.
  destruct (Posix.isabs y) eqn:Hy; [done|by apply join_isabs].
Qed.

Lemma real_ppath_result_isabs (x : string) :
  Posix.isabs (real_ppath env x) = true.
Proof.
  unfold real_ppath, Posix.isabs. rewrite replace_unescape, unescape_head.
  apply abspath_result_isabs.
Qed.

Lemma real_upath_result_isabs (x : string) :
  Posix.isabs (real_upath env x) = true.
Proof.
  unfold real_upath. unfold Posix.isabs. rewrite replace_escape, escape_head.
  apply real_ppath_result_isabs.
Qed.



End FastaFile.



(** C7. The format check of [checkReferencePath] is made on the FASTA
    path as it was found, and the path is resolved afterwards: for a
    dataset whose resource is written [~x.fasta], on a host with a user
    of that name, the check passes and the bundle that is returned names
    the home directory of that user, which is not classified as FASTA. *)
Theorem checkReferencePath_returns_non_FASTA :
  getFileFormat "~x.fasta" = FASTA /\
  checkReferencePath env_tilde ET_parse0 ReferenceSet_tilde fs_repo "/data/set.xml"
  = Ok {| rb_refpath := "/data/set.xml";
          rb_fastaFile := "/home/xf";
          rb_sawriterFile := None;
          rb_isWithinRepository := false;
          rb_adapterGffFile := None |} /\
  getFileFormat "/home/xf" = UNKNOWN /\
  ~ (forall (env : Env) (ET_parse : string -> option Element)
            (ReferenceSet_toFofn : FS -> string -> result (list string))
            (fs : FS) (inRefpath : string) (b : ReferenceBundle),
        Posix.isabs (getcwd env) = true ->
        checkReferencePath env ET_parse ReferenceSet_toFofn fs inRefpath = Ok b ->
        getFileFormat (rb_fastaFile b) = FASTA).
Proof.
  assert (Hrun :
    checkReferencePath env_tilde ET_parse0 ReferenceSet_tilde fs_repo "/data/set.xml"
    = Ok {| rb_refpath := "/data/set.xml";
            rb_fastaFile := "/home/xf";
            rb_sawriterFile := None;
            rb_isWithinRepository := false;
            rb_adapterGffFile := None |}) by (vm_compute; reflexivity).
  split; [vm_compute; reflexivity|]. split; [exact Hrun|].
  split; [vm_compute; reflexivity|].
  intros H.
  specialize (H env_tilde ET_parse0 ReferenceSet_tilde fs_repo "/data/set.xml"
                _ eq_refl Hrun).
  vm_compute in H. discriminate H.
Qed.

(** ** [normpath] on its own results *)

Lemma split_components_no_sep (c : ascii) (s : string) :
  Forall (fun w => has_char c w = false) (Str.split c s).
Proof.
  induction s as [|a s IH]; [by repeat constructor|]. simpl.
  destruct (Ascii.eqb a c) eqn:Ha; [by constructor|].
  destruct (Str.split c s) as [|w ws]; [by repeat constructor; simpl; rewrite Ha|].
  inversion IH as [|? ? Hw Hws]; subst.
  constructor; [|done]. simpl. by rewrite Ha, Hw.
Qed.

Lemma split_join (l : list string) :
  l <> [] -> Forall (fun w => has_char Posix.sep w = false) l ->
  Str.split Posix.sep (Str.join "/" l) = l.
Proof.
  induction l as [|w [|v l] IH]; [done| |]; intros _ Hl.
  - apply split_absent. by inversion Hl.
  - rewrite join_cons2. change ("/" +:+ ?s) with (String Posix.sep s).
    inversion Hl as [|? ? Hw Hrest]; subst.
    rewrite split_app_sep, (split_absent _ _ Hw), IH by done. done.
Qed.

(** A component that [normpath] keeps as it is. *)
Lemma normpath_step_plain (n : nat) (acc : list string) (c : string) :
  String.eqb c "" = false -> String.eqb c "." = false ->
  String.eqb c ".." = false ->
  Posix.normpath_step n acc c = acc ++ [c].
Proof. intros H0 H1 H2. unfold Posix.normpath_step. by rewrite H0, H1, H2. Qed.

Lemma normpath_step_empty (n : nat) (acc : list string) :
  Posix.normpath_step n acc "" = acc.
Proof. done. Qed.

Lemma removelast_Forall {A} (P : A -> Prop) (l : list A) :
  Forall P l -> Forall P (removelast l).
Proof.
  induction l as [|a [|b l] IH]; [done|by constructor|].
  intros H. inversion H; subst. change (removelast (a :: b :: l)) with
    (a :: removelast (b :: l)). constructor; auto.
Qed.

(** With leading slashes, no special component survives the loop. *)
Lemma normpath_fold_plain (n : nat) (comps acc : list string) :
  let plain := fun c : string =>
    String.eqb c "" = false /\ String.eqb c "." = false /\
    String.eqb c ".." = false /\ has_char Posix.sep c = false in
  n <> 0%nat ->
  Forall (fun w => has_char Posix.sep w = false) comps ->
  Forall plain acc ->
  Forall plain (fold_left (Posix.normpath_step n) comps acc).
Proof.
  intros plain Hn Hcomps. revert acc.
  induction Hcomps as [|c comps Hc _ IH]; intros acc Hacc; [done|].
  simpl. apply IH. unfold Posix.normpath_step.
  destruct (String.eqb c "") eqn:H0; [done|].
  destruct (String.eqb c ".") eqn:H1; [done|]. simpl.
  destruct (String.eqb c "..") eqn:H2; simpl.
  - assert (Nat.eqb n 0 = false) as -> by (by apply Nat.eqb_neq). simpl.
    assert (match last acc with Some l => String.eqb l ".." | None => false end
            = false) as ->.
    { destruct (last acc) as [l|] eqn:Hl; [|done].
      apply last_Some_elem_of in Hl.
      rewrite Forall_forall in Hacc. by destruct (Hacc l Hl) as (_ & _ & ? & _). }
    by apply removelast_Forall.
  - apply Forall_app. split; [done|]. by repeat constructor.
Qed.

Lemma normpath_fold_id (n : nat) (l acc : list string) :
  Forall (fun c : string =>
            String.eqb c "" = false /\ String.eqb c "." = false /\
            String.eqb c ".." = false /\ has_char Posix.sep c = false) l ->
  fold_left (Posix.normpath_step n) l acc = acc ++ l.
Proof.
  intros Hl. revert acc. induction Hl as [|c l (H0 & H1 & H2 & _) _ IH]; intros acc.
  - by rewrite app_nil_r.
  - simpl. rewrite normpath_step_plain, IH by done. by rewrite <- app_assoc.
Qed.

Lemma join_no_leading_sep (l : list string) :
  Forall (fun c : string =>
            String.eqb c "" = false /\ String.eqb c "." = false /\
            String.eqb c ".." = false /\ has_char Posix.sep c = false) l ->
  Str.startswith "/" (Str.join "/" l) = false.
Proof.
  destruct l as [|w l]; [done|]. intros Hl. inversion Hl as [|? ? (H0 & _ & _ & Hs) _].
  subst. destruct w as [|a w]; [done|].
  simpl in Hs. apply orb_false_iff in Hs as [Ha _].
  destruct l; [|rewrite join_cons2, app_cons]; simpl;
    rewrite Ascii.eqb_sym; unfold Posix.sep in Ha; by rewrite Ha.
Qed.

(** What [normpath] returns for an absolute path: one or two slashes,
    then plain components. *)
Lemma normpath_abs_shape (z : string) :
  Posix.isabs z = true ->
  exists n nc,
    (n = 1%nat \/ n = 2%nat) /\
    Forall (fun c : string =>
              String.eqb c "" = false /\ String.eqb c "." = false /\
              String.eqb c ".." = false /\ has_char Posix.sep c = false) nc /\
    Posix.normpath z = Posix.slashes n +:+ Str.join "/" nc.
Proof.
  unfold Posix.isabs, Posix.normpath. intros Hz.
  destruct z as [|c0 z0] eqn:Ez; [done|]. rewrite <- Ez in *.
  replace (Str.is_empty z) with false by (by rewrite Ez).
  rewrite Hz.
  set (n := if _ && _ then 2%nat else 1%nat).
  set (nc := fold_left (Posix.normpath_step n) (Str.split Posix.sep z) []).
  assert (Hn : n = 1%nat \/ n = 2%nat) by (subst n; destruct (_ && _); auto).
  exists n, nc. split; [done|]. split.
  - apply normpath_fold_plain; [lia|apply split_components_no_sep|done].
  - by destruct Hn as [-> | ->].
Qed.

(** [normpath] leaves alone what it returns for an absolute path. *)
Lemma normpath_idempotent_abs (z : string) :
  Posix.isabs z = true -> Posix.normpath (Posix.normpath z) = Posix.normpath z.
Proof.
  intros Hz. destruct (normpath_abs_shape z Hz) as (n & nc & Hn & Hnc & ->).
  assert (Hne : Str.is_empty (Posix.slashes n +:+ Str.join "/" nc) = false).
  { by destruct Hn as [-> | ->]. }
  unfold Posix.normpath. rewrite Hne.
  pose proof (join_no_leading_sep nc Hnc) as Hj.
  assert (Hn' : (if Str.startswith "/" (Posix.slashes n +:+ Str.join "/" nc)
                 then if Str.startswith "//" (Posix.slashes n +:+ Str.join "/" nc)
                         && negb (Str.startswith "///"
                                    (Posix.slashes n +:+ Str.join "/" nc))
                      then 2%nat else 1%nat
                 else 0%nat) = n).
  { destruct Hn as [-> | ->]; simpl Posix.slashes; rewrite !app_cons, app_empty_l.
    - destruct (Str.join "/" nc) as [|a s]; [done|].
      simpl in Hj |- *. by destruct (Ascii.eqb "/" a).
    - destruct (Str.join "/" nc) as [|a s]; [done|].
      simpl in Hj |- *. by destruct (Ascii.eqb "/" a). }
  rewrite Hn'.
  assert (Hs : forall k acc,
             fold_left (Posix.normpath_step n)
               (Str.split Posix.sep (Posix.slashes k +:+ Str.join "/" nc)) acc
             = acc ++ nc).
  { induction k as [|k IH]; intros acc.
    - rewrite app_empty_l. destruct nc as [|w l] eqn:Enc.
      + simpl. by rewrite app_nil_r.
      + rewrite split_join; [|done|].
        * by apply normpath_fold_id.
        * eapply Forall_impl; [exact Hnc|]. by intros ? (_ & _ & _ & ?).
    - simpl Posix.slashes. rewrite app_cons, split_cons_sep. simpl. apply IH. }
  rewrite (Hs n []). cbn [app]. by rewrite Hne.
Qed.

(** ** More on [real_ppath] and [real_upath] *)

Lemma bare_space_escape (b : bool) (s : string) :
  bare_space_from b (escape s) = false.
Proof.
  revert b. induction s as [|c s IH]; intros b; [done|]. simpl.
  destruct (Ascii.eqb_spec c " ") as [->|Hc].
  - simpl. change (Ascii.eqb "\" " ") with false.
    change (Ascii.eqb " " " ") with true. change (Ascii.eqb "\" "\") with true.
    simpl. apply IH.
  - simpl. rewrite IH. by destruct (Ascii.eqb_spec c " ").
Qed.

Section RealPathLaws.
Context (env : Env).

(** X1. Unescaping what [real_upath] returns gives what [real_ppath]
    returns, for every path: escaping loses nothing. *)
Theorem real_upath_unescapes_to_real_ppath (p : string) :
  Str.replace "\ " " " (real_upath env p) = real_ppath env p.
Proof.
  unfold real_upath. by rewrite replace_escape, replace_unescape, unescape_escape.
Qed.

(** X2. [real_upath] never returns a path with a space that no backslash
    precedes. *)
Theorem real_upath_escapes_every_space (p : string) :
  has_bare_space (real_upath env p) = false.
Proof.
  unfold real_upath, has_bare_space. rewrite replace_escape.
  apply bare_space_escape.
Qed.

Hypothesis cwd_isabs : Posix.isabs (getcwd env) = true.

Lemma abspath_fixed (y : string) :
  Posix.normpath (Posix.abspath env y) = Posix.abspath env y.
Proof.
  unfold Posix.abspath. apply normpath_idempotent_abs.
  destruct (Posix.isabs y) eqn:Hy; [done|by apply join_isabs].
Qed.

Lemma real_ppath_fixed (p : string) :
  Posix.abspath env (Posix.expanduser env (real_ppath env p)) = real_ppath env p.
Proof.
  pose proof (real_ppath_result_isabs env cwd_isabs p) as Habs.
  rewrite expanduser_isabs, abspath_isabs by done.
  unfold real_ppath. by rewrite replace_unescape, normpath_unescape, abspath_fixed.
Qed.

Lemma real_upath_fixed (p : string) :
  Posix.abspath env (Posix.expanduser env (real_upath env p)) = real_upath env p.
Proof.
  pose proof (real_upath_result_isabs env cwd_isabs p) as Habs.
  rewrite expanduser_isabs, abspath_isabs by done.
  unfold real_upath. rewrite replace_escape, normpath_escape.
  f_equal. pose proof (real_ppath_fixed p) as H.
  rewrite expanduser_isabs, abspath_isabs in H
    by apply (real_ppath_result_isabs env cwd_isabs). done.
Qed.

End RealPathLaws.

(** X3. When the working directory is absolute, the paths [real_ppath]
    and [real_upath] return are absolute and canonical ([abspath] and
    [expanduser] leave them as they are), [real_upath] is idempotent, and
    [real_ppath] after [real_upath] is [real_ppath]. *)
Theorem real_paths_canonical (env : Env) (p : string) :
  Posix.isabs (getcwd env) = true ->
  Posix.isabs (real_ppath env p) = true /\
  Posix.isabs (real_upath env p) = true /\
  Posix.abspath env (real_ppath env p) = real_ppath env p /\
  Posix.abspath env (real_upath env p) = real_upath env p /\
  real_upath env (real_upath env p) = real_upath env p /\
  real_ppath env (real_upath env p) = real_ppath env p.
Proof.
  intros Hcwd.
  pose proof (real_ppath_result_isabs env Hcwd p) as Hp.
  pose proof (real_upath_result_isabs env Hcwd p) as Hu.
  pose proof (real_ppath_fixed env Hcwd p) as Hpf.
  pose proof (real_upath_fixed env Hcwd p) as Huf.
  assert (Hpu : real_ppath env (real_upath env p) = real_ppath env p).
  { unfold real_ppath at 1. rewrite Huf.
    unfold real_upath. by rewrite replace_escape, replace_unescape, unescape_escape. }
  repeat split; try done.
  - by rewrite expanduser_isabs in Hpf.
  - by rewrite expanduser_isabs in Huf.
  - unfold real_upath at 1. by rewrite Hpu.
Qed.

(** ** The table of [getFileFormat] *)

Ltac eqb_closed :=
  repeat match goal with
         | |- context [String.eqb (String ?c ?a) ?b] =>
             let v := eval vm_compute in (String.eqb (String c a) b) in
             change (String.eqb (String c a) b) with v
         end.

Ltac ext_split :=
  repeat match goal with
         | |- context [String.eqb ?e ?s] =>
             is_var e; destruct (String.eqb_spec e s) as [->|?];
             eqb_closed; cbv beta iota delta [existsb orb str_in]
         end.

Ltac ext_bool :=
  rewrite <- ?str_in_true, <- ?String.eqb_eq;
  cbv beta iota delta [existsb orb str_in].

(** X4. [getFileFormat] never answers [BAS]: a [.bas.h5] path is
    classified as [BAX], like a [.bax.h5] one. *)
Theorem getFileFormat_never_BAS (p : string) :
  getFileFormat p <> BAS /\
  (ext1 p = ".h5" -> ext2 p = ".bas" \/ ext2 p = ".bax" -> getFileFormat p = BAX).
Proof.
  rewrite getFileFormat_unfold. cbv zeta.
  generalize (ext1 p) (ext2 p). intros e1 e2. split.
  - cbv beta iota delta [existsb orb str_in]. ext_split; discriminate.
  - intros -> [-> | ->]; reflexivity.
Qed.

(** X5. The three format checks by extension: an output path is valid
    exactly for [.sam], [.bam], [.xml] and [.cmp.h5]; a region table
    exactly for [.fofn] and [.rgn.h5]; an input exactly for the FASTA
    extensions, [.bam], [.fofn], [.xml] and the [.pls], [.plx], [.bas],
    [.bax] and [.ccs] kinds of [.h5] ([.sam] is no input). *)
Theorem valid_formats_by_extension (p : string) :
  (isValidOutputFormat (getFileFormat p) = true <->
   ext1 p ∈ [".sam"; ".bam"; ".xml"] \/ (ext1 p = ".h5" /\ ext2 p = ".cmp")) /\
  (isValidRegionTableFormat (getFileFormat p) = true <->
   ext1 p = ".fofn" \/ (ext1 p = ".h5" /\ ext2 p = ".rgn")) /\
  (isValidInputFormat (getFileFormat p) = true <->
   ext1 p ∈ [".fa"; ".fasta"; ".fsta"; ".fna"; ".bam"; ".fofn"; ".xml"] \/
   (ext1 p = ".h5" /\ ext2 p ∈ [".pls"; ".plx"; ".bas"; ".bax"; ".ccs"])).
Proof.
  rewrite getFileFormat_unfold. cbv zeta.
  generalize (ext1 p) (ext2 p). intros e1 e2.
  split; [|split]; ext_bool; ext_split;
    (split; [intros H; vm_compute in H; try discriminate H; tauto
            |intros H; vm_compute; intuition discriminate]).
Qed.

(** ** Recognised formats survive [real_ppath] and [real_upath] *)

Lemma getFileFormat_ext_eq (p q : string) :
  ext1 q = ext1 p -> (ext1 p = ".h5" -> ext2 q = ext2 p) ->
  getFileFormat q = getFileFormat p.
Proof.
  intros H1 H2. rewrite !getFileFormat_unfold. cbv zeta. rewrite H1.
  destruct (String.eqb_spec (ext1 p) ".h5") as [Heq|Hne].
  - by rewrite (H2 Heq).
  - assert (str_in (ext1 p) [".h5"] = false) as ->; [|done].
    simpl. rewrite orb_false_r. by apply String.eqb_neq.
Qed.

Lemma getFileFormat_known_ext (p : string) :
  getFileFormat p <> UNKNOWN ->
  str_in (ext1 p) (".h5" :: plain_extensions) = true /\
  (ext1 p = ".h5" -> str_in (ext2 p) h5_extensions = true).
Proof.
  rewrite getFileFormat_unfold. cbv zeta.
  generalize (ext1 p) (ext2 p). intros e1 e2.
  unfold plain_extensions, h5_extensions.
  cbv beta iota delta [existsb orb str_in]. intros H. split.
  - revert H. ext_split; try done.
  - intros ->. revert H. eqb_closed. cbv beta iota. ext_split; done.
Qed.

(** The extensions of a path of the shape [d m.e] and [d m.a.e]. *)
Lemma splitext_has_ext (q e : string) :
  has_char "." e = false -> has_char Posix.sep e = false ->
  has_ext q e -> snd (Posix.splitext q) = String "." e.
Proof.
  intros He Hs (d & m & -> & Hd & Hm & Hdots).
  by rewrite splitext_intro.
Qed.

Lemma splitext_has_ext2 (q a e : string) :
  has_char "." e = false -> has_char Posix.sep e = false ->
  has_char "." a = false -> has_char Posix.sep a = false ->
  has_ext q (a +:+ String "." e) ->
  snd (Posix.splitext q) = String "." e /\
  snd (Posix.splitext (fst (Posix.splitext q))) = String "." a.
Proof.
  intros He Hs Ha Has (d & m & -> & Hd & Hm & Hdots).
  assert (Heq : d +:+ m +:+ String "." (a +:+ String "." e)
                = d +:+ (m +:+ String "." a) +:+ String "." e).
  { by rewrite <- app_cons, <- !app_assoc_s. }
  rewrite Heq, splitext_intro; try done.
  - cbn [fst snd]. split; [done|]. by rewrite splitext_intro.
  - rewrite has_char_app, Hm. simpl. by rewrite Has.
  - by rewrite all_char_app, Hdots.
Qed.

(** C3. [getFileFormat] is a function of the path string alone (it takes
    no file system, so it reads no file, and it is total), and of its
    extension only: the value is fixed by the lower-cased last extension
    and, when that is [.h5], by the lower-cased extension before it, as
    the table says: the FASTA extensions, [.sam], [.bam], [.sa], [.fofn]
    and [.xml] give their formats; under [.h5] the extension before it
    picks the kind of container; an extension that is not in the table,
    or an [.h5] whose inner extension is not, is [UNKNOWN]. The two
    extensions are those of the text of the path, letter case aside: for
    a path written [d m.e] it is [.e] that is compared, and for
    [d m.a.e] it is [.e] and then [.a]. *)
Theorem getFileFormat_extension_only (p : string) :
  (forall q : string,
      ext1 q = ext1 p -> (ext1 p = ".h5" -> ext2 q = ext2 p) ->
      getFileFormat q = getFileFormat p) /\
  (ext1 p ∈ [".fa"; ".fasta"; ".fsta"; ".fna"] -> getFileFormat p = FASTA) /\
  (ext1 p = ".sam" -> getFileFormat p = SAM) /\
  (ext1 p = ".bam" -> getFileFormat p = BAM) /\
  (ext1 p = ".sa" -> getFileFormat p = SA) /\
  (ext1 p = ".fofn" -> getFileFormat p = FOFN) /\
  (ext1 p = ".xml" -> getFileFormat p = XML) /\
  (ext1 p = ".h5" ->
   (ext2 p = ".pls" -> getFileFormat p = PLS) /\
   (ext2 p = ".plx" -> getFileFormat p = PLX) /\
   (ext2 p = ".bas" -> getFileFormat p = BAX) /\
   (ext2 p = ".bax" -> getFileFormat p = BAX) /\
   (ext2 p = ".cmp" -> getFileFormat p = CMP) /\
   (ext2 p = ".rgn" -> getFileFormat p = RGN) /\
   (ext2 p = ".ccs" -> getFileFormat p = CCS)) /\
  (str_in (ext1 p) (".h5" :: plain_extensions) = false ->
   getFileFormat p = UNKNOWN) /\
  (ext1 p = ".h5" -> str_in (ext2 p) h5_extensions = false ->
   getFileFormat p = UNKNOWN) /\
  (forall e : string,
      has_ext p e -> has_char "." e = false -> has_char Posix.sep e = false ->
      ext1 p = String "." (Str.lower e)) /\
  (forall a e : string,
      has_ext p (a +:+ String "." e) ->
      has_char "." e = false -> has_char Posix.sep e = false ->
      has_char "." a = false -> has_char Posix.sep a = false ->
      ext1 p = String "." (Str.lower e) /\ ext2 p = String "." (Str.lower a)).
Proof.
  split; [by apply getFileFormat_ext_eq|].
  assert (Htable :
    (ext1 p ∈ [".fa"; ".fasta"; ".fsta"; ".fna"] -> getFileFormat p = FASTA) /\
    (ext1 p = ".sam" -> getFileFormat p = SAM) /\
    (ext1 p = ".bam" -> getFileFormat p = BAM) /\
    (ext1 p = ".sa" -> getFileFormat p = SA) /\
    (ext1 p = ".fofn" -> getFileFormat p = FOFN) /\
    (ext1 p = ".xml" -> getFileFormat p = XML) /\
    (ext1 p = ".h5" ->
     (ext2 p = ".pls" -> getFileFormat p = PLS) /\
     (ext2 p = ".plx" -> getFileFormat p = PLX) /\
     (ext2 p = ".bas" -> getFileFormat p = BAX) /\
     (ext2 p = ".bax" -> getFileFormat p = BAX) /\
     (ext2 p = ".cmp" -> getFileFormat p = CMP) /\
     (ext2 p = ".rgn" -> getFileFormat p = RGN) /\
     (ext2 p = ".ccs" -> getFileFormat p = CCS)) /\
    (str_in (ext1 p) (".h5" :: plain_extensions) = false ->
     getFileFormat p = UNKNOWN) /\
    (ext1 p = ".h5" -> str_in (ext2 p) h5_extensions = false ->
     getFileFormat p = UNKNOWN)).
  { rewrite getFileFormat_unfold. cbv zeta.
    generalize (ext1 p) (ext2 p). intros e1 e2.
    split.
    { intros He. repeat (apply elem_of_cons in He as [->|He]); try reflexivity.
      by apply elem_of_nil in He. }
    do 5 (split; [by intros ->|]).
    split; [intros ->; repeat split; by intros ->|].
    split.
    - intros H. unfold plain_extensions in H. rewrite !str_in_cons in H.
      rewrite !str_in_cons.
      repeat (apply orb_false_iff in H as [? H]).
      repeat match goal with
             | Hx : String.eqb _ _ = false |- _ => rewrite Hx; clear Hx
             end.
      reflexivity.
    - intros -> H. unfold h5_extensions in H. rewrite !str_in_cons in H.
      repeat (apply orb_false_iff in H as [? H]).
      cbn [str_in existsb]. eqb_closed. cbv beta iota delta [orb].
      repeat match goal with
             | Hx : String.eqb _ _ = false |- _ => rewrite Hx; clear Hx
             end.
      reflexivity. }
  destruct Htable as (H1 & H2 & H3 & H4 & H5 & H6 & H7 & H8 & H9).
  do 9 (split; [assumption|]). split.
  - intros e He Hdot Hsep. unfold ext1.
    by rewrite (splitext_has_ext p e Hdot Hsep He).
  - intros a e He Hdot Hsep Hdota Hsepa. unfold ext1, ext2.
    destruct (splitext_has_ext2 p a e Hdot Hsep Hdota Hsepa He) as [-> ->].
    done.
Qed.

Lemma getFileFormat_extension_only_witness :
  getFileFormat "/data/Reads.BAS.H5" = getFileFormat "m1.bas.h5" /\
  getFileFormat "/data/Reads.BAS.H5" = BAX /\
  getFileFormat "out.Cmp.h5" = CMP /\
  getFileFormat "ref.FA" = FASTA /\
  getFileFormat "notes.txt" = UNKNOWN /\
  getFileFormat "movie.h5" = UNKNOWN /\
  (ext1 "/data/Reads.BAS.H5" = String "." (Str.lower "H5") /\
   ext2 "/data/Reads.BAS.H5" = String "." (Str.lower "BAS")).
Proof.
  split; [|split; [|split; [|split; [|split; [|split]]]]].
  - apply (proj1 (getFileFormat_extension_only "m1.bas.h5"));
      vm_compute; reflexivity.
  - destruct (getFileFormat_extension_only "/data/Reads.BAS.H5")
      as (_ & _ & _ & _ & _ & _ & _ & H & _).
    destruct H as (_ & _ & H & _); [vm_compute; reflexivity|].
    apply H. vm_compute. reflexivity.
  - destruct (getFileFormat_extension_only "out.Cmp.h5")
      as (_ & _ & _ & _ & _ & _ & _ & H & _).
    destruct H as (_ & _ & _ & _ & H & _); [vm_compute; reflexivity|].
    apply H. vm_compute. reflexivity.
  - destruct (getFileFormat_extension_only "ref.FA") as (_ & H & _).
    apply H. apply (bool_decide_eq_true_1 _). vm_compute. reflexivity.
  - destruct (getFileFormat_extension_only "notes.txt")
      as (_ & _ & _ & _ & _ & _ & _ & _ & H & _).
    apply H. vm_compute. reflexivity.
  - destruct (getFileFormat_extension_only "movie.h5")
      as (_ & _ & _ & _ & _ & _ & _ & _ & _ & H & _).
    apply H; vm_compute; reflexivity.
  - destruct (getFileFormat_extension_only "/data/Reads.BAS.H5")
      as (_ & _ & _ & _ & _ & _ & _ & _ & _ & _ & _ & H).
    apply (H "BAS" "H5"); try (vm_compute; reflexivity).
    exists "/data/", "Reads". repeat split; try (vm_compute; reflexivity).
    right. vm_compute. reflexivity.
Defined.

Lemma has_char_space_in (s : string) (l : list string) :
  str_in (Str.lower s) l = true ->
  forallb (fun x => negb (has_char " " x)) l = true ->
  has_char " " s = false.
Proof.
  intros Hin Hl. rewrite <- has_char_space_lower.
  apply str_in_true in Hin. rewrite forallb_forall in Hl.
  apply list_elem_of_In, Hl, negb_true_iff in Hin. done.
Qed.

(** A path of a recognised format has the shape of one extension, or of
    two for the [.h5] kinds, that alone fixes the format. *)
Lemma getFileFormat_shape (p : string) :
  getFileFormat p <> UNKNOWN ->
  exists e, has_ext p e /\ has_char Posix.sep e = false /\
            has_char " " e = false /\
            forall q, has_ext q e -> getFileFormat q = getFileFormat p.
Proof.
  intros Hk. destruct (getFileFormat_known_ext p Hk) as [H1 H2].
  unfold ext1 in H1.
  destruct (splitext_elim p (snd (Posix.splitext p)) eq_refl)
    as (e & Hext & Hshape & Hdot & Hsep).
  { intros Hnil. by rewrite Hnil in H1. }
  assert (Hsp : has_char " " (String "." e) = false).
  { rewrite Hext in H1. by apply (has_char_space_in _ _ H1). }
  destruct (String.eqb_spec (ext1 p) ".h5") as [Hh5|Hh5].
  - specialize (H2 Hh5). unfold ext2 in H2.
    destruct Hshape as (d & m & Hp & Hd & Hm & Hdots).
    assert (Hbase : fst (Posix.splitext p) = d +:+ m).
    { by rewrite Hp, splitext_intro. }
    rewrite Hbase in H2.
    destruct (splitext_elim (d +:+ m) (snd (Posix.splitext (d +:+ m))) eq_refl)
      as (a & Hexta & (d2 & m2 & Hp2 & Hd2 & Hm2 & Hdots2) & Hdota & Hsepa).
    { intros Hnil. by rewrite Hnil in H2. }
    assert (Hspa : has_char " " (String "." a) = false).
    { rewrite Hexta in H2. by apply (has_char_space_in _ _ H2). }
    exists (a +:+ String "." e). split; [|split; [|split]].
    + exists d2, m2. split; [|done].
      rewrite Hp, <- app_assoc_s, Hp2. by rewrite !app_assoc_s.
    + rewrite has_char_app, Hsepa. simpl. by rewrite Hsep.
    + rewrite has_char_app. simpl in Hspa. by rewrite Hspa, Hsp.
    + intros q Hq.
      destruct (splitext_has_ext2 q a e Hdot Hsep Hdota Hsepa Hq) as [Hq1 Hq2].
      apply getFileFormat_ext_eq.
      * unfold ext1. by rewrite Hq1, Hext.
      * intros _. unfold ext2. by rewrite Hq2, Hbase, Hexta.
  - exists e. split; [done|]. split; [done|]. split; [done|].
    intros q Hq. apply getFileFormat_ext_eq; [|done].
    unfold ext1. by rewrite (splitext_has_ext q e Hdot Hsep Hq), Hext.
Qed.

Section FormatPreserved.
Context (env : Env).

Lemma has_ext_real_ppath (f e : string) :
  Str.startswith "~" f = false ->
  has_char Posix.sep e = false -> has_char " " e = false ->
  has_ext f e -> has_ext (real_ppath env f) e.
Proof.
  intros Hf Hs He Hext. unfold real_ppath.
  rewrite replace_unescape, (expanduser_no_tilde env f Hf).
  apply has_ext_unescape, has_ext_normpath; try done.
  unfold Posix.abspath. destruct (Posix.isabs f); [done|by apply has_ext_join].
Qed.

(** X6. A path of a recognised format that does not start with a tilde
    keeps its format through [real_ppath] and through [real_upath]. *)
Theorem getFileFormat_real_path (f : string) :
  Str.startswith "~" f = false ->
  getFileFormat f <> UNKNOWN ->
  getFileFormat (real_ppath env f) = getFileFormat f /\
  getFileFormat (real_upath env f) = getFileFormat f.
Proof.
  intros Hf Hk.
  destruct (getFileFormat_shape f Hk) as (e & Hext & Hs & Hsp & Hq).
  split; apply Hq.
  - by apply has_ext_real_ppath.
  - by apply has_ext_real_upath.
Qed.

End FormatPreserved.

Lemma getFileFormat_real_path_witness :
  getFileFormat (real_ppath env0 "my\ reads/../m1.Bas.H5")
  = getFileFormat "my\ reads/../m1.Bas.H5" /\
  getFileFormat (real_upath env0 "my\ reads/../m1.Bas.H5")
  = getFileFormat "my\ reads/../m1.Bas.H5".
Proof.
  apply (getFileFormat_real_path env0 "my\ reads/../m1.Bas.H5");
    [reflexivity|vm_compute; discriminate].
Defined.

(** ** More on manifests and [checkInputFile] *)

Lemma region_format_extension (p : string) :
  getFileFormat p ∈ VALID_REGIONTABLE_FORMATS ->
  ext1 p = ".fofn" \/ (ext1 p = ".h5" /\ ext2 p = ".rgn").
Proof.
  intros Hin%(bool_decide_eq_true_2 _). revert Hin.
  rewrite getFileFormat_unfold. cbv zeta.
  generalize (ext1 p) (ext2 p). intros e1 e2. ext_bool. ext_split;
    intros H; vm_compute in H; try discriminate H; tauto.
Qed.

Section ManifestChecks.
Context (env : Env).

Lemma check_entries_ok (fs : FS) (l r : list string) :
  check_entries env fs l = Ok r <->
  r = l /\ Forall (fun x => isExist env fs x = true) l.
Proof.
  revert r. induction l as [|f l IH]; intros r; simpl.
  - split; [intros [= <-]; by split|by intros [-> _]].
  - destruct (isExist env fs f) eqn:Hf; simpl.
    + destruct (check_entries env fs l) as [r'|e]; simpl.
      * destruct (proj1 (IH r') eq_refl) as [-> Hall].
        split; [intros [= <-]; split; [done|by constructor]|by intros [-> _]].
      * split; [discriminate|]. intros [-> Hall].
        apply Forall_cons in Hall as [_ Hall].
        discriminate (proj2 (IH l) (conj eq_refl Hall)).
    + split; [discriminate|]. intros [_ Hall].
      apply Forall_cons in Hall as [Hall _]. congruence.
Qed.

Lemma checkInputFile_success (fs : FS) (f : string)
    (validFormats : list FileFormat) (r : string) :
  checkInputFile env fs f validFormats = Ok r <->
  r = real_upath env (real_ppath env f) /\
  getFileFormat (real_ppath env f) ∈ validFormats /\
  isExist env fs (real_ppath env f) = true /\
  (getFileFormat (real_ppath env f) = FOFN ->
   exists l, getFilesFromFOFN env fs (real_ppath env f) = Ok l /\ l <> [] /\
             Forall (fun x => isExist env fs x = true) l).
Proof.
  unfold checkInputFile.
  destruct (decide (getFileFormat (real_ppath env f) ∈ validFormats)) as [Hin|Hin].
  2:{ rewrite (bool_decide_eq_false_2 _ Hin). simpl. split; [discriminate|tauto]. }
  rewrite (bool_decide_eq_true_2 _ Hin). simpl.
  destruct (isExist env fs (real_ppath env f)) eqn:Hex; simpl.
  2:{ split; [discriminate|]. by intros (_ & _ & ? & _). }
  case_bool_decide as Hfofn; simpl.
  2:{ split; [intros [= <-]; tauto|by intros (-> & _)]. }
  destruct (getFilesFromFOFN env fs (real_ppath env f)) as [l|e]; simpl.
  2:{ split; [discriminate|]. intros (_ & _ & _ & H).
      by destruct (H Hfofn) as (? & ? & _). }
  destruct l as [|x l]; simpl.
  { split; [discriminate|]. intros (_ & _ & _ & H).
    destruct (H Hfofn) as (? & [= <-] & ? & _). done. }
  change (if negb (isExist env fs x) then _ else _)
    with (check_entries env fs (x :: l)).
  destruct (check_entries env fs (x :: l)) as [r'|e] eqn:Hc; simpl.
  - apply check_entries_ok in Hc as [-> Hall].
    split; [intros [= <-]|by intros (-> & _)].
    repeat split; try done. intros _. by exists (x :: l).
  - split; [discriminate|]. intros (_ & _ & _ & H).
    destruct (H Hfofn) as (l' & [= <-] & _ & Hall).
    by rewrite (proj2 (check_entries_ok fs (x :: l) (x :: l)) (conj eq_refl Hall)) in Hc.
Qed.

(** X7. [checkInputFile] succeeds exactly when the format of the resolved
    path is among the valid ones, the path exists and, for a manifest,
    the manifest can be read, has a line, and every entry exists under the
    escaped name [getFilesFromFOFN] gives it; the result is then the
    escaped resolved path. *)
Theorem checkInputFile_ok_iff (fs : FS) (f : string)
    (validFormats : list FileFormat) (r : string) :
  checkInputFile env fs f validFormats = Ok r <->
  r = real_upath env (real_ppath env f) /\
  getFileFormat (real_ppath env f) ∈ validFormats /\
  isExist env fs (real_ppath env f) = true /\
  (getFileFormat (real_ppath env f) = FOFN ->
   exists l, getFilesFromFOFN env fs (real_ppath env f) = Ok l /\ l <> [] /\
             Forall (fun x => isExist env fs x = true) l).
Proof. apply checkInputFile_success. Qed.

Lemma getFilesFromFOFN_raises (fs : FS) (f : string) (e : exn) :
  getFilesFromFOFN env fs f = Raise e -> exists m, e = IOError m.
Proof.
  unfold getFilesFromFOFN, OS.read_file.
  destruct (OS.stat _ _ _) as [[]|]; cbn [rbind]; intros [= <-]; eauto.
Qed.

(** The loop over the entries of a manifest stops at the first entry
    that does not exist, and names it. *)
Lemma check_entries_first_missing (fs : FS) (l1 l2 : list string) (x : string) :
  Forall (fun y => isExist env fs y = true) l1 ->
  isExist env fs x = false ->
  check_entries env fs (l1 ++ x :: l2)
  = Raise (IOError ("A file in the fofn " +:+ x +:+ " does not exist.")).
Proof.
  intros Hall Hx. induction Hall as [|y l1 Hy Hall IH]; simpl.
  - by rewrite Hx.
  - by rewrite Hy, IH.
Qed.

(** X8. What [getFilesFromFOFN] and [getFileFormatsFromFOFN] return
    depends on the lines of the manifest as a multiset only: two
    manifests whose lines are a permutation of each other give the same
    lists. *)
Theorem getFilesFromFOFN_permutation (fs fs' : FS) (f f' c c' : string) :
  OS.read_file env fs (real_ppath env f) = Ok c ->
  OS.read_file env fs' (real_ppath env f') = Ok c' ->
  Str.readlines c ≡ₚ Str.readlines c' ->
  getFilesFromFOFN env fs f = getFilesFromFOFN env fs' f' /\
  getFileFormatsFromFOFN env fs f = getFileFormatsFromFOFN env fs' f'.
Proof.
  intros Hc Hc' Hperm.
  assert (Heq : getFilesFromFOFN env fs f = getFilesFromFOFN env fs' f').
  { unfold getFilesFromFOFN. rewrite Hc, Hc'. simpl. do 2 f_equal.
    apply (Sorted_unique String.le); try apply (Sorted_merge_sort String.le).
    by rewrite !merge_sort_Permutation. }
  split; [done|]. unfold getFileFormatsFromFOFN. by rewrite Heq.
Qed.

(** X9. For a manifest, [getRealFileFormat] is the format of the entry
    that comes from the least line of the file in byte order, which need
    not be its first line; for a manifest without a line it raises the
    assertion error; for any other path it is [getFileFormat] of the path
    as given, in every file system. *)
Theorem getRealFileFormat_least_line (fs : FS) (f : string) :
  (getFileFormat f <> FOFN -> getRealFileFormat env fs f = Ok (getFileFormat f)) /\
  (getFileFormat f = FOFN ->
   forall c, OS.read_file env fs (real_ppath env f) = Ok c ->
     (c = "" -> getRealFileFormat env fs f = Raise (Exception_ "AssertionError")) /\
     (c <> "" ->
      exists l0, l0 ∈ Str.readlines c /\
                 (forall l, l ∈ Str.readlines c -> String.le l0 l) /\
                 getRealFileFormat env fs f
                 = Ok (getFileFormat (real_upath env (Str.strip l0))))).
Proof.
  unfold getRealFileFormat. split.
  - intros Hne. by rewrite (bool_decide_eq_false_2 _ Hne).
  - intros Hfofn c Hc. rewrite (bool_decide_eq_true_2 _ Hfofn).
    unfold getFilesFromFOFN. rewrite Hc. simpl. split.
    + by intros ->.
    + intros Hne.
      pose proof (merge_sort_Permutation String.le (Str.readlines c)) as Hperm.
      pose proof (StronglySorted_merge_sort String.le (Str.readlines c)) as Hs.
      destruct (merge_sort String.le (Str.readlines c)) as [|l0 ls] eqn:Hm.
      { apply Permutation_nil_l in Hperm. symmetry in Hperm.
        by apply readlines_nil in Hperm. }
      exists l0. split; [rewrite <- Hperm; set_solver|]. split; [|done].
      intros l Hl. rewrite <- Hperm in Hl. apply StronglySorted_inv in Hs as [_ Hs].
      apply elem_of_cons in Hl as [->|Hl]; [done|].
      by apply (proj1 (Forall_forall _ _) Hs).
Qed.

(** X10. [checkRegionTableFile] passes [None] through in every file
    system, and accepts a path only when its resolved form ends in
    [.fofn] or in [.rgn.h5] and exists. *)
Theorem checkRegionTableFile_accepts (fs : FS) (filename r : option string) :
  checkRegionTableFile env fs filename = Ok r ->
  match filename with
  | None => r = None
  | Some f =>
      r = Some (real_upath env (real_ppath env f)) /\
      isExist env fs (real_ppath env f) = true /\
      (ext1 (real_ppath env f) = ".fofn" \/
       (ext1 (real_ppath env f) = ".h5" /\ ext2 (real_ppath env f) = ".rgn"))
  end.
Proof.
  destruct filename as [f|]; simpl; [|by intros [= <-]].
  destruct (checkInputFile env fs f VALID_REGIONTABLE_FORMATS) as [p|e] eqn:Hc;
    simpl; [|discriminate].
  intros [= <-]. apply checkInputFile_success in Hc as (-> & Hin & Hex & _).
  split; [done|]. split; [done|]. by apply region_format_extension.
Qed.

End ManifestChecks.

Section ManifestErrors.
Context (env : Env).

Lemma check_entries_raise_inv (fs : FS) (l : list string) (e : exn) :
  check_entries env fs l = Raise e ->
  exists l1 x l2, l = l1 ++ x :: l2 /\
    Forall (fun y => isExist env fs y = true) l1 /\
    isExist env fs x = false /\
    e = IOError ("A file in the fofn " +:+ x +:+ " does not exist.").
Proof.
  induction l as [|f l IH]; [discriminate|]. cbn [check_entries].
  destruct (isExist env fs f) eqn:Hf; cbn [negb].
  - destruct (check_entries env fs l) as [r|e']; cbn [rbind]; [discriminate|].
    intros [= <-]. destruct (IH eq_refl) as (l1 & x & l2 & -> & Hall & Hx & He).
    exists (f :: l1), x, l2. split; [done|]. split; [by constructor|done].
  - intros [= <-]. exists [], f, l. split; [done|]. split; [constructor|done].
Qed.

(** X11. The errors of [checkInputFile], in the order of the checks. A
    format that is not among the valid ones gives an [IOError] that lists
    them, in every file system; then a path that does not exist gives an
    [IOError]; then, for a manifest, a file that cannot be read gives the
    [IOError] of [open], a manifest without a line gives the one
    [ValueError], and a missing entry gives an [IOError] that names the
    first missing one in the sorted order. There is no other error. *)
Theorem checkInputFile_error_table (fs : FS) (f : string)
    (validFormats : list FileFormat) (e : exn) :
  checkInputFile env fs f validFormats = Raise e ->
  ((getFileFormat (real_ppath env f) ∉ validFormats) /\
   e = IOError ("The input file format can only be "
                +:+ Str.join "," (format_name <$> validFormats) +:+ ".")) \/
  (getFileFormat (real_ppath env f) ∈ validFormats /\
   ((isExist env fs (real_ppath env f) = false /\
     e = IOError ("Input file " +:+ real_ppath env f +:+ " does not exist.")) \/
    (isExist env fs (real_ppath env f) = true /\
     getFileFormat (real_ppath env f) = FOFN /\
     ((exists m, getFilesFromFOFN env fs (real_ppath env f) = Raise (IOError m) /\
                 e = IOError m) \/
      (getFilesFromFOFN env fs (real_ppath env f) = Ok [] /\
       e = ValueError ("FOFN file " +:+ real_ppath env f +:+ " is empty.")) \/
      (exists l1 x l2,
          getFilesFromFOFN env fs (real_ppath env f) = Ok (l1 ++ x :: l2) /\
          Forall (fun y => isExist env fs y = true) l1 /\
          isExist env fs x = false /\
          e = IOError ("A file in the fofn " +:+ x +:+ " does not exist.")))))).
Proof.
  unfold checkInputFile.
  destruct (decide (getFileFormat (real_ppath env f) ∈ validFormats)) as [Hin|Hin].
  2:{ rewrite (bool_decide_eq_false_2 _ Hin). cbn [negb]. intros [= <-]. by left. }
  rewrite (bool_decide_eq_true_2 _ Hin). cbn [negb]. intros H. right.
  split; [done|]. revert H.
  destruct (isExist env fs (real_ppath env f)) eqn:Hex; cbn [negb].
  2:{ intros [= <-]. by left. }
  case_bool_decide as Hfofn; [|discriminate].
  intros H. right. split; [done|]. split; [done|]. revert H.
  destruct (getFilesFromFOFN env fs (real_ppath env f)) as [l|e'] eqn:Hget;
    cbn [rbind].
  - destruct l as [|x l]; cbn [length Nat.eqb].
    { intros [= <-]. right. by left. }
    destruct (check_entries env fs (x :: l)) as [r'|e'] eqn:Hc; cbn [rbind];
      [discriminate|].
    intros [= <-]. right. right.
    destruct (check_entries_raise_inv _ _ _ Hc) as (l1 & y & l2 & Hl & Hall & Hy & He).
    exists l1, y, l2. by rewrite Hl.
  - intros [= <-]. left.
    destruct (getFilesFromFOFN_raises env fs _ _ Hget) as [m ->]. by exists m.
Qed.

End ManifestErrors.

Lemma checkInputFile_error_table_witness :
  exists e,
    checkInputFile env0 fs0 "missing.fasta" VALID_INPUT_FORMATS = Raise e /\
    exists m, e = IOError m.
Proof.
  exists (IOError "Input file /home/u/work/missing.fasta does not exist.").
  assert (H : checkInputFile env0 fs0 "missing.fasta" VALID_INPUT_FORMATS
              = Raise (IOError "Input file /home/u/work/missing.fasta does not exist."))
    by (vm_compute; reflexivity).
  split; [exact H|].
  destruct (checkInputFile_error_table env0 fs0 "missing.fasta"
              VALID_INPUT_FORMATS _ H) as [[_ He]|_]; eauto.
Defined.

Lemma checkInputFile_ok_iff_witness :
  "/home/u/work/in.fofn" = real_upath env0 (real_ppath env0 "in.fofn") /\
  getFileFormat (real_ppath env0 "in.fofn") ∈ VALID_INPUT_FORMATS /\
  isExist env0 fs0 (real_ppath env0 "in.fofn") = true /\
  (getFileFormat (real_ppath env0 "in.fofn") = FOFN ->
   exists l, getFilesFromFOFN env0 fs0 (real_ppath env0 "in.fofn") = Ok l /\
             l <> [] /\ Forall (fun x => isExist env0 fs0 x = true) l).
Proof.
  apply (proj1 (checkInputFile_ok_iff env0 fs0 "in.fofn" VALID_INPUT_FORMATS
                  "/home/u/work/in.fofn")).
  vm_compute. reflexivity.
Defined.

Lemma getFilesFromFOFN_permutation_witness :
  getFilesFromFOFN env0 fs0 "in.fofn"
  = getFilesFromFOFN env0
      (<["/home/u/work/in2.fofn" := File true "a.fasta
b.fasta
"]> fs0) "in2.fofn" /\
  getFileFormatsFromFOFN env0 fs0 "in.fofn"
  = getFileFormatsFromFOFN env0
      (<["/home/u/work/in2.fofn" := File true "a.fasta
b.fasta
"]> fs0) "in2.fofn".
Proof.
  apply (getFilesFromFOFN_permutation env0 fs0 _ "in.fofn" "in2.fofn" "b.fasta
a.fasta
" "a.fasta
b.fasta
").
  - vm_compute. reflexivity.
  - vm_compute. reflexivity.
  - vm_compute. apply perm_swap.
Defined.

Lemma getRealFileFormat_least_line_witness :
  exists l0, l0 ∈ Str.readlines "b.fasta
a.fasta
" /\
    (forall l, l ∈ Str.readlines "b.fasta
a.fasta
" -> String.le l0 l) /\
    getRealFileFormat env0 fs0 "in.fofn"
    = Ok (getFileFormat (real_upath env0 (Str.strip l0))).
Proof.
  refine (proj2 (proj2 (getRealFileFormat_least_line env0 fs0 "in.fofn") _ "b.fasta
a.fasta
" _) _).
  - vm_compute. reflexivity.
  - vm_compute. reflexivity.
  - discriminate.
Defined.

Lemma checkRegionTableFile_accepts_witness :
  Some "/home/u/work/in.fofn" = Some (real_upath env0 (real_ppath env0 "in.fofn")) /\
  isExist env0 fs0 (real_ppath env0 "in.fofn") = true /\
  (ext1 (real_ppath env0 "in.fofn") = ".fofn" \/
   (ext1 (real_ppath env0 "in.fofn") = ".h5" /\
    ext2 (real_ppath env0 "in.fofn") = ".rgn")).
Proof.
  apply (checkRegionTableFile_accepts env0 fs0 (Some "in.fofn")
           (Some "/home/u/work/in.fofn")).
  vm_compute. reflexivity.
Defined.

(** ** More on [checkOutputFile] *)

Lemma follow_insert_end (n : nat) (fs : FS) (k0 k : string) (nd : node) :
  OS.follow n fs k0 = Some k -> fs !! k = None ->
  (forall t, nd <> Symlink t) ->
  OS.follow n (<[k := nd]> fs) k0 = Some k.
Proof.
  intros Hf Hk Hnd. revert k0 Hf.
  induction n as [|n IH]; intros k0; [discriminate|]. simpl.
  destruct (decide (k0 = k)) as [->|Hne].
  - rewrite Hk, lookup_insert_eq. intros _. destruct nd; try done.
    by destruct (Hnd target).
  - rewrite lookup_insert_ne by done.
    destruct (fs !! k0) as [[| |t]|]; try done. apply IH.
Qed.

Section CheckOutputFileMore.
Context (env : Env).

Lemma open_append_ok (fs fs' : FS) (p : string) :
  OS.open_append env fs p = Ok fs' ->
  exists k, OS.realkey env fs p = Some k /\
    ((exists c, fs !! k = Some (File true c) /\ fs' = fs) \/
     (fs !! k = None /\ fs' = <[k := File true ""]> fs)).
Proof.
  unfold OS.open_append, OS.open_write.
  destruct (OS.realkey env fs p) as [k|]; [|discriminate].
  destruct (fs !! k) as [[[] c|w|t]|] eqn:Hk; try discriminate.
  - intros [= <-]. exists k. split; [done|]. left. eauto.
  - destruct (OS.stat env fs (Posix.dirname k)) as [[|[]|]|]; try discriminate.
    intros [= <-]. exists k. split; [done|]. by right.
Qed.

Lemma open_append_raises (fs : FS) (p : string) (e : exn) :
  OS.open_append env fs p = Raise e -> exists m, e = IOError m.
Proof.
  unfold OS.open_append, OS.open_write.
  destruct (OS.realkey env fs p) as [k|]; [|intros [= <-]; eauto].
  destruct (fs !! k) as [[[] c|w|t]|]; try (intros [= <-]; eauto); try discriminate.
  destruct (OS.stat env fs (Posix.dirname k)) as [[|[]|]|];
    try (intros [= <-]; eauto); discriminate.
Qed.

Lemma open_append_again (fs fs' : FS) (p : string) :
  OS.open_append env fs p = Ok fs' -> OS.open_append env fs' p = Ok fs'.
Proof.
  intros H. destruct (open_append_ok fs fs' p H) as (k & Hkey & [(c & Hk & ->)|[Hk ->]]).
  - done.
  - unfold OS.open_append, OS.open_write.
    assert (OS.realkey env (<[k := File true ""]> fs) p = Some k) as ->.
    { unfold OS.realkey in *. destruct (Str.is_empty p); [done|].
      by apply follow_insert_end. }
    by rewrite lookup_insert_eq.
Qed.

(** X12. A successful [checkOutputFile] returns the escaped resolved
    path; it leaves the file system as it found it when the path resolves
    to a writable file, and otherwise adds one empty file; every entry
    that was there is still there, with its content; and a second call
    on the file system it leaves succeeds with the same answer and
    changes nothing. *)
Theorem checkOutputFile_ok (fs fs' : FS) (f r : string) :
  checkOutputFile env fs f = Ok (r, fs') ->
  r = real_upath env (real_ppath env f) /\
  isValidOutputFormat (getFileFormat (real_ppath env f)) = true /\
  (exists k, OS.realkey env fs (real_ppath env f) = Some k /\
     ((exists c, fs !! k = Some (File true c) /\ fs' = fs) \/
      (fs !! k = None /\ fs' = <[k := File true ""]> fs))) /\
  (forall k nd, fs !! k = Some nd -> fs' !! k = Some nd) /\
  checkOutputFile env fs' f = Ok (r, fs').
Proof.
  unfold checkOutputFile.
  destruct (isValidOutputFormat _) eqn:Hv; [|discriminate]. cbn [negb].
  destruct (OS.open_append env fs (real_ppath env f)) as [fs1|e] eqn:Ho.
  2:{ destruct e; discriminate. }
  intros [= <- <-].
  split; [done|]. split; [done|].
  pose proof (open_append_ok _ _ _ Ho) as (k & Hkey & Hcases).
  split; [by exists k|]. split.
  - intros k' nd Hk'. destruct Hcases as [(c & Hk & ->)|[Hk ->]]; [done|].
    rewrite lookup_insert_ne; [done|]. intros <-. congruence.
  - by rewrite (open_append_again _ _ _ Ho).
Qed.

(** X13. [checkOutputFile] raises the [ValueError] exactly for a path
    whose format is no output format, whatever the file system; every
    other error is an [IOError] whose message names the resolved path
    and carries the message of the error that [open] raised. *)
Theorem checkOutputFile_errors (fs : FS) (f : string) (e : exn) :
  checkOutputFile env fs f = Raise e ->
  (isValidOutputFormat (getFileFormat (real_ppath env f)) = false /\
   e = ValueError "The output file format can only be CMP.H5, SAM, BAM or XML.") \/
  (isValidOutputFormat (getFileFormat (real_ppath env f)) = true /\
   exists m, OS.open_append env fs (real_ppath env f) = Raise (IOError m) /\
             e = IOError ("Could not access output file " +:+ real_ppath env f
                          +:+ "." +:+ m)).
Proof.
  unfold checkOutputFile.
  destruct (isValidOutputFormat _) eqn:Hv; cbn [negb].
  2:{ intros [= <-]. by left. }
  destruct (OS.open_append env fs (real_ppath env f)) as [fs1|e'] eqn:Ho;
    [discriminate|].
  destruct (open_append_raises _ _ _ Ho) as [m ->].
  intros [= <-]. right. split; [done|]. by exists m.
Qed.

End CheckOutputFileMore.

Lemma checkOutputFile_ok_witness :
  "/home/u/work/out.sam" = real_upath env0 (real_ppath env0 "out.sam") /\
  isValidOutputFormat (getFileFormat (real_ppath env0 "out.sam")) = true /\
  (exists k, OS.realkey env0 fs0 (real_ppath env0 "out.sam") = Some k /\
     ((exists c, fs0 !! k = Some (File true c) /\
                 <["/home/u/work/out.sam" := File true ""]> fs0 = fs0) \/
      (fs0 !! k = None /\
       <["/home/u/work/out.sam" := File true ""]> fs0
       = <[k := File true ""]> fs0))) /\
  (forall k nd, fs0 !! k = Some nd ->
                <["/home/u/work/out.sam" := File true ""]> fs0 !! k = Some nd) /\
  checkOutputFile env0 (<["/home/u/work/out.sam" := File true ""]> fs0) "out.sam"
  = Ok ("/home/u/work/out.sam", <["/home/u/work/out.sam" := File true ""]> fs0).
Proof.
  apply (checkOutputFile_ok env0 fs0
           (<["/home/u/work/out.sam" := File true ""]> fs0)
           "out.sam" "/home/u/work/out.sam").
  unfold checkOutputFile, OS.open_append, OS.open_write.
  assert (real_ppath env0 "out.sam" = "/home/u/work/out.sam") as ->
    by (vm_compute; reflexivity).
  assert (real_upath env0 "/home/u/work/out.sam" = "/home/u/work/out.sam") as ->
    by (vm_compute; reflexivity).
  assert (isValidOutputFormat (getFileFormat "/home/u/work/out.sam") = true) as ->
    by (vm_compute; reflexivity).
  assert (OS.realkey env0 fs0 "/home/u/work/out.sam" = Some "/home/u/work/out.sam")
    as -> by (vm_compute; reflexivity).
  assert (fs0 !! "/home/u/work/out.sam" = None) as -> by (vm_compute; reflexivity).
  assert (OS.stat env0 fs0 (Posix.dirname "/home/u/work/out.sam") = Some (Dir true))
    as -> by (vm_compute; reflexivity).
  reflexivity.
Defined.

Lemma checkOutputFile_errors_witness :
  (isValidOutputFormat (getFileFormat (real_ppath env0 "out.txt")) = false /\
   ValueError "The output file format can only be CMP.H5, SAM, BAM or XML."
   = ValueError "The output file format can only be CMP.H5, SAM, BAM or XML.") \/
  (isValidOutputFormat (getFileFormat (real_ppath env0 "out.txt")) = true /\
   exists m, OS.open_append env0 fs0 (real_ppath env0 "out.txt") = Raise (IOError m) /\
             ValueError "The output file format can only be CMP.H5, SAM, BAM or XML."
             = IOError ("Could not access output file " +:+ real_ppath env0 "out.txt"
                        +:+ "." +:+ m)).
Proof.
  apply (checkOutputFile_errors env0 fs0 "out.txt").
  vm_compute. reflexivity.
Defined.

(** ** The order of the calls of [run] *)

Lemma is_prefix_spec (a b : list nat) : is_prefix a b = true -> a `prefix_of` b.
Proof.
  revert b. induction a as [|x a IH]; intros b; [intros _; apply prefix_nil|].
  destruct b as [|y b]; [done|]. simpl.
  intros [->%Nat.eqb_eq H]%andb_true_iff. by apply prefix_cons, IH.
Qed.

Section Behaviour.
Context (env : Env) {X : Type} (sv : @Services X).

Lemma behaves_weaken {A} (m : @M X A) (S S' : list outcome) :
  behaves m S -> (forall o, o ∈ S -> o ∈ S') -> behaves m S'.
Proof. intros Hm Hs r. destruct (Hm r) as (d & Hd & Hin). eauto. Qed.

Lemma behaves_ret {A} (a : A) : behaves (ret (X := X) a) [([], true)].
Proof. intros r. exists []. simpl. rewrite app_nil_r. split; [done|set_solver]. Qed.

Lemma behaves_raise {A} (e : exn) : behaves (raise (X := X) (A := A) e) [([], false)].
Proof. intros r. exists []. simpl. rewrite app_nil_r. split; [done|set_solver]. Qed.

Lemma behaves_read {A} (f : @Runner X -> A) :
  behaves (fun r => (Ok (f r), r)) [([], true)].
Proof. intros r. exists []. simpl. rewrite app_nil_r. split; [done|set_solver]. Qed.

Lemma behaves_get_world : behaves (get_world (X := X)) [([], true)].
Proof. apply (behaves_read world). Qed.

Lemma behaves_put_world (w : World) : behaves (put_world (X := X) w) [([], true)].
Proof. intros r. exists []. simpl. rewrite app_nil_r. split; [done|set_solver]. Qed.

Lemma behaves_put_dataset_type (t : DatasetType) :
  behaves (put_dataset_type (X := X) t) [([], true)].
Proof. intros r. exists []. simpl. rewrite app_nil_r. split; [done|set_solver]. Qed.

Lemma behaves_put_alnService (s : string) :
  behaves (put_alnService (X := X) s) [([], true)].
Proof. intros r. exists []. simpl. rewrite app_nil_r. split; [done|set_solver]. Qed.

Lemma behaves_call {A} (c : Call) (f : action A) (n : nat) :
  stage c = n -> behaves (call (X := X) c f) [([n], true); ([n], false)].
Proof.
  intros <- r. unfold call. destruct (f (world r)) as [[a|e] w]; simpl;
    exists [c]; (split; [done|set_solver]).
Qed.

Lemma behaves_bind {A B} (m : M A) (k : A -> @M X B) (S1 S2 : list outcome) :
  behaves m S1 -> (forall a, behaves (k a) S2) ->
  behaves (bind m k) (seq_outcomes S1 S2).
Proof.
  intros Hm Hk r. unfold bind.
  destruct (Hm r) as (d1 & Hd1 & Hin1).
  destruct (m r) as [[a|e] r1]; simpl in *.
  - destruct (Hk a r1) as (d2 & Hd2 & Hin2).
    exists (d1 ++ d2). rewrite Hd2, Hd1, app_assoc. split; [done|].
    unfold seq_outcomes. apply list_elem_of_In, in_flat_map.
    exists (stage <$> d1, true). split; [by apply list_elem_of_In|].
    simpl. apply list_elem_of_In. rewrite fmap_app.
    apply list_elem_of_fmap. by exists (stage <$> d2, is_ok (k a r1).1).
  - exists d1. split; [done|].
    unfold seq_outcomes. apply list_elem_of_In, in_flat_map.
    exists (stage <$> d1, false). split; [by apply list_elem_of_In|].
    simpl. by left.
Qed.

Lemma behaves_if {A} (b : bool) (m1 m2 : @M X A) (S1 S2 : list outcome) :
  behaves m1 S1 -> behaves m2 S2 -> behaves (if b then m1 else m2) (S1 ++ S2).
Proof.
  intros H1 H2. destruct b.
  - apply (behaves_weaken _ _ _ H1). set_solver.
  - apply (behaves_weaken _ _ _ H2). set_solver.
Qed.

Lemma outcomes_included (S S' : list outcome) :
  forallb (fun o => bool_decide (o ∈ S')) S = true ->
  forall o, o ∈ S -> o ∈ S'.
Proof.
  intros H o Ho. rewrite forallb_forall in H.
  apply list_elem_of_In, H in Ho. by apply bool_decide_eq_true_1 in Ho.
Qed.

Ltac behave :=
  lazymatch goal with
  | |- behaves (ret _) _ => apply behaves_ret
  | |- behaves (raise _) _ => apply behaves_raise
  | |- behaves get_world _ => apply behaves_get_world
  | |- behaves (put_world _) _ => apply behaves_put_world
  | |- behaves (put_dataset_type _) _ => apply behaves_put_dataset_type
  | |- behaves (put_alnService _) _ => apply behaves_put_alnService
  | |- behaves (call ?c _) _ =>
      let n := eval cbn in (stage c) in apply (behaves_call c _ n eq_refl)
  | |- behaves (bind _ _) _ => eapply behaves_bind; [behave|intros ?; behave]
  | |- behaves (if _ then _ else _) _ => eapply behaves_if; behave
  | |- behaves (fun r => (Ok (_output_dataset_type r), r)) _ =>
      apply (behaves_read _output_dataset_type)
  end.

Ltac behave_within :=
  eapply behaves_weaken;
  [behave|apply outcomes_included; vm_compute; reflexivity].

Lemma behaves_createAlignService (name : string) :
  behaves (_createAlignService sv name)
          [([], false); ([0%nat], false); ([0; 1]%nat, false); ([0; 1]%nat, true)].
Proof.
  unfold _createAlignService.
  destruct (negb _); [behave_within|].
  repeat (destruct (String.eqb name _); [behave_within|]). behave_within.
Qed.

Lemma behaves_output (inSam refFile outFile : string) (readType : option string) :
  behaves (_output env sv inSam refFile outFile readType)
          [([], true); ([], false); ([6%nat], true); ([6%nat], false)].
Proof.
  unfold _output.
  eapply behaves_weaken;
    [eapply (behaves_bind _ _ [([], true); ([], false); ([6%nat], true); ([6%nat], false)]);
     [|intros ?; behave]
    |apply outcomes_included; vm_compute; reflexivity].
  case_bool_decide.
  - eapply behaves_weaken;
      [eapply (behaves_bind _ _ _ [([], true); ([], false)]); [behave|intros w]
      |apply outcomes_included; vm_compute; reflexivity].
    destruct (OS.readlink _ _ _); [|behave_within].
    destruct (Shutil.move _ _ _ _) as [[?|[]] ?]; behave_within.
  - behave_within.
Qed.

Lemma behaves_makeSane (w : World) :
  behaves (let '(res, args) := _makeSane (w_args w) (w_fileNames w) in
           bind (put_world (X := X) (with_args w args))
                (fun _ => match res with Ok _ => ret tt | Raise e => raise e end))
          [([], true); ([], false)].
Proof.
  destruct (_makeSane _ _) as [[?|?] ?]; behave_within.
Qed.

Lemma behaves_run :
  exists S, behaves (run env sv) S /\ forallb pipeline_outcome S = true.
Proof.
  eexists. split.
  - unfold run, run_stages, _cleanUp.
    repeat first
      [ apply behaves_createAlignService | apply behaves_output
      | apply behaves_makeSane
      | apply behaves_ret | apply behaves_get_world | apply behaves_put_world
      | apply behaves_put_alnService
      | match goal with
        | |- behaves (call ?c _) _ =>
            let n := eval cbn in (stage c) in apply (behaves_call c _ n eq_refl)
        end
      | eapply behaves_if
      | eapply behaves_bind; [|intros ?] ].
  - vm_compute. reflexivity.
Qed.

End Behaviour.

(** ** [run] up to the call to [_output] *)

Section RunSplit.
Context (env : Env) {X : Type} (sv : @Services X).

Ltac split_step :=
  match goal with
  | |- context [_makeSane ?a ?b] => destruct (_makeSane a b) as [[[]|?] ?]
  | |- context [let (_, _) := ?t in _] => destruct t as [[?|?] ?]
  | |- context [if ?b then _ else _] => destruct b
  end; cbn beta iota; try reflexivity.

(** [run_stages] is [run_before_output], then the call to [_output]. *)
Lemma run_stages_split (r : Runner) :
  run_stages env sv r
  = match run_before_output sv r with
    | (Ok _, r1) =>
        match run_output env sv r1 with
        | (Ok _, r2) => (Ok tt, r2)
        | (Raise e, r2) => (Raise e, r2)
        end
    | (Raise e, r1) => (Raise e, r1)
    end.
Proof.
  unfold run_stages, run_before_output, run_output.
  unfold bind, get_world, ret, raise, put_world, put_alnService, call.
  cbn beta iota.
  repeat split_step.
Qed.

End RunSplit.

(** ** The run of logging collaborators *)

Section Simulation.
Context (env : Env) {X : Type} (sv : @Services X).

Lemma sim_ret {A A'} (R : A -> A' -> Prop) (a : A) (a' : A') :
  R a a' -> sim (X := X) R (ret a) (ret a').
Proof. intros H r'. by cbn. Qed.

Lemma sim_raise {A A'} (R : A -> A' -> Prop) (e : exn) :
  sim (X := X) R (raise e) (raise e).
Proof. intros r'. by cbn. Qed.

Lemma sim_bind {A A' B B'} (R : A -> A' -> Prop) (Q : B -> B' -> Prop)
    (m : M A) (m' : M A') (k : A -> M B) (k' : A' -> M B') :
  sim (X := X) R m m' -> (forall a a', R a a' -> sim Q (k a) (k' a')) ->
  sim Q (bind m k) (bind m' k').
Proof.
  intros Hm Hk r'. unfold bind. specialize (Hm r').
  destruct (m (unlog_runner r')) as [[a|e] r1], (m' r') as [[a'|e'] r1'];
    try done.
  destruct Hm as [HR ->]. apply (Hk a a' HR).
Qed.

Lemma sim_call {A} (c c0 : Call) (f : @action X A) :
  sim eq (call c f) (call c (log_action c0 f)).
Proof.
  intros r'. unfold call, log_action. cbn [unlog_runner world].
  destruct (f (unlog (world r'))) as [[a|e] [? ? ? ?]]; by cbn.
Qed.

Lemma sim_get_world :
  sim (fun (w : @World X) w' => w = unlog w') get_world get_world.
Proof. intros r'. by cbn. Qed.

Lemma sim_put_world (w : @World X) (w' : @World (X * list entry)) :
  w = unlog w' -> sim eq (put_world w) (put_world w').
Proof. intros -> r'. by cbn. Qed.

Lemma sim_put_dataset_type (t : DatasetType) :
  sim eq (put_dataset_type (X := X) t) (put_dataset_type t).
Proof. intros r'. by cbn. Qed.

Lemma sim_put_alnService (s : string) :
  sim eq (put_alnService (X := X) s) (put_alnService s).
Proof. intros r'. by cbn. Qed.

Lemma sim_dataset_type :
  sim eq (fun r : @Runner X => (Ok (_output_dataset_type r), r))
         (fun r => (Ok (_output_dataset_type r), r)).
Proof. intros r'. by cbn. Qed.

Ltac sim_solve :=
  lazymatch goal with
  | |- sim _ (ret _) (ret _) =>
      first [apply (sim_ret eq); reflexivity|by apply sim_ret]
  | |- sim _ (raise _) (raise _) => apply sim_raise
  | |- sim _ get_world get_world => apply sim_get_world
  | |- sim _ (put_world _) (put_world _) => by apply sim_put_world
  | |- sim _ (put_dataset_type _) (put_dataset_type _) => apply sim_put_dataset_type
  | |- sim _ (put_alnService _) (put_alnService _) => apply sim_put_alnService
  | |- sim _ (call _ _) (call _ _) => apply sim_call
  | |- sim _ (fun r => (Ok (_output_dataset_type r), r)) _ => apply sim_dataset_type
  | |- sim _ (bind _ _) (bind _ _) =>
      eapply sim_bind;
      [sim_solve
      |let a := fresh "a" in let a' := fresh "a'" in let H := fresh "H" in
       intros a a' H; cbn beta in H; try subst a;
       cbn [unlog w_fs w_args w_fileNames w_ext]; sim_solve]
  | |- sim _ (if ?b then _ else _) (if ?b then _ else _) => destruct b; sim_solve
  | |- context [OS.readlink ?a ?b ?c] => destruct (OS.readlink a b c); sim_solve
  | |- context [Shutil.move ?a ?b ?c ?d] =>
      destruct (Shutil.move a b c d) as [[?|[]] ?]; sim_solve
  | |- context [_makeSane ?a ?b] =>
      destruct (_makeSane a b) as [[?|?] ?]; sim_solve
  end.

Lemma sim_createAlignService (name : string) :
  sim eq (_createAlignService sv name) (_createAlignService (logged sv) name).
Proof.
  unfold _createAlignService. cbn [logged ALGORITHM_CANDIDATES service_new
                                    service_checkAvailability].
  sim_solve.
Qed.

Lemma sim_output (inSam refFile outFile : string) (readType : option string) :
  sim eq (_output env sv inSam refFile outFile readType)
         (_output env (logged sv) inSam refFile outFile readType).
Proof.
  unfold _output. cbn [logged dataset_write].
  sim_solve.
Qed.

Ltac sim_run :=
  lazymatch goal with
  | |- sim _ (_createAlignService _ _) _ => apply sim_createAlignService
  | |- sim _ (_output _ _ _ _ _ _) _ => apply sim_output
  | |- sim _ (ret _) (ret _) =>
      first [apply (sim_ret eq); reflexivity|by apply sim_ret]
  | |- sim _ (raise _) (raise _) => apply sim_raise
  | |- sim _ get_world get_world => apply sim_get_world
  | |- sim _ (put_world _) (put_world _) => by apply sim_put_world
  | |- sim _ (put_alnService _) (put_alnService _) => apply sim_put_alnService
  | |- sim _ (call _ _) (call _ _) => apply sim_call
  | |- sim _ (bind _ _) (bind _ _) =>
      eapply sim_bind;
      [sim_run
      |let a := fresh "a" in let a' := fresh "a'" in let H := fresh "H" in
       intros a a' H; cbn beta in H; try subst a;
       cbn [unlog w_fs w_args w_fileNames w_ext]; sim_run]
  | |- sim _ (if ?b then _ else _) (if ?b then _ else _) => destruct b; sim_run
  | |- context [_makeSane ?a ?b] =>
      destruct (_makeSane a b) as [[?|?] ?]; sim_run
  end.

Lemma sim_run_stages : sim eq (run_stages env sv) (run_stages env (logged sv)).
Proof.
  unfold run_stages.
  cbn [logged service_run tmp_RegisterNewTmpFile filter_run bampost_run
         service_scoreSign].
  sim_run.
Qed.

Lemma sim_run_all : sim eq (run env sv) (run env (logged sv)).
Proof.
  unfold run, _cleanUp. cbn [logged tmp_CleanUp].
  eapply sim_bind; [apply sim_run_stages|]. intros _ _ _.
  sim_run.
Qed.

(** The run of the collaborators is the run of the logging
    collaborators, without the log. *)
Lemma run_logged (r : @Runner (X * list entry)) :
  run env sv (unlog_runner r)
  = (fst (run env (logged sv) r), unlog_runner (snd (run env (logged sv) r))).
Proof.
  pose proof (sim_run_all r) as H.
  destruct (run env sv (unlog_runner r)) as [[a|e] r1],
           (run env (logged sv) r) as [[a'|e'] r1']; try done;
    by destruct H as [-> ->].
Qed.

Lemma run_stages_logged (r : @Runner (X * list entry)) :
  run_stages env sv (unlog_runner r)
  = (fst (run_stages env (logged sv) r),
     unlog_runner (snd (run_stages env (logged sv) r))).
Proof.
  pose proof (sim_run_stages r) as H.
  destruct (run_stages env sv (unlog_runner r)) as [[a|e] r1],
           (run_stages env (logged sv) r) as [[a'|e'] r1']; try done;
    by destruct H as [-> ->].
Qed.

End Simulation.

(** ** The log and the trace stay in step *)

Section Tidy.
Context (env : Env) {X : Type} (sv : @Services X).

Local Abbreviation LRunner := (@Runner (X * list entry)).

Lemma tidy_silent {A} (P : Call -> Prop) (m : @M (X * list entry) A) (r : LRunner) :
  log_of (snd (m r)) = log_of r -> calls (snd (m r)) = calls r ->
  tidy_at P m r.
Proof.
  intros Hl Hc. exists []. rewrite Hl, Hc. cbn [fmap list_fmap].
  rewrite !app_nil_r.
  split; [done|]. split; [done|]. split; [constructor|].
  destruct (fst (m r)); [constructor|left; constructor].
Qed.

Lemma tidy_ret {A} (P : Call -> Prop) (a : A) (r : LRunner) : tidy_at P (ret a) r.
Proof. by apply tidy_silent. Qed.

Lemma tidy_raise {A} (P : Call -> Prop) (e : exn) (r : LRunner) :
  tidy_at P (raise (A := A) e) r.
Proof. by apply tidy_silent. Qed.

Lemma tidy_get_world (P : Call -> Prop) (r : LRunner) : tidy_at P get_world r.
Proof. by apply tidy_silent. Qed.

Lemma tidy_put_world (P : Call -> Prop) (w : World) (r : LRunner) :
  snd (w_ext w) = log_of r -> tidy_at P (put_world w) r.
Proof. intros H. by apply tidy_silent. Qed.

Lemma tidy_put_dataset_type (P : Call -> Prop) (t : DatasetType) (r : LRunner) :
  tidy_at P (put_dataset_type t) r.
Proof. by apply tidy_silent. Qed.

Lemma tidy_put_alnService (P : Call -> Prop) (s : string) (r : LRunner) :
  tidy_at P (put_alnService s) r.
Proof. by apply tidy_silent. Qed.

Lemma tidy_dataset_type (P : Call -> Prop) (r : LRunner) :
  tidy_at P (fun r : LRunner => (Ok (_output_dataset_type r), r)) r.
Proof. by apply tidy_silent. Qed.

Lemma tidy_call {A} (P : Call -> Prop) (c : Call) (f : @action X A) (r : LRunner) :
  P c -> tidy_at P (call c (log_action c f)) r.
Proof.
  intros Hc. unfold tidy_at, call, log_action, log_of.
  destruct (f (unlog (world r))) as [res w]. cbn.
  exists [(c, error_of res)].
  split; [done|]. split; [done|]. split; [by repeat constructor|].
  destruct res as [a|e]; cbn.
  - by repeat constructor.
  - right. exists [], c. split; [done|constructor].
Qed.

Lemma tidy_bind {A B} (P : Call -> Prop) (m : M A) (k : A -> M B) (r : LRunner) :
  tidy_at P m r ->
  (forall a r1, m r = (Ok a, r1) -> tidy_at P (k a) r1) ->
  tidy_at P (bind m k) r.
Proof.
  intros (ents1 & Hl1 & Hc1 & HP1 & Hs1) Hk. unfold tidy_at, bind.
  destruct (m r) as [[a|e] r1] eqn:Hm; cbn [fst snd] in *.
  - destruct (Hk a r1 eq_refl) as (ents2 & Hl2 & Hc2 & HP2 & Hs2).
    exists (ents1 ++ ents2).
    rewrite Hl2, Hc2, Hl1, Hc1, fmap_app, !app_assoc.
    split; [done|]. split; [done|]. split; [by apply Forall_app|].
    destruct (fst (k a r1)) as [b|e].
    + by apply Forall_app.
    + destruct Hs2 as [Hs2|(ents0 & c & -> & Hs2)].
      * left. by apply Forall_app.
      * right. exists (ents1 ++ ents0), c. rewrite app_assoc.
        split; [done|]. by apply Forall_app.
  - exists ents1. done.
Qed.

Lemma tidy_weaken {A} (P Q : Call -> Prop) (m : @M (X * list entry) A) (r : LRunner) :
  (forall c, P c -> Q c) -> tidy_at P m r -> tidy_at Q m r.
Proof.
  intros HPQ (ents & Hl & Hc & HP & Hs). exists ents.
  split; [done|]. split; [done|]. split; [|done].
  eapply Forall_impl; [exact HP|]. intros en. apply HPQ.
Qed.

Ltac tidy_solve :=
  lazymatch goal with
  | |- tidy_at _ (ret _) _ => apply tidy_ret
  | |- tidy_at _ (raise _) _ => apply tidy_raise
  | |- tidy_at _ get_world _ => apply tidy_get_world
  | |- tidy_at _ (put_world _) _ => apply tidy_put_world; reflexivity
  | |- tidy_at _ (put_dataset_type _) _ => apply tidy_put_dataset_type
  | |- tidy_at _ (put_alnService _) _ => apply tidy_put_alnService
  | |- tidy_at _ (fun r => (Ok (_output_dataset_type r), r)) _ =>
      apply tidy_dataset_type
  | |- tidy_at _ (call _ _) _ =>
      apply tidy_call; cbn; try done; try (case_bool_decide; auto)
  | |- tidy_at _ (bind _ _) _ =>
      apply tidy_bind;
      [tidy_solve
      |let a := fresh "a" in let r1 := fresh "r" in let H := fresh "H" in
       intros a r1 H;
       first [injection H as <- <- | clear H];
       tidy_solve]
  | |- tidy_at _ (if ?b then _ else _) _ => destruct b; tidy_solve
  | |- context [OS.readlink ?a ?b ?c] => destruct (OS.readlink a b c); tidy_solve
  | |- context [Shutil.move ?a ?b ?c ?d] =>
      destruct (Shutil.move a b c d) as [[?|[]] ?]; tidy_solve
  | |- context [_makeSane ?a ?b] =>
      destruct (_makeSane a b) as [[?|?] ?]; tidy_solve
  end.

Lemma tidy_createAlignService (name : string) (r : LRunner) :
  tidy_at (create_call name) (_createAlignService (logged sv) name) r.
Proof.
  unfold _createAlignService.
  cbn [logged ALGORITHM_CANDIDATES service_new service_checkAvailability].
  destruct (negb _); [tidy_solve|].
  destruct (String.eqb_spec name "blasr") as [->|?]; [tidy_solve|].
  destruct (String.eqb_spec name "bowtie") as [->|?]; [tidy_solve|].
  destruct (String.eqb_spec name "gmap") as [->|?]; tidy_solve.
Qed.

Lemma tidy_output (inSam refFile outFile : string) (readType : option string)
    (r : LRunner) :
  tidy_at output_call (_output env (logged sv) inSam refFile outFile readType) r.
Proof.
  unfold _output. cbn [logged dataset_write]. tidy_solve.
Qed.

Ltac tidy_run :=
  lazymatch goal with
  | |- tidy_at _ (_createAlignService _ _) _ =>
      eapply tidy_weaken; [|apply tidy_createAlignService];
      intros []; cbn; tauto
  | |- tidy_at _ (_output _ _ _ _ _ _) _ =>
      eapply tidy_weaken; [|apply tidy_output];
      intros []; cbn; tauto
  | |- tidy_at _ (ret _) _ => apply tidy_ret
  | |- tidy_at _ (raise _) _ => apply tidy_raise
  | |- tidy_at _ get_world _ => apply tidy_get_world
  | |- tidy_at _ (put_world _) _ => apply tidy_put_world; reflexivity
  | |- tidy_at _ (put_alnService _) _ => apply tidy_put_alnService
  | |- tidy_at _ (call _ _) _ =>
      apply tidy_call; cbn; try done; try (case_bool_decide; auto)
  | |- tidy_at _ (bind _ _) _ =>
      apply tidy_bind;
      [tidy_run
      |let a := fresh "a" in let r1 := fresh "r" in let H := fresh "H" in
       intros a r1 H;
       first [injection H as <- <- | clear H];
       tidy_run]
  | |- tidy_at _ (if ?b then _ else _) _ => destruct b; tidy_run
  | |- context [_makeSane ?a ?b] =>
      destruct (_makeSane a b) as [[?|?] ?]; tidy_run
  end.

Lemma tidy_run_stages (r : LRunner) :
  tidy_at (run_call (algorithm (w_args (world r)))) (run_stages env (logged sv)) r.
Proof.
  unfold run_stages.
  cbn [logged service_run tmp_RegisterNewTmpFile filter_run bampost_run
         service_scoreSign].
  tidy_run.
Qed.

Lemma tidy_run_all (r : LRunner) :
  tidy_at (run_call (algorithm (w_args (world r)))) (run env (logged sv)) r.
Proof.
  unfold run, _cleanUp. cbn [logged tmp_CleanUp].
  apply tidy_bind; [apply tidy_run_stages|]. intros _ r1 _.
  apply tidy_bind; [apply tidy_get_world|]. intros w r2 H.
  injection H as <- <-.
  apply tidy_bind; [by apply tidy_call|]. intros _ r3 _. apply tidy_ret.
Qed.

End Tidy.

(** ** What the log of [run] shows *)

Lemma failure_is_last {A} (res : result A) (ents ents1 ents2 : list entry)
    (c : Call) (e : exn) :
  match res with
  | Ok _ => returned ents
  | Raise e0 =>
      returned ents \/
      exists ents0 c0, ents = ents0 ++ [(c0, Some e0)] /\ returned ents0
  end ->
  ents = ents1 ++ (c, Some e) :: ents2 ->
  ents2 = [] /\ returned ents1 /\ res = Raise e.
Proof.
  intros Hshape ->.
  assert (Hno : ~ returned (ents1 ++ (c, Some e) :: ents2)).
  { intros H. apply Forall_app in H as [_ H]. by inversion H. }
  destruct res as [a|e0]; [done|].
  destruct Hshape as [H|(ents0 & c0 & Heq & Hret)]; [done|].
  clear Hno. revert ents0 Heq Hret.
  induction ents1 as [|x ents1 IH]; intros [|y ents0] Heq Hret; simpl in Heq.
  - injection Heq as -> -> ->. done.
  - injection Heq as <- _. by inversion Hret.
  - injection Heq as _ Heq. by destruct ents1.
  - injection Heq as -> Heq. inversion Hret; subst.
    destruct (IH ents0 Heq) as (-> & Hr & He); [done|].
    split; [done|]. split; [by constructor|done].
Qed.

Lemma init_returned {A} (res : result A) (ents1 : list entry) (x : entry) :
  match res with
  | Ok _ => returned (ents1 ++ [x])
  | Raise e0 =>
      returned (ents1 ++ [x]) \/
      exists ents0 c0, ents1 ++ [x] = ents0 ++ [(c0, Some e0)] /\ returned ents0
  end ->
  returned ents1.
Proof.
  assert (H0 : returned (ents1 ++ [x]) -> returned ents1).
  { intros H. by apply Forall_app in H as [H _]. }
  destruct res as [a|e0]; [done|].
  intros [H|(ents0 & c0 & Heq & Hret)]; [auto|].
  apply app_inj_tail in Heq as [-> _]. done.
Qed.

Lemma cleanup_is_last (d l1 l2 : list Call) (b : bool) (y : Call) :
  forallb (fun c => negb (is_cleanup c)) d = true ->
  l1 ++ CallCleanUp b :: l2 = d ++ [y] ->
  l2 = [] /\ l1 = d /\ y = CallCleanUp b.
Proof.
  revert d. induction l1 as [|a l1 IH]; intros [|x d] Hq Heq; simpl in *.
  - by injection Heq as <- <-.
  - injection Heq as <- _. done.
  - injection Heq as _ Heq. by destruct l1.
  - injection Heq as -> Heq. apply andb_true_iff in Hq as [_ Hq].
    destruct (IH d Hq Heq) as (-> & -> & ->). done.
Qed.

Lemma no_cleanup_in (d l1 l2 : list Call) (b : bool) :
  forallb (fun c => negb (is_cleanup c)) d = true ->
  d <> l1 ++ CallCleanUp b :: l2.
Proof.
  intros Hq ->. rewrite forallb_app in Hq.
  apply andb_true_iff in Hq as [_ Hq]. done.
Qed.

Section RunLog.
Context (env : Env) {X : Type} (sv : @Services X).
Local Abbreviation LRunner := (@Runner (X * list entry)).

(** What follows the stages: nothing when they raise, [CleanUp] when
    they return. *)
Lemma run_after_stages {Y : Type} (sv' : @Services Y) (r : @Runner Y) :
  match run_stages env sv' r with
  | (Raise e, r1) => run env sv' r = (Raise e, r1)
  | (Ok _, r1) =>
      calls (snd (run env sv' r))
      = calls r1 ++ [CallCleanUp
                       (if bool_decide (keepTmpFiles (w_args (world r1)) = Some true)
                        then false else true)]
  end.
Proof.
  unfold run. unfold bind.
  destruct (run_stages env sv' r) as [[[]|e] r1]; [|reflexivity].
  unfold get_world, _cleanUp, call. simpl.
  destruct (tmp_CleanUp sv' _ (world r1)) as [[[]|e] w]; reflexivity.
Qed.

Lemma run_after_stages_logged (r r1 : LRunner) :
  run_stages env (logged sv) r = (Ok tt, r1) ->
  exists o,
    log_of (snd (run env (logged sv) r))
    = log_of r1 ++ [(CallCleanUp
                       (if bool_decide (keepTmpFiles (w_args (world r1)) = Some true)
                        then false else true), o)] /\
    fst (run env (logged sv) r)
    = match o with None => Ok 0 | Some e => Raise e end.
Proof.
  intros Hst. unfold run. unfold bind. rewrite Hst.
  unfold get_world, _cleanUp, call. cbn [logged tmp_CleanUp log_action fst snd].
  unfold log_action.
  destruct (tmp_CleanUp sv _ (unlog (world r1))) as [[[]|e] w];
    [exists None|exists (Some e)]; done.
Qed.

Lemma run_output_raises {Y : Type} (sv' : @Services Y) (r r1 r2 : @Runner Y) (e : exn) :
  run_before_output sv' r = (Ok tt, r1) ->
  run_output env sv' r1 = (Raise e, r2) ->
  run env sv' r = (Raise e, r2).
Proof.
  intros H1 H2. pose proof (run_after_stages sv' r) as H.
  rewrite run_stages_split, H1, H2 in H. exact H.
Qed.

Lemma run_before_output_raises {Y : Type} (sv' : @Services Y) (r r1 : @Runner Y)
    (e : exn) :
  run_before_output sv' r = (Raise e, r1) -> run env sv' r = (Raise e, r1).
Proof.
  intros H1. pose proof (run_after_stages sv' r) as H.
  rewrite run_stages_split, H1 in H. exact H.
Qed.

(** C1, as the code has it. The collaborators of [run] are made to log
    every call with the exception it raised, if any; this changes nothing
    of what [run] does. Of the run so logged:
    - a call that raises is the last call, every call before it has
      returned, and [run] raises the exception of that call, whichever
      collaborator it is (the aligner, the filter, the BAM post-processing,
      the dataset writer, the temporary-file manager);
    - [CleanUp] is called only when every stage has returned, as the
      last call, deleting unless [keepTmpFiles] is [True];
    - when every stage has returned [CleanUp] is the next call, and [run]
      returns 0 if it returns and raises its exception otherwise;
    - when a stage raises, [run] raises the same exception in the state
      the stage left, and the log holds no [CleanUp];
    - this is so for the stages that raise by themselves: [_makeSane],
      [_output], and what comes before [_output]. *)
Theorem run_cleanup_iff_stages_return (r : LRunner) :
  run env sv (unlog_runner r)
  = (fst (run env (logged sv) r), unlog_runner (snd (run env (logged sv) r))) /\
  exists ents,
    log_of (snd (run env (logged sv) r)) = log_of r ++ ents /\
    calls (snd (run env (logged sv) r)) = calls r ++ (fst <$> ents) /\
    (forall ents1 c e ents2,
        ents = ents1 ++ (c, Some e) :: ents2 ->
        ents2 = [] /\ returned ents1 /\ fst (run env (logged sv) r) = Raise e) /\
    (forall ents1 b o ents2,
        ents = ents1 ++ (CallCleanUp b, o) :: ents2 ->
        ents2 = [] /\ returned ents1 /\
        exists r1,
          run_stages env (logged sv) r = (Ok tt, r1) /\
          b = (if bool_decide (keepTmpFiles (w_args (world r1)) = Some true)
               then false else true)) /\
    (forall r1,
        run_stages env (logged sv) r = (Ok tt, r1) ->
        exists o,
          log_of (snd (run env (logged sv) r))
          = log_of r1 ++ [(CallCleanUp
                             (if bool_decide (keepTmpFiles (w_args (world r1)) = Some true)
                              then false else true), o)] /\
          fst (run env (logged sv) r)
          = match o with None => Ok 0 | Some e => Raise e end) /\
    (forall e r1,
        run_stages env (logged sv) r = (Raise e, r1) ->
        run env (logged sv) r = (Raise e, r1) /\
        Forall (fun en : entry => is_cleanup (fst en) = false) ents) /\
    (forall name r1 e,
        _createAlignService (logged sv) (algorithm (w_args (world r))) r = (Ok name, r1) ->
        fst (_makeSane (w_args (world r1)) (w_fileNames (world r1))) = Raise e ->
        fst (run env (logged sv) r) = Raise e /\
        calls (snd (run env (logged sv) r)) = calls r1) /\
    (forall r1 e r2,
        run_before_output (logged sv) r = (Ok tt, r1) ->
        run_output env (logged sv) r1 = (Raise e, r2) ->
        run env (logged sv) r = (Raise e, r2)) /\
    (forall e r1,
        run_before_output (logged sv) r = (Raise e, r1) ->
        run env (logged sv) r = (Raise e, r1)).
Proof.
  split; [apply run_logged|].
  destruct (tidy_run_all env sv r) as (ents & Hlog & Hcalls & _ & Hshape).
  destruct (quiet_run_stages env (logged sv) r) as (d & Hd & Hq).
  pose proof (run_after_stages (logged sv) r) as Hafter.
  exists ents. split; [done|]. split; [done|].
  split; [|split; [|split; [|split; [|split; [|split]]]]].
  - intros ents1 c e ents2 Heq. by apply (failure_is_last _ ents ents1 ents2 c e).
  - intros ents1 b o ents2 ->.
    destruct (run_stages env (logged sv) r) as [[[]|e] r1] eqn:Hst.
    + simpl in Hd. rewrite Hcalls, Hd, <- app_assoc in Hafter.
      apply app_inv_head in Hafter.
      rewrite fmap_app, fmap_cons in Hafter. cbn [fst] in Hafter.
      apply cleanup_is_last in Hafter as (Hnil & _ & Hb); [|done].
      apply fmap_nil_inv in Hnil as ->.
      split; [done|]. split; [by apply (init_returned _ _ _ Hshape)|].
      exists r1. split; [done|]. by injection Hb.
    + rewrite Hafter in Hcalls. simpl in Hcalls, Hd. rewrite Hd in Hcalls.
      apply app_inv_head in Hcalls.
      rewrite fmap_app, fmap_cons in Hcalls. cbn [fst] in Hcalls.
      by apply no_cleanup_in in Hcalls.
  - intros r1 Hst. by apply run_after_stages_logged.
  - intros e r1 Hst. rewrite Hst in Hafter, Hd. split; [done|].
    rewrite Hafter in Hcalls. simpl in Hcalls, Hd. rewrite Hd in Hcalls.
    apply app_inv_head in Hcalls. subst d.
    rewrite forallb_forall in Hq. apply Forall_forall. intros en Hen.
    apply negb_true_iff, Hq, list_elem_of_In, list_elem_of_fmap. by exists en.
  - intros name r1 e. apply makeSane_error_is_fatal.
  - intros r1 e r2. apply run_output_raises.
  - intros e r1. apply run_before_output_raises.
Qed.

(** X14. The calls of [run] follow the pipeline, and [run] stops at the
    first call that raises. With collaborators that log every call and
    the exception it raised, which changes nothing of what [run] does:
    the calls are, in this order and each at most once, the construction
    of the aligner named by the options, its availability check, its run,
    the registration of the temporary file with the suffix [.bam] or
    [.sam], the filter, then possibly the BAM post-processing, possibly
    the dataset writer, and the clean-up; a call that raises is the last
    call, every call before it has returned, and [run] raises its
    exception; and when [run] returns, every call has returned and they
    are all the calls of one complete pipeline. *)
Theorem run_pipeline_order (r : LRunner) :
  run env sv (unlog_runner r)
  = (fst (run env (logged sv) r), unlog_runner (snd (run env (logged sv) r))) /\
  exists ents full,
    log_of (snd (run env (logged sv) r)) = log_of r ++ ents /\
    calls (snd (run env (logged sv) r)) = calls r ++ (fst <$> ents) /\
    full ∈ pipelines /\
    stage <$> (fst <$> ents) `prefix_of` full /\
    Forall (fun en : entry => run_call (algorithm (w_args (world r))) (fst en)) ents /\
    (forall ents1 c e ents2,
        ents = ents1 ++ (c, Some e) :: ents2 ->
        ents2 = [] /\ returned ents1 /\ fst (run env (logged sv) r) = Raise e) /\
    (is_ok (fst (run env (logged sv) r)) = true ->
     returned ents /\ stage <$> (fst <$> ents) = full).
Proof.
  split; [apply run_logged|].
  destruct (tidy_run_all env sv r) as (ents & Hlog & Hcalls & HP & Hshape).
  destruct (behaves_run env (logged sv)) as (S & Hb & Hall).
  destruct (Hb r) as (d & Hd & Hin).
  rewrite Hcalls in Hd. apply app_inv_head in Hd. subst d.
  rewrite forallb_forall in Hall.
  apply list_elem_of_In, Hall in Hin. unfold pipeline_outcome in Hin.
  apply existsb_exists in Hin as (full & Hfull & Hp). simpl in Hp.
  apply andb_true_iff in Hp as [Hpre Hok].
  exists ents, full. split; [done|]. split; [done|].
  split; [by apply list_elem_of_In|]. split; [by apply is_prefix_spec|].
  split; [done|]. split.
  - intros ents1 c e ents2 Heq. by apply (failure_is_last _ ents ents1 ents2 c e).
  - intros Hr. rewrite Hr in Hok. simpl in Hok.
    apply bool_decide_eq_true_1 in Hok. split; [|done].
    destruct (fst (run env (logged sv) r)) as [a|e]; [done|discriminate].
Qed.

End RunLog.

(** Every runner is a runner of logging collaborators with its log
    taken away. *)
Lemma unlog_with_empty_log {X : Type} (r : @Runner X) :
  unlog_runner (with_empty_log r) = r.
Proof. by destruct r as [[? ? ? ?] ? ? ?]. Qed.

(** A run whose filter raises: the log ends with the call to the filter,
    and [run] raises what the filter raised. *)
Lemma run_stops_at_failing_filter :
  fst (run env0 (logged sv_filter_fails) (with_empty_log (runner0 "blasr" "out.bam")))
  = Raise (ServiceError "filter") /\
  log_of (snd (run env0 (logged sv_filter_fails)
                   (with_empty_log (runner0 "blasr" "out.bam"))))
  = [(CallServiceNew "blasr", None); (CallCheckAvailability, None);
     (CallAlignRun, None); (CallRegisterNewTmpFile ".bam", None);
     (CallFilterRun, Some (ServiceError "filter"))].
Proof. split; vm_compute; reflexivity. Qed.



(** ** More on [_makeSane], [_createAlignService] and [_output] *)

(** X15. [_makeSane] accepts exactly when the output is no CMP.H5 file and,
    for a BAM or XML output, the algorithm is blasr and adapter-only
    filtering is off. *)
Theorem makeSane_accepts_iff (args : Args) (fileNames : PBAlignFiles) :
  fst (_makeSane args fileNames) = Ok tt <->
  getFileFormat (outputFileName fileNames) <> CMP /\
  (getFileFormat (outputFileName fileNames) = BAM \/
   getFileFormat (outputFileName fileNames) = XML ->
   algorithm args = "blasr" /\ filterAdapterOnly args = false).
Proof.
  unfold _makeSane.
  set (a1 := if bool_decide (useccs args = Some "useccsdenovo") then _ else _).
  set (a2 := if bool_decide (inputFileFormat fileNames = Some CCS) then _ else _).
  assert (Halgo : algorithm a2 = algorithm args).
  { subst a2 a1. repeat case_bool_decide; reflexivity. }
  assert (Hfilt : filterAdapterOnly a2 = filterAdapterOnly args).
  { subst a2 a1. repeat case_bool_decide; reflexivity. }
  rewrite Halgo, Hfilt. clearbody a2. clear a1 Halgo Hfilt.
  generalize (getFileFormat (outputFileName fileNames)). intros ff.
  destruct (decide (ff = CMP)) as [->|Hc].
  { cbn. split; [discriminate|]. by intros [H _]. }
  rewrite (bool_decide_eq_false_2 _ Hc).
  destruct (decide (ff = BAM \/ ff = XML)) as [Hb|Hb].
  - assert (bool_decide (ff = BAM) || bool_decide (ff = XML) = true) as ->
      by (destruct Hb as [-> | ->]; done).
    destruct (String.eqb_spec (algorithm args) "blasr") as [Ha|Ha]; cbn [negb].
    + destruct (filterAdapterOnly args) eqn:Hfa; cbn [fst].
      * split; [discriminate|]. intros [_ H]. destruct (H Hb); congruence.
      * split; [|done]. intros _. split; [done|]. by intros _.
    + cbn [fst]. split; [discriminate|]. intros [_ H]. destruct (H Hb); congruence.
  - assert (bool_decide (ff = BAM) || bool_decide (ff = XML) = false) as ->.
    { apply orb_false_iff. split; apply bool_decide_eq_false_2; tauto. }
    cbn [fst]. split; [|done]. intros _. split; [done|]. tauto.
Qed.

(** X16. [_makeSane] changes the options in [readType] only, and in the same
    way whether it then accepts or raises: [readType] becomes [CCS] when
    [useccs] is [useccsdenovo] or the input is a CCS file, and is left
    alone otherwise. *)
Theorem makeSane_sets_readType (args : Args) (fileNames : PBAlignFiles) :
  snd (_makeSane args fileNames)
  = if bool_decide (useccs args = Some "useccsdenovo")
       || bool_decide (inputFileFormat fileNames = Some CCS)
    then set_readType args (Some "CCS") else args.
Proof.
  unfold _makeSane.
  set (a1 := if bool_decide (useccs args = Some "useccsdenovo") then _ else _).
  set (a2 := if bool_decide (inputFileFormat fileNames = Some CCS) then _ else _).
  assert (Ha2 : a2 = if bool_decide (useccs args = Some "useccsdenovo")
                        || bool_decide (inputFileFormat fileNames = Some CCS)
                     then set_readType args (Some "CCS") else args).
  { subst a2 a1. repeat case_bool_decide; reflexivity. }
  rewrite <- Ha2. clearbody a2.
  repeat match goal with
         | |- context [if ?b then _ else _] => destruct b
         end; reflexivity.
Qed.

Lemma len_lower (s : string) : Str.len (Str.lower s) = Str.len s.
Proof.
  induction s as [|c s IH]; [done|].
  change (Str.lower (String c s)) with (String (Str.lower_char c) (Str.lower s)).
  by rewrite !len_cons, IH.
Qed.

Lemma getFileFormat_XML (p : string) : getFileFormat p = XML -> ext1 p = ".xml".
Proof.
  rewrite getFileFormat_unfold. cbv zeta.
  generalize (ext1 p) (ext2 p). intros e1 e2.
  cbv beta iota delta [existsb orb str_in]. ext_split; done.
Qed.

(** For an XML output the BAM file named beside it: dropping the last
    three characters drops the extension without its dot. *)
Lemma xml_out_bam (outFile : string) :
  getFileFormat outFile = XML ->
  Str.upto outFile (Str.len outFile - 3) +:+ "bam"
  = fst (Posix.splitext outFile) +:+ ".bam" /\
  getFileFormat (fst (Posix.splitext outFile) +:+ ".bam") = BAM.
Proof.
  intros Hx%getFileFormat_XML. unfold ext1 in Hx.
  destruct (splitext_elim outFile (snd (Posix.splitext outFile)) eq_refl)
    as (e & Hext & (d & m & Hp & Hd & Hm & Hdots) & Hdot & Hsep).
  { intros Hnil. by rewrite Hnil in Hx. }
  assert (Hsplit : Posix.splitext outFile = (d +:+ m, String "." e)).
  { rewrite Hp. by apply splitext_intro. }
  rewrite Hsplit. cbn [fst].
  assert (Hlen : Str.len e = 3).
  { rewrite Hext in Hx. apply (f_equal Str.len) in Hx.
    rewrite len_lower, len_cons in Hx. change (Str.len ".xml") with 4 in Hx. lia. }
  split.
  - assert (Hp' : outFile = (d +:+ m +:+ ".") +:+ e).
    { rewrite Hp. by rewrite !app_assoc_s. }
    rewrite Hp' at 1 2. rewrite len_app, Hlen.
    replace (Str.len (d +:+ m +:+ ".") + 3 - 3) with (Str.len (d +:+ m +:+ "."))
      by lia.
    rewrite upto_app_exact. by rewrite !app_assoc_s.
  - apply getFileFormat_ext_eq with (p := "x.bam"); [|done].
    unfold ext1. rewrite app_assoc_s.
    by rewrite (splitext_intro d m "bam").
Qed.

Section RunnerParts.
Context (env : Env) {X : Type} (sv : @Services X).

(** X17. [_createAlignService] raises a [ValueError] for a name that is
    not among the candidates, or that is but has no service, and then
    calls no collaborator and leaves the runner as it is. *)
Theorem createAlignService_unknown (name : string) (r : Runner) :
  str_in name (ALGORITHM_CANDIDATES sv) = false \/
  name ∉ ["blasr"; "bowtie"; "gmap"] ->
  exists m, _createAlignService sv name r = (Raise (ValueError m), r).
Proof.
  unfold _createAlignService. intros H.
  destruct (str_in name (ALGORITHM_CANDIDATES sv)) eqn:Hc; cbn [negb];
    [|by eexists].
  destruct H as [H|H]; [done|].
  assert (String.eqb name "blasr" = false) as ->
    by (apply String.eqb_neq; set_solver).
  assert (String.eqb name "bowtie" = false) as ->
    by (apply String.eqb_neq; set_solver).
  assert (String.eqb name "gmap" = false) as ->
    by (apply String.eqb_neq; set_solver).
  by eexists.
Qed.

(** X18. When [_createAlignService] returns, its answer is the name it
    was given, one of blasr, bowtie and gmap and among the candidates; it
    has made two calls, the construction of that service and then its
    availability check; and it has not set the runner's own fields. *)
Theorem createAlignService_ok (name s : string) (r r' : Runner) :
  _createAlignService sv name r = (Ok s, r') ->
  s = name /\
  name ∈ ["blasr"; "bowtie"; "gmap"] /\
  str_in name (ALGORITHM_CANDIDATES sv) = true /\
  calls r' = calls r ++ [CallServiceNew name; CallCheckAvailability] /\
  _alnService r' = _alnService r /\
  _output_dataset_type r' = _output_dataset_type r.
Proof.
  unfold _createAlignService.
  destruct (str_in name (ALGORITHM_CANDIDATES sv)) eqn:Hc; cbn [negb];
    [|discriminate].
  assert (Hcall : forall n : string,
    bind (call (CallServiceNew n) (service_new sv n))
         (fun _ => bind (call CallCheckAvailability
                              (service_checkAvailability sv name))
                        (fun _ => ret name)) r = (Ok s, r') ->
    s = name /\ calls r' = calls r ++ [CallServiceNew n; CallCheckAvailability] /\
    _alnService r' = _alnService r /\
    _output_dataset_type r' = _output_dataset_type r).
  { intros n. unfold bind, call, ret.
    destruct (service_new sv n (world r)) as [[[]|e] w1]; [|discriminate].
    cbn [world _output_dataset_type _alnService calls].
    destruct (service_checkAvailability sv name w1) as [[[]|e] w2]; [|discriminate].
    intros [= <- <-]. cbn [calls _alnService _output_dataset_type].
    by rewrite <- app_assoc. }
  destruct (String.eqb_spec name "blasr") as [->|?].
  { intros H. destruct (Hcall _ H) as (? & ? & ? & ?). repeat split; try done.
    repeat constructor. }
  destruct (String.eqb_spec name "bowtie") as [->|?].
  { intros H. destruct (Hcall _ H) as (? & ? & ? & ?). repeat split; try done.
    repeat constructor. }
  destruct (String.eqb_spec name "gmap") as [->|?].
  { intros H. destruct (Hcall _ H) as (? & ? & ? & ?). repeat split; try done.
    repeat constructor. }
  discriminate.
Qed.

(** X19. [_output] does nothing at all for an output that is neither SAM,
    CMP.H5 nor XML, a BAM file among them: it returns with the runner and
    the file system as they were. For a CMP.H5 output it raises the
    [IOError], again with no effect. *)
Theorem output_without_effect
    (r : Runner) (inSam refFile outFile : string) (readType : option string) :
  (getFileFormat outFile ∉ [SAM; CMP; XML] ->
   _output env sv inSam refFile outFile readType r = (Ok ("", 0, ""), r)) /\
  (getFileFormat outFile = CMP ->
   _output env sv inSam refFile outFile readType r
   = (Raise (IOError "pbalign no longer supports CMP.H5 Output in 3.0."), r)).
Proof.
  unfold _output. split.
  - intros H.
    rewrite !bool_decide_eq_false_2 by set_solver. done.
  - intros ->. done.
Qed.

(** X20. For an XML output [_output] makes one call, to the dataset
    writer, for the BAM file that has the name of the output with [.bam]
    for its extension, with the reference and the output path as given;
    the dataset type is the consensus one when the read type is [CCS],
    and then stays so in the runner; the input SAM path is not used. *)
Theorem output_xml_writes_dataset
    (r : Runner) (inSam refFile outFile : string) (readType : option string) :
  getFileFormat outFile = XML ->
  let t := if bool_decide (readType = Some "CCS") then ConsensusAlignmentSet
           else _output_dataset_type r in
  let outBam := real_ppath env (fst (Posix.splitext outFile) +:+ ".bam") in
  getFileFormat (fst (Posix.splitext outFile) +:+ ".bam") = BAM /\
  _output env sv inSam refFile outFile readType r
  = (match fst (dataset_write sv t outBam refFile outFile (world r)) with
     | Ok _ => Ok ("", 0, "")
     | Raise e => Raise e
     end,
     {| world := snd (dataset_write sv t outBam refFile outFile (world r));
        _output_dataset_type := t;
        _alnService := _alnService r;
        calls := calls r ++ [CallDatasetWrite t outBam refFile outFile] |}).
Proof.
  intros Hx. cbv zeta. destruct (xml_out_bam outFile Hx) as [Hbam Hfmt].
  split; [done|].
  unfold _output. rewrite Hx, Hbam.
  rewrite !bool_decide_eq_false_2 by done. rewrite bool_decide_eq_true_2 by done.
  unfold bind, call, ret, put_dataset_type.
  case_bool_decide; cbn [world _output_dataset_type _alnService calls];
    destruct (dataset_write sv _ _ _ _ _) as [[[]|e] w]; done.
Qed.

End RunnerParts.

Lemma makeSane_accepts_iff_witness :
  fst (_makeSane (args0 "blasr") (files0 "out.bam")) = Ok tt.
Proof.
  apply (proj2 (makeSane_accepts_iff (args0 "blasr") (files0 "out.bam"))).
  split; [vm_compute; discriminate|]. intros _. split; reflexivity.
Defined.

Lemma createAlignService_unknown_witness :
  exists m, _createAlignService sv0 "bwa" (runner0 "bwa" "out.sam")
            = (Raise (ValueError m), runner0 "bwa" "out.sam").
Proof.
  apply (createAlignService_unknown sv0 "bwa" (runner0 "bwa" "out.sam")).
  left. reflexivity.
Defined.

Lemma createAlignService_ok_witness :
  "blasr" = "blasr" /\
  "blasr" ∈ ["blasr"; "bowtie"; "gmap"] /\
  str_in "blasr" (ALGORITHM_CANDIDATES sv0) = true /\
  calls (snd (_createAlignService sv0 "blasr" (runner0 "blasr" "out.sam")))
  = calls (runner0 "blasr" "out.sam")
    ++ [CallServiceNew "blasr"; CallCheckAvailability] /\
  _alnService (snd (_createAlignService sv0 "blasr" (runner0 "blasr" "out.sam")))
  = _alnService (runner0 "blasr" "out.sam") /\
  _output_dataset_type
    (snd (_createAlignService sv0 "blasr" (runner0 "blasr" "out.sam")))
  = _output_dataset_type (runner0 "blasr" "out.sam").
Proof.
  apply (createAlignService_ok sv0 "blasr" "blasr" (runner0 "blasr" "out.sam")).
  reflexivity.
Defined.

Lemma output_without_effect_witness :
  _output env0 sv0 "/tmp/filtered.bam" "ref.fasta" "out.bam" None
          (runner0 "blasr" "out.bam")
  = (Ok ("", 0, ""), runner0 "blasr" "out.bam") /\
  _output env0 sv0 "/tmp/filtered.sam" "ref.fasta" "out.cmp.h5" None
          (runner0 "blasr" "out.cmp.h5")
  = (Raise (IOError "pbalign no longer supports CMP.H5 Output in 3.0."),
     runner0 "blasr" "out.cmp.h5").
Proof.
  split.
  - apply (proj1 (output_without_effect env0 sv0 (runner0 "blasr" "out.bam")
                    "/tmp/filtered.bam" "ref.fasta" "out.bam" None)).
    apply (bool_decide_eq_false_1 _). vm_compute. reflexivity.
  - apply (proj2 (output_without_effect env0 sv0 (runner0 "blasr" "out.cmp.h5")
                    "/tmp/filtered.sam" "ref.fasta" "out.cmp.h5" None)).
    vm_compute. reflexivity.
Defined.

Lemma output_xml_writes_dataset_witness :
  let t := if bool_decide (Some "CCS" = Some "CCS") then ConsensusAlignmentSet
           else _output_dataset_type (runner0 "blasr" "out.xml") in
  let outBam := real_ppath env0 (fst (Posix.splitext "out.xml") +:+ ".bam") in
  getFileFormat (fst (Posix.splitext "out.xml") +:+ ".bam") = BAM /\
  _output env0 sv0 "/tmp/filtered.bam" "ref.fasta" "out.xml" (Some "CCS")
          (runner0 "blasr" "out.xml")
  = (match fst (dataset_write sv0 t outBam "ref.fasta" "out.xml"
                  (world (runner0 "blasr" "out.xml"))) with
     | Ok _ => Ok ("", 0, "")
     | Raise e => Raise e
     end,
     {| world := snd (dataset_write sv0 t outBam "ref.fasta" "out.xml"
                        (world (runner0 "blasr" "out.xml")));
        _output_dataset_type := t;
        _alnService := _alnService (runner0 "blasr" "out.xml");
        calls := calls (runner0 "blasr" "out.xml")
                 ++ [CallDatasetWrite t outBam "ref.fasta" "out.xml"] |}).
Proof.
  apply (output_xml_writes_dataset env0 sv0 (runner0 "blasr" "out.xml")
           "/tmp/filtered.bam" "ref.fasta" "out.xml" (Some "CCS")).
  vm_compute. reflexivity.
Defined.

(** ** More on [ReferenceInfo] and [checkReferencePath] *)

Section Descriptor.
Context (env : Env).
Context (ET_parse : string -> option Element).
Context (ReferenceSet_toFofn : FS -> string -> result (list string)).

Lemma parse_reference_children_app (dirname : string) (l1 l2 : list Element)
    (acc : option string * option string) :
  parse_reference_children env dirname (l1 ++ l2) acc
  = rbind (parse_reference_children env dirname l1 acc)
          (fun acc' => parse_reference_children env dirname l2 acc').
Proof.
  revert acc. induction l1 as [|n l1 IH]; intros acc; [done|].
  cbn [app parse_reference_children].
  destruct (String.eqb (ET.tag n) "index_file"); [|apply IH].
  destruct (ET.get n "type") as [ty|]; [|done].
  destruct (String.eqb (Str.lower ty) "sawriter"); [|apply IH].
  destruct (descriptor_path env dirname (ET.text n)); [apply IH|done].
Qed.

Lemma parse_reference_children_desc (dirname : string) (l : list Element)
    (acc r : option string * option string) :
  Forall (fun x => ET.tag x <> "description") l ->
  parse_reference_children env dirname l acc = Ok r -> fst r = fst acc.
Proof.
  intros Hall. revert acc. induction Hall as [|n l Hn Hall IH]; intros acc.
  { by intros [= <-]. }
  cbn [parse_reference_children].
  apply String.eqb_neq in Hn. rewrite Hn.
  destruct (String.eqb (ET.tag n) "index_file").
  - destruct (ET.get n "type") as [ty|]; [|discriminate].
    destruct (String.eqb (Str.lower ty) "sawriter").
    + destruct (descriptor_path env dirname (ET.text n)); [|discriminate].
      cbn [rbind]. intros H. by rewrite (IH _ H).
    + intros H. by rewrite (IH _ H).
  - intros H. by rewrite (IH _ H).
Qed.

Lemma parse_reference_children_index (dirname : string) (l : list Element)
    (acc r : option string * option string) :
  Forall (fun x => is_sawriter_index x = false) l ->
  parse_reference_children env dirname l acc = Ok r -> snd r = snd acc.
Proof.
  intros Hall. revert acc. induction Hall as [|n l Hn Hall IH]; intros acc.
  { by intros [= <-]. }
  cbn [parse_reference_children]. unfold is_sawriter_index in Hn.
  destruct (String.eqb (ET.tag n) "index_file"); cbn [andb] in Hn.
  - destruct (ET.get n "type") as [ty|]; [|discriminate].
    rewrite Hn. intros H. by rewrite (IH _ H).
  - intros H. by rewrite (IH _ H).
Qed.

(** X21. In the loop over the children of the [reference] element the
    last one wins: the description is the text of the last [description]
    child, and the index file is the path of the last [index_file] child
    of type sawriter, whatever children of other tags or [index_file]
    children of other types come after it. *)
Theorem parse_reference_children_last_wins (dirname : string)
    (l1 l2 : list Element) (n : Element)
    (acc r : option string * option string) :
  parse_reference_children env dirname (l1 ++ n :: l2) acc = Ok r ->
  (ET.tag n = "description" ->
   Forall (fun x => ET.tag x <> "description") l2 -> fst r = ET.text n) /\
  (is_sawriter_index n = true ->
   Forall (fun x => is_sawriter_index x = false) l2 ->
   exists p, descriptor_path env dirname (ET.text n) = Ok p /\ snd r = Some p).
Proof.
  rewrite parse_reference_children_app.
  destruct (parse_reference_children env dirname l1 acc) as [acc1|];
    [|discriminate].
  cbn [rbind parse_reference_children]. intros H. split.
  - intros Htag Hall. rewrite Htag in H. cbn in H.
    by rewrite (parse_reference_children_desc _ _ _ _ Hall H).
  - intros Hn Hall. unfold is_sawriter_index in Hn.
    apply andb_true_iff in Hn as [Htag Hty]. rewrite Htag in H.
    destruct (ET.get n "type") as [ty|]; [|discriminate]. rewrite Hty in H.
    destruct (descriptor_path env dirname (ET.text n)) as [p|]; [|discriminate].
    cbn [rbind] in H. exists p. split; [done|].
    by rewrite (parse_reference_children_index _ _ _ _ Hall H).
Qed.

(** X22. In the loop over the annotations the first one of type adapter
    wins, and those after it are not looked at, malformed or not; with
    no such annotation there is no adapter file. The path of the file is
    joined to the directory as it is written. *)
Theorem parse_annotations_first_adapter (dirname : string)
    (l1 l2 : list Element) (a f : Element) (t : string) :
  Forall (fun x => ET.get x "type" <> Some "adapter") l1 ->
  parse_annotations env dirname l1 = Ok None /\
  (ET.get a "type" = Some "adapter" -> ET.find a "file" = Some f ->
   ET.text f = Some t ->
   parse_annotations env dirname (l1 ++ a :: l2)
   = Ok (Some (real_upath env (Posix.join dirname t)))).
Proof.
  intros Hall. induction Hall as [|x l1 Hx Hall [IH1 IH2]].
  - split; [done|]. intros Ha Hf Ht. cbn [app parse_annotations].
    by rewrite (bool_decide_eq_true_2 _ Ha), Hf, Ht.
  - cbn [app parse_annotations]. by rewrite (bool_decide_eq_false_2 _ Hx).
Qed.

Lemma parse_reference_children_escaped (dirname : string) (l : list Element)
    (acc r : option string * option string) (p : string) :
  parse_reference_children env dirname l acc = Ok r ->
  snd r = Some p -> snd acc = Some p \/ exists x, p = real_upath env x.
Proof.
  revert acc. induction l as [|n l IH]; intros acc.
  { intros [= <-]. by left. }
  cbn [parse_reference_children].
  destruct (String.eqb (ET.tag n) "index_file");
    [|intros H Hp; exact (IH _ H Hp)].
  destruct (ET.get n "type") as [ty|]; [|discriminate].
  destruct (String.eqb (Str.lower ty) "sawriter");
    [|intros H Hp; exact (IH _ H Hp)].
  destruct (descriptor_path env dirname (ET.text n)) as [sa|] eqn:Hsa;
    [|discriminate].
  cbn [rbind]. intros H Hp. destruct (IH _ H Hp) as [Hacc|?]; [|by right].
  right. cbn [snd] in Hacc. injection Hacc as <-.
  unfold descriptor_path in Hsa. destruct (_ ≫= _); [|discriminate].
  injection Hsa as <-. eauto.
Qed.

Lemma parse_annotations_escaped (dirname : string) (l : list Element) (p : string) :
  parse_annotations env dirname l = Ok (Some p) -> exists x, p = real_upath env x.
Proof.
  induction l as [|a l IH]; [discriminate|]. cbn [parse_annotations].
  case_bool_decide; [|done].
  destruct (ET.find a "file") as [f|]; [|discriminate].
  destruct (ET.text f) as [t|]; [|discriminate].
  intros [= <-]. eauto.
Qed.

(** X23. What a descriptor that loads gives: its name is an XML name and
    the file exists; the object records the escaped resolved name and its
    directory; it names a FASTA file; and every path it holds, of the
    FASTA file, of the index and of the adapter annotation, is a result
    of [real_upath]. *)
Theorem ReferenceInfo_init_ok (fs : FS) (xml : string) (ri : ReferenceInfo) :
  ReferenceInfo_init env ET_parse fs xml = Ok ri ->
  getFileFormat (real_ppath env xml) = XML /\
  isExist env fs (real_ppath env (real_upath env (real_ppath env xml))) = true /\
  ri_fileName ri = real_upath env (real_ppath env xml) /\
  ri_dirname ri = Posix.dirname (real_ppath env xml) /\
  (exists x, refFastaFile ri = Some (real_upath env x)) /\
  (forall p, refSawriterFile ri = Some p \/ adapterGffFile ri = Some p ->
             exists x, p = real_upath env x).
Proof.
  unfold ReferenceInfo_init, _parse, parse_body.
  case_bool_decide as Hx; cbn [negb]; [|discriminate].
  destruct (isExist _ _ _); [|discriminate].
  destruct (OS.read_file _ _ _) as [c|]; cbn [rbind]; [|destruct e; discriminate].
  destruct (ET_parse c) as [root|]; [|discriminate].
  destruct (ET.find root _) as [ref|]; [|discriminate].
  destruct (ET.find ref _) as [rf|]; [|discriminate].
  destruct (ET.get rf _) as [fmt|]; [|discriminate].
  destruct (if Str.contains _ _ then _ else _) as [fa|e0] eqn:Hfa; cbn [rbind];
    [|destruct e0; discriminate].
  destruct (parse_reference_children _ _ _ _) as [acc|e0] eqn:Hacc; cbn [rbind];
    [|destruct e0; discriminate].
  destruct (parse_annotations _ _ _) as [g|e0] eqn:Hg; cbn [rbind];
    [|destruct e0; discriminate].
  intros [= <-]. cbn. repeat split; try done.
  - destruct (Str.contains _ _); [|discriminate].
    unfold descriptor_path in Hfa. destruct (_ ≫= _); [|discriminate].
    injection Hfa as <-. eauto.
  - intros p [Hp|Hp].
    + by destruct (parse_reference_children_escaped _ _ _ _ _ Hacc Hp).
    + subst g. by apply (parse_annotations_escaped _ _ _ Hg).
Qed.

(** X24. How a descriptor fails to load: a name that is no XML name
    gives the [ValueError] in every file system; a file that is not
    there gives the [IOError] that names it; and a [ParseError] always
    carries the message that names the file. *)
Theorem ReferenceInfo_init_errors (fs : FS) (xml : string) :
  (getFileFormat (real_ppath env xml) <> XML ->
   ReferenceInfo_init env ET_parse fs xml
   = Raise (ValueError "The reference info file is not in XML format.")) /\
  (getFileFormat (real_ppath env xml) = XML ->
   isExist env fs (real_ppath env (real_upath env (real_ppath env xml))) = false ->
   ReferenceInfo_init env ET_parse fs xml
   = Raise (IOError (real_ppath env (real_upath env (real_ppath env xml))
                     +:+ " is not a valid reference info file."))) /\
  (forall m, ReferenceInfo_init env ET_parse fs xml = Raise (ParseError m) ->
             m = "Failed to parse "
                 +:+ real_ppath env (real_upath env (real_ppath env xml))).
Proof.
  unfold ReferenceInfo_init, _parse. split; [|split].
  - intros H. by rewrite (bool_decide_eq_false_2 _ H).
  - intros H Hex. by rewrite (bool_decide_eq_true_2 _ H), Hex.
  - intros m. destruct (negb _); [discriminate|].
    destruct (isExist _ _ _); [|discriminate].
    destruct (parse_body _ _ _ _ _ _) as [?|[]]; try discriminate.
    by intros [= <-].
Qed.

Local Abbreviation check := (checkReferencePath env ET_parse ReferenceSet_toFofn).

(** X25. Every error of [checkReferencePath] is an [IOError], the bare
    exception for a dataset that does not hold exactly one reference, or
    the error the dataset reader raised: the errors of the descriptor
    are never passed on, and a path that does not exist is reported
    before anything is read. *)
Theorem checkReferencePath_errors (fs : FS) (inRefpath : string) (e : exn) :
  check fs inRefpath = Raise e ->
  (isExist env fs (real_ppath env inRefpath) = false ->
   e = IOError ("The input path " +:+ real_ppath env inRefpath
                +:+ " does not exist.")) /\
  ((exists m, e = IOError m) \/
   (getFileFormat (real_ppath env inRefpath) = XML /\
    ((exists l, ReferenceSet_toFofn fs (real_ppath env inRefpath) = Ok l /\
                length l <> 1%nat /\
                e = Exception_ (real_ppath env inRefpath
                                +:+ " must contain exactly one reference")) \/
     ReferenceSet_toFofn fs (real_ppath env inRefpath) = Raise e))).
Proof.
  unfold checkReferencePath.
  destruct (isExist env fs (real_ppath env inRefpath)) eqn:Hex; cbn [negb].
  2:{ intros [= <-]. split; [done|]. left. eauto. }
  intros H. split; [done|]. revert H.
  destruct (locate_reference _ _ _) as [[fasta xml]|e0] eqn:Hloc; cbn [rbind].
  2:{ intros [= <-]. unfold locate_reference in Hloc.
      case_bool_decide; [discriminate|]. case_bool_decide as Hx; [|discriminate].
      right. split; [done|].
      destruct (ReferenceSet_toFofn fs _) as [[|g [|]]|e1]; cbn [rbind] in Hloc;
        try discriminate Hloc; injection Hloc as <-.
      - left. eexists. by split; [|split].
      - left. eexists. by split; [|split].
      - by right. }
  unfold consult_descriptor. cbn [fst snd].
  destruct (ReferenceInfo_init env ET_parse fs xml) as [ri|e1] eqn:Hinit.
  - destruct (ReferenceInfo_init_fasta env ET_parse fs xml ri Hinit) as [f Hf].
    cbn [rbind]. unfold finish_reference. rewrite Hf.
    destruct (negb _); [|discriminate]. intros [= <-]. left. eauto.
  - destruct fasta as [f|]; cbn [rbind]; [|intros [= <-]; left; eauto].
    unfold finish_reference.
    destruct (negb _); [|discriminate]. intros [= <-]. left. eauto.
Qed.


End Descriptor.

Lemma parse_reference_children_last_wins_witness :
  fst (Some "lambda", @None string)
  = ET.text (Elem "description" [] (Some "lambda") []) /\
  exists p,
    descriptor_path env0 "/repo"
      (ET.text (Elem "index_file" [("type", "SAWriter")]
                     (Some "./sequence/ref.fasta.sa") [])) = Ok p /\
    snd (Some "lambda", Some "/repo/sequence/ref.fasta.sa") = Some p.
Proof.
  split.
  - apply (proj1 (parse_reference_children_last_wins env0 "/repo" []
                    [Elem "file" [("format", "text/fasta")]
                          (Some "./sequence/ref.fasta") []]
                    (Elem "description" [] (Some "lambda") [])
                    (None, None) (Some "lambda", None)
                    ltac:(vm_compute; reflexivity))).
    + reflexivity.
    + constructor; [discriminate|constructor].
  - apply (proj2 (parse_reference_children_last_wins env0 "/repo"
                    [Elem "description" [] (Some "lambda") []]
                    [Elem "index_file" [("type", "indexer")]
                          (Some "./sequence/ref.fasta.index") [];
                     Elem "file" [("format", "text/fasta")]
                          (Some "./sequence/ref.fasta") []]
                    (Elem "index_file" [("type", "SAWriter")]
                          (Some "./sequence/ref.fasta.sa") [])
                    (None, None)
                    (Some "lambda", Some "/repo/sequence/ref.fasta.sa")
                    ltac:(vm_compute; reflexivity))).
    + vm_compute. reflexivity.
    + repeat constructor.
Defined.

Lemma parse_annotations_first_adapter_witness :
  parse_annotations env0 "/repo" [Elem "annotation" [("type", "other")] None []]
  = Ok None /\
  (ET.get (Elem "annotation" [("type", "adapter")] None
                [Elem "file" [] (Some "adapter.gff") []]) "type"
   = Some "adapter" ->
   ET.find (Elem "annotation" [("type", "adapter")] None
                 [Elem "file" [] (Some "adapter.gff") []]) "file"
   = Some (Elem "file" [] (Some "adapter.gff") []) ->
   ET.text (Elem "file" [] (Some "adapter.gff") []) = Some "adapter.gff" ->
   parse_annotations env0 "/repo"
     ([Elem "annotation" [("type", "other")] None []]
      ++ Elem "annotation" [("type", "adapter")] None
              [Elem "file" [] (Some "adapter.gff") []]
      :: [Elem "annotation" [("type", "adapter")] None []])
   = Ok (Some (real_upath env0 (Posix.join "/repo" "adapter.gff")))).
Proof.
  apply (parse_annotations_first_adapter env0 "/repo"
           [Elem "annotation" [("type", "other")] None []]
           [Elem "annotation" [("type", "adapter")] None []]
           (Elem "annotation" [("type", "adapter")] None
                 [Elem "file" [] (Some "adapter.gff") []])
           (Elem "file" [] (Some "adapter.gff") []) "adapter.gff").
  constructor; [vm_compute; discriminate|constructor].
Defined.

Lemma ReferenceInfo_init_ok_witness :
  getFileFormat (real_ppath env0 "/repo/reference.info.xml") = XML /\
  isExist env0 fs_repo
    (real_ppath env0 (real_upath env0 (real_ppath env0 "/repo/reference.info.xml")))
  = true /\
  ri_fileName refinfo0 = real_upath env0 (real_ppath env0 "/repo/reference.info.xml") /\
  ri_dirname refinfo0 = Posix.dirname (real_ppath env0 "/repo/reference.info.xml") /\
  (exists x, refFastaFile refinfo0 = Some (real_upath env0 x)) /\
  (forall p, refSawriterFile refinfo0 = Some p \/ adapterGffFile refinfo0 = Some p ->
             exists x, p = real_upath env0 x).
Proof.
  apply (ReferenceInfo_init_ok env0 ET_parse0 fs_repo "/repo/reference.info.xml").
  vm_compute. reflexivity.
Defined.

Lemma ReferenceInfo_init_errors_witness :
  ReferenceInfo_init env0 ET_parse0 fs_repo "/data/reads.txt"
  = Raise (ValueError "The reference info file is not in XML format.").
Proof.
  apply (proj1 (ReferenceInfo_init_errors env0 ET_parse0 fs_repo "/data/reads.txt")).
  vm_compute. discriminate.
Defined.

Lemma checkReferencePath_errors_witness :
  (isExist env0 fs_repo (real_ppath env0 "/nowhere") = false ->
   IOError "The input path /nowhere does not exist."
   = IOError ("The input path " +:+ real_ppath env0 "/nowhere"
              +:+ " does not exist.")) /\
  ((exists m, IOError "The input path /nowhere does not exist." = IOError m) \/
   (getFileFormat (real_ppath env0 "/nowhere") = XML /\
    ((exists l, ReferenceSet0 fs_repo (real_ppath env0 "/nowhere") = Ok l /\
                length l <> 1%nat /\
                IOError "The input path /nowhere does not exist."
                = Exception_ (real_ppath env0 "/nowhere"
                              +:+ " must contain exactly one reference")) \/
     ReferenceSet0 fs_repo (real_ppath env0 "/nowhere")
     = Raise (IOError "The input path /nowhere does not exist.")))).
Proof.
  apply (checkReferencePath_errors env0 ET_parse0 ReferenceSet0 fs_repo "/nowhere").
  vm_compute. reflexivity.
Defined.


(** ** Instances *)

Lemma real_paths_canonical_witness :
  Posix.isabs (real_ppath env0 "my\ reads/../x.fa") = true /\
  Posix.isabs (real_upath env0 "my\ reads/../x.fa") = true /\
  Posix.abspath env0 (real_ppath env0 "my\ reads/../x.fa")
  = real_ppath env0 "my\ reads/../x.fa" /\
  Posix.abspath env0 (real_upath env0 "my\ reads/../x.fa")
  = real_upath env0 "my\ reads/../x.fa" /\
  real_upath env0 (real_upath env0 "my\ reads/../x.fa")
  = real_upath env0 "my\ reads/../x.fa" /\
  real_ppath env0 (real_upath env0 "my\ reads/../x.fa")
  = real_ppath env0 "my\ reads/../x.fa".
Proof.
  apply (real_paths_canonical env0 "my\ reads/../x.fa"). reflexivity.
Defined.

Lemma getFileFormat_never_BAS_witness :
  getFileFormat "m1.bas.h5" <> BAS /\ getFileFormat "m1.bas.h5" = BAX.
Proof.
  split.
  - apply (proj1 (getFileFormat_never_BAS "m1.bas.h5")).
  - apply (proj2 (getFileFormat_never_BAS "m1.bas.h5")).
    + vm_compute. reflexivity.
    + left. vm_compute. reflexivity.
Defined.

Lemma valid_formats_by_extension_witness :
  isValidOutputFormat (getFileFormat "out.cmp.h5") = true /\
  (ext1 "in.sam" ∈ [".fa"; ".fasta"; ".fsta"; ".fna"; ".bam"; ".fofn"; ".xml"] \/
   (ext1 "in.sam" = ".h5" /\
    ext2 "in.sam" ∈ [".pls"; ".plx"; ".bas"; ".bax"; ".ccs"]) ->
   isValidInputFormat (getFileFormat "in.sam") = true).
Proof.
  split.
  - apply (proj2 (proj1 (valid_formats_by_extension "out.cmp.h5"))).
    right. split; vm_compute; reflexivity.
  - apply (proj2 (proj2 (proj2 (valid_formats_by_extension "in.sam")))).
Defined.


Section RunEarlyFailures.
Context (env : Env) {X : Type} (sv : @Services X).

(** X27. The two ways [run] fails before the aligner runs. An algorithm
    that is not among the candidates ends [run] with the [ValueError],
    with no call made and the runner untouched. An error of [_makeSane]
    ends [run] with that error after the two calls that create the
    service: by then the runner holds the service, and the options hold
    what [_makeSane] wrote to them before it raised. *)
Theorem run_early_failures (r : Runner) :
  (str_in (algorithm (w_args (world r))) (ALGORITHM_CANDIDATES sv) = false ->
   run env sv r
   = (Raise (ValueError ("ERROR: unrecognized algorithm "
                         +:+ algorithm (w_args (world r)))), r)) /\
  (forall name r1 e,
      _createAlignService sv (algorithm (w_args (world r))) r = (Ok name, r1) ->
      fst (_makeSane (w_args (world r1)) (w_fileNames (world r1))) = Raise e ->
      run env sv r
      = (Raise e,
         {| world := with_args (world r1)
                       (snd (_makeSane (w_args (world r1)) (w_fileNames (world r1))));
            _output_dataset_type := _output_dataset_type r1;
            _alnService := Some name;
            calls := calls r1 |})).
Proof.
  split.
  - intros Hc. unfold run, run_stages, bind, get_world, _createAlignService.
    cbn beta iota. by rewrite Hc.
  - intros name r1 e Hcreate Hsane.
    unfold run, run_stages, bind, get_world, put_alnService, put_world, raise.
    cbn beta iota. rewrite Hcreate. cbn beta iota. cbn [world].
    destruct (_makeSane _ _) as [res args'] eqn:Hm. cbn [fst snd] in *.
    subst res. done.
Qed.

End RunEarlyFailures.

Lemma run_early_failures_witness :
  run env0 sv0 (runner0 "bwa" "out.sam")
  = (Raise (ValueError ("ERROR: unrecognized algorithm "
                        +:+ algorithm (w_args (world (runner0 "bwa" "out.sam"))))),
     runner0 "bwa" "out.sam").
Proof.
  apply (proj1 (run_early_failures env0 sv0 (runner0 "bwa" "out.sam"))).
  reflexivity.
Defined.
